(** * UFM telemetry service: ingestion-and-serving pipeline

    A shallow embedding of the Go packages
    [internal/telemetry/models], [internal/telemetry/storage]
    (in-memory cache and hybrid store), [internal/telemetry] (service),
    [internal/telemetry/client] (generator client) and the health and metric
    handlers of [internal/http/handler], followed by the properties of the
    pipeline.

    Conventions of the embedding:
    - [time.Time] is the number of nanoseconds since Go's zero instant, a [Z];
      [IsZero] is equality with [0], [After] is [>].
    - [float64] is Rocq's primitive binary64 [float]; comparisons are the
      IEEE ones ([PrimFloat.ltb]), as Go's [<] and [>].
    - [int], [int64] are [Z]; the one sum whose wrap-around matters, the
      total age in [GetPerformanceMetrics], is reduced with [wrap64].
    - Go's [error] is the message string; [nil] is [None] / [Ok].
    - a [map[string]T] is a [gmap string T]; a slice is a [list].
    - [time.Now()], the repository and context cancellation are the
      environment: each function takes the clock readings and the scripted
      outcomes it consumes as explicit arguments.
    - Logging and the Prometheus counters of [monitoring/metrics] never
      influence a result and are left out. *)

From Stdlib Require Import ZArith Lia Bool List.
From Stdlib Require Import Floats.PrimFloat Floats.SpecFloat Floats.FloatOps.
From stdpp Require Import base option list gmap strings pretty.

Open Scope string_scope.
Open Scope Z_scope.

(** ** Go's [error] and results *)

Definition error := string.

Inductive result (A : Type) : Type :=
| Ok (a : A)
| Err (e : error).
Arguments Ok {A} a.
Arguments Err {A} e.

(** [fmt.Errorf("...: %w", err)] *)
Definition wrap (prefix : string) (e : error) : error := prefix ++ ": " ++ e.

(** ** time.Time and time.Duration *)

Definition Time := Z.

Definition IsZero (t : Time) : bool := t =? 0.
Definition After (t u : Time) : bool := u <? t.

Definition Before (t u : Time) : bool := t <? u.

(** [t.Add(d)] for a duration [d] in nanoseconds. *)
Definition Add (t : Time) (d : Z) : Time := t + d.

(** ** internal/telemetry/models *)
Module models.

Definition MetricType := string.

Definition MetricBandwidth : MetricType := "bandwidth_mbps".
Definition MetricLatency : MetricType := "latency_ms".
Definition MetricPacketErrors : MetricType := "packet_errors".
Definition MetricUtilization : MetricType := "utilization_pct".
Definition MetricTemperature : MetricType := "temperature_c".

Record TelemetryData := mkTelemetryData {
  ID : Z;
  SwitchID : string;
  Timestamp : Time;
  BandwidthMbps : float;
  LatencyMs : float;
  PacketErrors : Z;
  UtilizationPct : float;
  TemperatureC : float;
  CreatedAt : Time
}.

Definition set_SwitchID (s : string) (td : TelemetryData) : TelemetryData :=
  mkTelemetryData (ID td) s (Timestamp td) (BandwidthMbps td) (LatencyMs td)
    (PacketErrors td) (UtilizationPct td) (TemperatureC td) (CreatedAt td).

Definition set_Timestamp (t : Time) (td : TelemetryData) : TelemetryData :=
  mkTelemetryData (ID td) (SwitchID td) t (BandwidthMbps td) (LatencyMs td)
    (PacketErrors td) (UtilizationPct td) (TemperatureC td) (CreatedAt td).

(** The [interface{}] returned by [GetMetricValue]: a [float64] or an
    [int64]. *)
Inductive MetricValue :=
| VFloat (f : float)
| VInt (n : Z).

Definition GetMetricValue (td : TelemetryData) (metricType : MetricType)
  : result MetricValue :=
  if String.eqb metricType MetricBandwidth then Ok (VFloat (BandwidthMbps td))
  else if String.eqb metricType MetricLatency then Ok (VFloat (LatencyMs td))
  else if String.eqb metricType MetricPacketErrors then Ok (VInt (PacketErrors td))
  else if String.eqb metricType MetricUtilization then Ok (VFloat (UtilizationPct td))
  else if String.eqb metricType MetricTemperature then Ok (VFloat (TemperatureC td))
  else Err ("unknown metric type: " ++ metricType).

Record MetricResponse := mkMetricResponse {
  mr_SwitchID : string;
  mr_MetricType : string;
  mr_Value : MetricValue;
  mr_Timestamp : Time
}.

Record PerformanceMetrics := mkPerformanceMetrics {
  APILatencyMs : float;
  ActiveSwitches : Z;
  TotalRequests : Z;
  DataAgeSeconds : float;
  LastUpdate : Time
}.

Record Switch := mkSwitch {
  sw_ID : string;
  sw_Name : string;
  sw_Location : string;
  sw_Created : Time
}.

(** The values a [map[string]interface{}] built by [ToMap] holds. *)
Inductive Value :=
| JFloat (f : float)
| JInt (n : Z)
| JString (s : string).

Section Format.

(** [t.Format(time.RFC3339)], a function of the standard library. *)
Variable formatRFC3339 : Time -> string.

Definition ToMap (td : TelemetryData) : gmap string Value :=
  <["switch_id" := JString (SwitchID td)]>
    (<["timestamp" := JString (formatRFC3339 (Timestamp td))]>
       (<["bandwidth_mbps" := JFloat (BandwidthMbps td)]>
          (<["latency_ms" := JFloat (LatencyMs td)]>
             (<["packet_errors" := JInt (PacketErrors td)]>
                (<["utilization_pct" := JFloat (UtilizationPct td)]>
                   (<["temperature_c" := JFloat (TemperatureC td)]> ∅)))))).

End Format.

Record MetricsListResponse := mkMetricsListResponse {
  ml_SwitchID : string;
  ml_Metrics : gmap string Value;
  ml_Timestamp : Time
}.

Record AllMetricsResponse := mkAllMetricsResponse {
  am_Switches : list MetricsListResponse;
  am_Count : Z;
  am_Timestamp : Time
}.

(** [APIResponse], with the payload type of [Data] as a parameter;
    [Data] and [Error] are omitted from the JSON when empty. *)
Record APIResponse (A : Type) := mkAPIResponse {
  Success : bool;
  Data : option A;
  Error : string;
  api_Timestamp : Time
}.
Arguments mkAPIResponse {A} _ _ _ _.
Arguments Success {A} _.
Arguments Data {A} _.
Arguments Error {A} _.

End models.
Import models.

(** ** internal/telemetry/storage/cache.go *)
Module InMemoryCache.

Record t := mk {
  data : gmap string TelemetryData;
  lastUpdated : gmap string Time;
  requestCount : Z;
  hitCount : Z
}.

Definition NewInMemoryCache : t := mk ∅ ∅ 0 0.

(** The copy stored for key [switchID]: the key overwrites the record's
    id and a zero timestamp becomes the clock reading [now]. *)
Definition dataCopy (now : Time) (switchID : string) (d : TelemetryData)
  : TelemetryData :=
  let c := set_SwitchID switchID d in
  if IsZero (Timestamp c) then set_Timestamp now c else c.

(** [UpdateMetrics]: [now] and [now'] are the two [time.Now()] readings. *)
Definition UpdateMetrics (now now' : Time) (switchID : string)
    (d : TelemetryData) (c : t) : option error * t :=
  if String.eqb switchID "" then (Some "switchID cannot be empty", c)
  else
    (None,
     mk (<[switchID := dataCopy now switchID d]> (data c))
        (<[switchID := now']> (lastUpdated c))
        (requestCount c) (hitCount c)).

(** One iteration of the [range] loop of [UpdateBatch]. *)
Definition updateEntry (now : Time) (switchID : string) (d : TelemetryData)
    (c : t) : t :=
  if String.eqb switchID "" then c
  else mk (<[switchID := dataCopy now switchID d]> (data c))
          (<[switchID := now]> (lastUpdated c))
          (requestCount c) (hitCount c).

(** [UpdateBatch]: the loop ranges over a Go map, whose keys are distinct;
    it is a fold over the entries. *)
Definition UpdateBatch (now : Time) (batch : gmap string TelemetryData)
    (c : t) : option error * t :=
  if decide (batch = ∅) then (None, c)
  else (None, map_fold (updateEntry now) c batch).

Definition GetMetric (switchID : string) (metricType : MetricType) (c : t)
  : result MetricValue * t :=
  let c1 := mk (data c) (lastUpdated c) (requestCount c + 1) (hitCount c) in
  match data c !! switchID with
  | None => (Err ("switch " ++ switchID ++ " not found"), c1)
  | Some d =>
      (GetMetricValue d metricType,
       mk (data c) (lastUpdated c) (requestCount c + 1) (hitCount c + 1))
  end.

Definition ListAllSwitches (c : t) : gmap string TelemetryData * t :=
  (data c,
   mk (data c) (lastUpdated c) (requestCount c + 1)
      (if decide (data c = ∅) then hitCount c else hitCount c + 1)).

Definition GetSwitchCount (c : t) : Z := Z.of_nat (size (data c)).

Definition GetLastUpdate (switchID : string) (c : t) : Time :=
  match lastUpdated c !! switchID with
  | Some t => t
  | None => 0
  end.

Definition GetAllMetrics (switchID : string) (c : t)
  : result TelemetryData * t :=
  match data c !! switchID with
  | None =>
      (Err ("switch " ++ switchID ++ " not found"),
       mk (data c) (lastUpdated c) (requestCount c + 1) (hitCount c))
  | Some d =>
      (Ok d, mk (data c) (lastUpdated c) (requestCount c + 1) (hitCount c + 1))
  end.

(** One iteration of the [range] loop of [CleanupStale], on the cache and
    the count of removed entries. *)
Definition cleanupEntry (cutoff : Time) (switchID : string) (lastUpdate : Time)
    (acc : t * Z) : t * Z :=
  if Before lastUpdate cutoff
  then (mk (delete switchID (data acc.1)) (delete switchID (lastUpdated acc.1))
           (requestCount acc.1) (hitCount acc.1),
        acc.2 + 1)
  else acc.

(** [CleanupStale]: the loop ranges over [lastUpdated] and deletes the
    entry it is visiting, so that every entry present at the start is
    visited once. *)
Definition CleanupStale (now : Time) (maxAge : Z) (c : t) : Z * t :=
  let cutoff := Add now (- maxAge) in
  let '(c', removedCount) := map_fold (cleanupEntry cutoff) (c, 0) (lastUpdated c) in
  (removedCount, c').

Definition Clear (c : t) : t := mk ∅ ∅ 0 0.

End InMemoryCache.

(** ** context.Context

    A context is either [context.Background()], which is never done, or a
    context that can become done; [ctx.Err()] is then its error. Whether it
    is done at a given check is scripted by the environment. *)
Inductive Context :=
| Background
| Cancellable (err : error).

Definition ctxDone (ctx : Context) (fired : bool) : option error :=
  match ctx with
  | Background => None
  | Cancellable e => if fired then Some e else None
  end.

(** [time.Second], in nanoseconds. *)
Definition Second : Z := 1000000000.

(** ** internal/telemetry/storage/hybrid.go *)
Module HybridStore.

Record HybridStoreConfig := mkConfig {
  FlushInterval : Z;
  BatchSize : Z;
  CacheTTL : Z;
  MaxRetries : Z
}.

Definition DefaultHybridStoreConfig : HybridStoreConfig :=
  mkConfig (30 * Second) 100 (5 * 60 * Second) 3.

(** [make(chan []models.TelemetryData, 100)] *)
Definition flushQueueCap : nat := 100.

(** The store. [repository] is the sequence of records the repository
    has accepted, oldest first, as they were handed to [StoreMetrics] or
    [BulkStoreMetrics] (both write a batch in one transaction). [started] is [hs.ctx != nil] (equivalently
    [hs.cancel != nil]: both are assigned together in [Start]),
    [cancelled] is whether [hs.ctx] is done, [wg] is the wait group's
    counter. *)
Record t := mk {
  cache : InMemoryCache.t;
  repository : list TelemetryData;
  config : HybridStoreConfig;
  started : bool;
  cancelled : bool;
  wg : nat;
  flushQueue : list (list TelemetryData);
  totalRequests : Z;
  totalCacheHits : Z;
  totalDBWrites : Z;
  totalDBWriteErrors : Z;
  lastFlushTime : Time;
  startTime : Time;
  pendingFlushItems : Z
}.

Definition NewHybridStore (c : InMemoryCache.t) (repo : list TelemetryData)
    (cfg : HybridStoreConfig) (now : Time) : t :=
  mk c repo cfg false false 0 [] 0 0 0 0 0 now 0.

Definition set_cache (c : InMemoryCache.t) (hs : t) : t :=
  mk c (repository hs) (config hs) (started hs) (cancelled hs) (wg hs)
     (flushQueue hs) (totalRequests hs) (totalCacheHits hs)
     (totalDBWrites hs) (totalDBWriteErrors hs) (lastFlushTime hs)
     (startTime hs) (pendingFlushItems hs).

Definition set_queue (q : list (list TelemetryData)) (pending : Z) (hs : t) : t :=
  mk (cache hs) (repository hs) (config hs) (started hs) (cancelled hs) (wg hs)
     q (totalRequests hs) (totalCacheHits hs)
     (totalDBWrites hs) (totalDBWriteErrors hs) (lastFlushTime hs)
     (startTime hs) pending.

Definition set_lifecycle (st ca : bool) (w : nat) (start : Time) (hs : t) : t :=
  mk (cache hs) (repository hs) (config hs) st ca w
     (flushQueue hs) (totalRequests hs) (totalCacheHits hs)
     (totalDBWrites hs) (totalDBWriteErrors hs) (lastFlushTime hs)
     start (pendingFlushItems hs).

Definition incrementRequestCount (hs : t) : t :=
  mk (cache hs) (repository hs) (config hs) (started hs) (cancelled hs) (wg hs)
     (flushQueue hs) (totalRequests hs + 1) (totalCacheHits hs)
     (totalDBWrites hs) (totalDBWriteErrors hs) (lastFlushTime hs)
     (startTime hs) (pendingFlushItems hs).

Definition incrementCacheHit (hs : t) : t :=
  mk (cache hs) (repository hs) (config hs) (started hs) (cancelled hs) (wg hs)
     (flushQueue hs) (totalRequests hs) (totalCacheHits hs + 1)
     (totalDBWrites hs) (totalDBWriteErrors hs) (lastFlushTime hs)
     (startTime hs) (pendingFlushItems hs).

(** The bookkeeping of a successful repository write. *)
Definition recordWrite (metrics : list TelemetryData) (now : Time) (hs : t) : t :=
  mk (cache hs) (repository hs ++ metrics) (config hs) (started hs)
     (cancelled hs) (wg hs) (flushQueue hs) (totalRequests hs)
     (totalCacheHits hs)
     (totalDBWrites hs + Z.of_nat (length metrics)) (totalDBWriteErrors hs)
     now (startTime hs) (pendingFlushItems hs - Z.of_nat (length metrics)).

Definition recordWriteError (hs : t) : t :=
  mk (cache hs) (repository hs) (config hs) (started hs) (cancelled hs) (wg hs)
     (flushQueue hs) (totalRequests hs) (totalCacheHits hs)
     (totalDBWrites hs) (totalDBWriteErrors hs + 1) (lastFlushTime hs)
     (startTime hs) (pendingFlushItems hs).

(** *** writeToDatabase *)

(** What the environment does during one iteration of the retry loop:
    whether the context is done at the check before the write, the
    repository's answer ([None] is success), the clock reading taken on
    success, and whether the context becomes done during the backoff wait
    before the timer fires. *)
Record Attempt := mkAttempt {
  doneBefore : bool;
  storeErr : option error;
  clock : Time;
  doneInBackoff : bool
}.

(** When the script runs out the repository accepts the write. *)
Definition defaultAttempt : Attempt := mkAttempt false None 0 false.

(** Observable effects of the writer. *)
Inductive Event :=
| EvStore (attempt : Z) (rows : list TelemetryData) (answer : option error)
| EvBackoff (attempt : Z) (wait : Z) (completed : bool).

(** The body of [for attempt := 1; attempt <= MaxRetries; attempt++]:
    [fuel] counts the iterations left, [err] is the variable [err]. *)
Fixpoint retryLoop (ctx : Context) (metrics : list TelemetryData)
    (fuel : nat) (attempt : Z) (err : option error) (env : list Attempt)
    (hs : t) : option error * t * list Event :=
  match fuel with
  | O =>
      (Some (wrap ("failed to write metrics after "
                     ++ pretty (MaxRetries (config hs)) ++ " attempts")
                  (default "%!w(<nil>)" err)),
       recordWriteError hs, [])
  | S fuel' =>
      let a := hd defaultAttempt env in
      match ctxDone ctx (doneBefore a) with
      | Some e => (Some e, hs, [])
      | None =>
          match storeErr a with
          | None =>
              (None, recordWrite metrics (clock a) hs,
               [EvStore attempt metrics None])
          | Some e =>
              if attempt <? MaxRetries (config hs) then
                let backoff := attempt * Second in
                match ctxDone ctx (doneInBackoff a) with
                | Some ce =>
                    (Some ce, hs,
                     [EvStore attempt metrics (Some e);
                      EvBackoff attempt backoff false])
                | None =>
                    let '(r, hs', tr) :=
                      retryLoop ctx metrics fuel' (attempt + 1) (Some e)
                                (tl env) hs in
                    (r, hs',
                     EvStore attempt metrics (Some e)
                       :: EvBackoff attempt backoff true :: tr)
                end
              else
                let '(r, hs', tr) :=
                  retryLoop ctx metrics fuel' (attempt + 1) (Some e)
                            (tl env) hs in
                (r, hs', EvStore attempt metrics (Some e) :: tr)
          end
      end
  end.

Definition writeToDatabase (ctx : Context) (env : list Attempt)
    (metrics : list TelemetryData) (hs : t)
  : option error * t * list Event :=
  match metrics with
  | [] => (None, hs, [])
  | _ => retryLoop ctx metrics (Z.to_nat (MaxRetries (config hs))) 1 None env hs
  end.

(** *** Cache interface *)

(** The non-blocking send [select { case hs.flushQueue <- batch: ...
    default: ... }]: the batch is queued when the buffer has room and is
    dropped, with only a log line, when it is full. *)
Definition enqueue (batch : list TelemetryData) (hs : t) : t :=
  if (length (flushQueue hs) <? flushQueueCap)%nat
  then set_queue (flushQueue hs ++ [batch])
                 (pendingFlushItems hs + Z.of_nat (length batch)) hs
  else hs.

Definition UpdateMetrics (now now' : Time) (switchID : string)
    (d : TelemetryData) (hs : t) : option error * t :=
  match InMemoryCache.UpdateMetrics now now' switchID d (cache hs) with
  | (Some e, _) => (Some (wrap "failed to update cache" e), hs)
  | (None, c') =>
      (None, incrementRequestCount (enqueue [d] (set_cache c' hs)))
  end.

(** The slice built from the map by [UpdateBatch]. *)
Definition batchSlice (batch : gmap string TelemetryData) : list TelemetryData :=
  (fun kv => set_SwitchID (fst kv) (snd kv)) <$> map_to_list batch.

Definition UpdateBatch (now : Time) (batch : gmap string TelemetryData)
    (hs : t) : option error * t :=
  match InMemoryCache.UpdateBatch now batch (cache hs) with
  | (Some e, _) => (Some (wrap "failed to update cache batch" e), hs)
  | (None, c') =>
      let metrics := batchSlice batch in
      let hs1 := set_cache c' hs in
      let hs2 := match metrics with [] => hs1 | _ => enqueue metrics hs1 end in
      (None, incrementRequestCount hs2)
  end.

(** [cacheData] of [StoreMetricsBulk]: later records of the slice
    overwrite earlier ones with the same switch id. *)
Definition cacheData (metrics : list TelemetryData) : gmap string TelemetryData :=
  foldl (fun m metric => <[SwitchID metric := metric]> m) ∅ metrics.

Definition StoreMetricsBulk (ctx : Context) (env : list Attempt)
    (now : Time) (metrics : list TelemetryData) (hs : t)
  : option error * t * list Event :=
  match metrics with
  | [] => (None, hs, [])
  | _ =>
      match InMemoryCache.UpdateBatch now (cacheData metrics) (cache hs) with
      | (Some e, _) => (Some (wrap "failed to update cache batch" e), hs, [])
      | (None, c') => writeToDatabase ctx env metrics (set_cache c' hs)
      end
  end.

Definition GetMetric (switchID : string) (metricType : MetricType) (hs : t)
  : result MetricValue * t :=
  let hs1 := incrementCacheHit (incrementRequestCount hs) in
  let '(r, c') := InMemoryCache.GetMetric switchID metricType (cache hs1) in
  (r, set_cache c' hs1).

Definition GetSwitchCount (hs : t) : Z := InMemoryCache.GetSwitchCount (cache hs).

Definition GetLastUpdate (switchID : string) (hs : t) : Time :=
  InMemoryCache.GetLastUpdate switchID (cache hs).

(** *** Performance snapshot *)

(** [time.Duration] is an [int64] of nanoseconds. *)
Definition wrap64 (z : Z) : Z := (z + 2 ^ 63) mod 2 ^ 64 - 2 ^ 63.

(** [t.Sub(u)], which saturates at the extreme durations. *)
Definition Sub (t u : Time) : Z :=
  Z.max (- 2 ^ 63) (Z.min (2 ^ 63 - 1) (t - u)).

(** [float64(n)] for an integer [n]: rounding to nearest, ties to even. *)
Definition float64_of_Z (z : Z) : float :=
  SF2Prim (binary_normalize prec emax z 0 false).

(** [Duration.Seconds]:
    [float64(d / Second) + float64(d % Second) / 1e9]. *)
Definition Seconds (d : Z) : float :=
  (float64_of_Z (Z.quot d Second) + float64_of_Z (Z.rem d Second) / 1e9)%float.

(** [GetPerformanceMetrics]. [since k] is the clock reading of the
    [time.Since] call made for switch [k]. The runtime's memory statistic
    is not modelled. The result is never [nil]. *)
Definition GetPerformanceMetrics (since : string -> Time) (hs : t)
  : PerformanceMetrics * t :=
  let '(switches, c') := InMemoryCache.ListAllSwitches (cache hs) in
  let totalAge :=
    map_fold (fun k d acc => wrap64 (acc + Sub (since k) (Timestamp d)))
             0 switches in
  let n := Z.of_nat (size switches) in
  let avgDataAge :=
    if 0 <? n then (Seconds totalAge / float64_of_Z n)%float else 0%float in
  (mkPerformanceMetrics 0.5%float n (totalRequests hs) avgDataAge
                        (lastFlushTime hs),
   set_cache c' hs).

(** *** Lifecycle *)

(** [Start]: the three workers (flush, cleanup, periodic report) are
    registered with the wait group. *)
Definition Start (now : Time) (hs : t) : option error * t :=
  if started hs then (Some "hybrid store already started", hs)
  else (None, set_lifecycle true false (wg hs + 3) now hs).

(** One round of the shutdown loop of [flushWorker]: whether the
    three-second drain deadline is the branch taken, and otherwise the
    script of the write of the batch received. *)
Record DrainStep := mkDrainStep {
  deadline : bool;
  attempts : list Attempt
}.

Definition defaultStep : DrainStep := mkDrainStep false [].

(** The shutdown branch of [flushWorker]: queued batches are written
    until the queue is empty or the deadline fires. *)
Fixpoint drainQueue (steps : list DrainStep) (q : list (list TelemetryData))
    (hs : t) : t * list Event :=
  match q with
  | [] => (set_queue [] (pendingFlushItems hs) hs, [])
  | b :: q' =>
      let s := hd defaultStep steps in
      if deadline s then (set_queue (b :: q') (pendingFlushItems hs) hs, [])
      else
        let '(_, hs', tr) :=
          writeToDatabase (Cancellable "context deadline exceeded")
                          (attempts s) b
                          (set_queue q' (pendingFlushItems hs) hs) in
        let '(hs'', tr') := drainQueue (tl steps) q' hs' in
        (hs'', (tr ++ tr')%list)
  end.

(** What the environment answers at the checks of a context that is
    already cancelled. *)
Definition cancelledAttempt : Attempt := mkAttempt true None 0 true.

(** [flushWorker] from the moment [hs.ctx] is cancelled, the worker waiting
    in its outer [select]. While the queue holds a batch both branches of
    that [select] are ready and either may be taken; [raced] counts the
    rounds in which the batch is taken first: it is handed to
    [writeToDatabase] under the cancelled [hs.ctx] and the result is
    ignored. Then the [ctx.Done] branch runs the shutdown drain. *)
Fixpoint flushWorker (raced : nat) (steps : list DrainStep)
    (q : list (list TelemetryData)) (hs : t) : t * list Event :=
  match raced, q with
  | S raced', metrics :: q' =>
      let '(_, hs', tr) :=
        writeToDatabase (Cancellable "context canceled") [cancelledAttempt]
                        metrics (set_queue q' (pendingFlushItems hs) hs) in
      let '(hs'', tr') := flushWorker raced' steps q' hs' in
      (hs'', (tr ++ tr')%list)
  | _, _ => drainQueue steps q hs
  end.

(** What happens while [Stop] waits: whether the workers return before
    the caller's context is done, how many batches the flush worker takes
    off the queue before it notices the cancellation, and the script of its
    drain. *)
Record StopEnv := mkStopEnv {
  workersDone : bool;
  stopErr : error;
  raced : nat;
  drainSteps : list DrainStep
}.

(** [Stop]: cancel the store's context, then wait for the wait group or
    for the caller's context, whichever comes first. When the workers were
    still registered they run their shutdown branches before the wait
    group reaches zero; when the caller's context wins they are left
    running, and what they do after [Stop] has returned is not part of the
    call. The flush worker is taken to be waiting for a batch when [Stop]
    is called. *)
Definition Stop (env : StopEnv) (hs : t) : option error * t * list Event :=
  if negb (started hs) then (Some "hybrid store not started", hs, [])
  else
    let hs1 := set_lifecycle true true (wg hs) (startTime hs) hs in
    if workersDone env then
      match wg hs1 with
      | O => (None, hs1, [])
      | S _ =>
          let '(hs2, tr) :=
            flushWorker (raced env) (drainSteps env) (flushQueue hs1) hs1 in
          (None, set_lifecycle true true 0 (startTime hs2) hs2, tr)
      end
    else (Some (stopErr env), hs1, []).

(** The state of the lifecycle, read off the fields. *)
Inductive Phase := Created | Started | Stopping | Stopped.

Definition phase (hs : t) : Phase :=
  if negb (started hs) then Created
  else if negb (cancelled hs) then Started
  else match wg hs with O => Stopped | S _ => Stopping end.

(** *** Reads delegated to the cache *)

Definition GetAllMetrics (switchID : string) (hs : t) : result TelemetryData * t :=
  let hs1 := incrementCacheHit (incrementRequestCount hs) in
  let '(r, c') := InMemoryCache.GetAllMetrics switchID (cache hs1) in
  (r, set_cache c' hs1).

Definition ListAllSwitches (hs : t) : gmap string TelemetryData * t :=
  let hs1 := incrementCacheHit (incrementRequestCount hs) in
  let '(r, c') := InMemoryCache.ListAllSwitches (cache hs1) in
  (r, set_cache c' hs1).

(** *** Persistence operations *)

(** The drain loop of [FlushToDatabase]: batches are received and appended
    to [allMetrics] until the queue is empty (the [default] branch) or the
    five-second drain context is the branch taken; [deadlines] scripts, for
    each round in which a batch is ready, whether the context wins. The
    result is [allMetrics] and what is left on the queue. *)
Fixpoint collectQueue (deadlines : list bool) (q : list (list TelemetryData))
    (allMetrics : list TelemetryData)
  : list TelemetryData * list (list TelemetryData) :=
  match q with
  | [] => (allMetrics, [])
  | metrics :: q' =>
      if hd false deadlines then (allMetrics, q)
      else collectQueue (tl deadlines) q' (allMetrics ++ metrics)%list
  end.

Definition FlushToDatabase (ctx : Context) (deadlines : list bool)
    (env : list Attempt) (hs : t) : option error * t * list Event :=
  let '(allMetrics, rest) := collectQueue deadlines (flushQueue hs) [] in
  let hs1 := set_queue rest (pendingFlushItems hs) hs in
  match allMetrics with
  | [] => (None, hs1, [])
  | _ => writeToDatabase ctx env allMetrics hs1
  end.

(** What the repository answers during [LoadFromDatabase]: the result of
    [ListSwitches], the result of [GetLatestMetrics] for each switch id,
    and the two clock readings of the cache update made for it. *)
Record LoadEnv := mkLoadEnv {
  listSwitches : result (list Switch);
  latestMetrics : string -> result TelemetryData;
  loadClock : string -> Time;
  loadClock' : string -> Time
}.

(** The body of the loop of [LoadFromDatabase]. *)
Definition loadSwitch (env : LoadEnv) (hs : t) (sw : Switch) : t :=
  match latestMetrics env (sw_ID sw) with
  | Err _ => hs
  | Ok metrics =>
      match InMemoryCache.UpdateMetrics (loadClock env (sw_ID sw))
              (loadClock' env (sw_ID sw)) (sw_ID sw) metrics (cache hs) with
      | (Some _, _) => hs
      | (None, c') => set_cache c' hs
      end
  end.

Definition LoadFromDatabase (env : LoadEnv) (hs : t) : option error * t :=
  match listSwitches env with
  | Err e => (Some (wrap "failed to load switches" e), hs)
  | Ok switches => (None, foldl (loadSwitch env) hs switches)
  end.

End HybridStore.

(** ** internal/telemetry: telemetryService *)
Module telemetryService.

Record t := mk {
  store : HybridStore.t;
  startTime : Time
}.

Definition NewTelemetryService (st : HybridStore.t) (now : Time) : t :=
  mk st now.

Definition IngestMetrics (now now' : Time) (d : TelemetryData) (s : t)
  : option error * t :=
  if String.eqb (SwitchID d) "" then (Some "switchID cannot be empty", s)
  else
    match HybridStore.UpdateMetrics now now' (SwitchID d) d (store s) with
    | (Some e, _) => (Some (wrap "failed to ingest metrics" e), s)
    | (None, st') => (None, mk st' (startTime s))
    end.

(** The filter loop of [IngestBatch]. *)
Definition validData (batch : list TelemetryData) : list TelemetryData :=
  filter (fun d => negb (String.eqb (SwitchID d) "")) batch.

(** [IngestBatch]; the bulk store runs under [context.Background()]. *)
Definition IngestBatch (env : list HybridStore.Attempt) (now : Time)
    (batch : list TelemetryData) (s : t)
  : option error * t * list HybridStore.Event :=
  match batch with
  | [] => (None, s, [])
  | _ =>
      match validData batch with
      | [] => (Some "no valid telemetry data to ingest", s, [])
      | valid =>
          let '(r, st', tr) :=
            HybridStore.StoreMetricsBulk Background env now valid (store s) in
          match r with
          | Some e =>
              (Some (wrap "failed to ingest batch metrics" e),
               mk st' (startTime s), tr)
          | None => (None, mk st' (startTime s), tr)
          end
      end
  end.

(** [GetMetric]; [now] is the clock reading used when the store has no
    last-update time for the switch. *)
Definition GetMetric (now : Time) (switchID : string)
    (metricType : MetricType) (s : t) : result MetricResponse * t :=
  if String.eqb switchID "" then (Err "switchID cannot be empty", s)
  else
    let '(r, st') := HybridStore.GetMetric switchID metricType (store s) in
    let s' := mk st' (startTime s) in
    match r with
    | Err e =>
        (Err (wrap ("failed to get metric " ++ metricType ++ " for switch "
                      ++ switchID) e), s')
    | Ok value =>
        let lastUpdate := HybridStore.GetLastUpdate switchID st' in
        let lastUpdate := if IsZero lastUpdate then now else lastUpdate in
        (Ok (mkMetricResponse switchID metricType value lastUpdate), s')
    end.

(** The health report, a [map[string]interface{}] in the source; the
    formatted [uptime] and [timestamp] entries are left out. *)
Record Health := mkHealth {
  h_service : string;
  h_status : string;
  h_switch_count : Z;
  h_checks : gmap string string;
  h_performance : option PerformanceMetrics;
  h_version : string
}.

Definition GetHealthStatus (since : string -> Time) (s : t) : Health * t :=
  let switchCount := HybridStore.GetSwitchCount (store s) in
  let '(perf, st') := HybridStore.GetPerformanceMetrics since (store s) in
  let performance := Some perf in
  let status := "healthy" in
  let checks : gmap string string :=
    <["storage" := "ok"]> (<["cache" := "ok"]> (<["switches" := "ok"]> ∅)) in
  let '(status, checks) :=
    match performance with
    | Some p =>
        if PrimFloat.ltb 300 (DataAgeSeconds p)
        then ("degraded", <["data_freshness" := "warning"]> checks)
        else (status, checks)
    | None => (status, checks)
    end in
  let '(status, checks) :=
    if switchCount =? 0
    then ("degraded", <["switches" := "no_data"]> checks)
    else (status, checks) in
  (mkHealth "telemetry" status switchCount checks performance "1.0.0",
   mk st' (startTime s)).

(** [ValidateMetricData]. No function of the service calls it. *)
Definition ValidateMetricData (d : TelemetryData) : option error :=
  if String.eqb (SwitchID d) "" then Some "switchID cannot be empty"
  else if PrimFloat.ltb (BandwidthMbps d) 0 then Some "bandwidth cannot be negative"
  else if PrimFloat.ltb (LatencyMs d) 0 then Some "latency cannot be negative"
  else if PacketErrors d <? 0 then Some "packet errors cannot be negative"
  else if PrimFloat.ltb (UtilizationPct d) 0 || PrimFloat.ltb 100 (UtilizationPct d)
  then Some "utilization must be between 0 and 100"
  else None.

Section Format.

Variable formatRFC3339 : Time -> string.

Definition GetSwitchMetrics (switchID : string) (s : t)
  : result MetricsListResponse * t :=
  if String.eqb switchID "" then (Err "switchID cannot be empty", s)
  else
    let '(r, st') := HybridStore.GetAllMetrics switchID (store s) in
    let s' := mk st' (startTime s) in
    match r with
    | Err e => (Err (wrap ("failed to get metrics for switch " ++ switchID) e), s')
    | Ok d =>
        (Ok (mkMetricsListResponse switchID (ToMap formatRFC3339 d) (Timestamp d)), s')
    end.

(** [GetAllMetrics]: the loop ranges over the map returned by the store
    (whose entries are never [nil]) and appends one response per entry. *)
Definition GetAllMetrics (now : Time) (s : t) : result AllMetricsResponse * t :=
  let '(allData, st') := HybridStore.ListAllSwitches (store s) in
  let switchMetrics :=
    (fun kv => mkMetricsListResponse (fst kv) (ToMap formatRFC3339 (snd kv))
                 (Timestamp (snd kv))) <$> map_to_list allData in
  (Ok (mkAllMetricsResponse switchMetrics (Z.of_nat (length switchMetrics)) now),
   mk st' (startTime s)).

End Format.

End telemetryService.

(** ** internal/telemetry: QueuedTelemetryService, the request handlers *)
Module QueuedTelemetryService.

(** The type assertions [response.Metrics[name].(float64)] and
    [.(int64)]: the field keeps its zero value when they fail. *)
Definition asFloat (v : option Value) : float :=
  match v with Some (JFloat f) => f | _ => 0%float end.

Definition asInt (v : option Value) : Z :=
  match v with Some (JInt n) => n | _ => 0 end.

Definition HandleGetAllMetrics (formatRFC3339 : Time -> string)
    (switchID : string) (s : telemetryService.t)
  : result TelemetryData * telemetryService.t :=
  match telemetryService.GetSwitchMetrics formatRFC3339 switchID s with
  | (Err e, s') => (Err e, s')
  | (Ok response, s') =>
      (Ok (mkTelemetryData 0 switchID (ml_Timestamp response)
             (asFloat (ml_Metrics response !! "bandwidth_mbps"))
             (asFloat (ml_Metrics response !! "latency_ms"))
             (asInt (ml_Metrics response !! "packet_errors"))
             (asFloat (ml_Metrics response !! "utilization_pct"))
             (asFloat (ml_Metrics response !! "temperature_c"))
             0),
       s')
  end.

(** [HandleListAllSwitches]: the loop over [response.Switches] files one
    record per entry under the entry's switch id. *)
Definition HandleListAllSwitches (formatRFC3339 : Time -> string) (now : Time)
    (s : telemetryService.t)
  : gmap string TelemetryData * telemetryService.t :=
  match telemetryService.GetAllMetrics formatRFC3339 now s with
  | (Err _, s') => (∅, s')
  | (Ok response, s') =>
      (foldl
         (fun (result : gmap string TelemetryData) switchMetrics =>
            <[ml_SwitchID switchMetrics :=
                mkTelemetryData 0 (ml_SwitchID switchMetrics)
                  (ml_Timestamp switchMetrics)
                  (asFloat (ml_Metrics switchMetrics !! "bandwidth_mbps"))
                  (asFloat (ml_Metrics switchMetrics !! "latency_ms"))
                  (asInt (ml_Metrics switchMetrics !! "packet_errors"))
                  (asFloat (ml_Metrics switchMetrics !! "utilization_pct"))
                  (asFloat (ml_Metrics switchMetrics !! "temperature_c"))
                  0]> result)
         ∅ (am_Switches response),
       s')
  end.

End QueuedTelemetryService.

(** ** internal/http/handler: the health and metric endpoints *)
Module telemetryHandler.

Definition StatusOK : Z := 200.
Definition StatusInternalServerError : Z := 500.
Definition StatusServiceUnavailable : Z := 503.

(** The status code chosen by [GetHealthStatus] for the report the
    service returned ([None] is a [nil] map). *)
Definition statusCode (healthStatus : option telemetryService.Health) : Z :=
  match healthStatus with
  | None => StatusInternalServerError
  | Some h =>
      if String.eqb (telemetryService.h_status h) "healthy"
      then StatusOK else StatusServiceUnavailable
  end.

Definition GetHealthStatus (since : string -> Time) (s : telemetryService.t)
  : Z * option telemetryService.Health * telemetryService.t :=
  let '(h, s') := telemetryService.GetHealthStatus since s in
  (statusCode (Some h), Some h, s').

Definition StatusBadRequest : Z := 400.
Definition StatusNotFound : Z := 404.

(** [utils.RespondWithSuccess] and [utils.RespondWithError]: the status
    code and the response envelope. *)
Definition RespondWithSuccess {A} (now : Time) (d : A) : Z * APIResponse A :=
  (StatusOK, mkAPIResponse true (Some d) "" now).

Definition RespondWithError {A} (now : Time) (statusCode : Z) (message : string)
  : Z * APIResponse A :=
  (statusCode, mkAPIResponse false None message now).

Definition isValidMetricType (metricType : MetricType) : bool :=
  existsb (String.eqb metricType)
    [MetricBandwidth; MetricLatency; MetricPacketErrors; MetricUtilization;
     MetricTemperature].

(** [GetMetric], for the route parameters [switchId] and [metricType];
    [now] is the clock reading of the response envelope and [t] the one the
    service may take. *)
Definition GetMetric (now t : Time) (switchID metricTypeStr : string)
    (s : telemetryService.t)
  : Z * APIResponse MetricResponse * telemetryService.t :=
  if String.eqb switchID ""
  then (RespondWithError now StatusBadRequest "switchId is required", s)
  else if String.eqb metricTypeStr ""
  then (RespondWithError now StatusBadRequest "metricType is required", s)
  else if negb (isValidMetricType metricTypeStr)
  then (RespondWithError now StatusBadRequest ("invalid metric type: " ++ metricTypeStr), s)
  else
    match telemetryService.GetMetric t switchID metricTypeStr s with
    | (Err e, s') =>
        (RespondWithError now StatusNotFound ("metric not found: " ++ e), s')
    | (Ok response, s') => (RespondWithSuccess now response, s')
    end.

End telemetryHandler.

(** ** internal/telemetry/client: GeneratorClient *)
Module GeneratorClient.

Record t := mk {
  service : telemetryService.t;
  lastGenerationID : string;
  lastDataTimestamp : Time;
  totalPolls : Z;
  successfulPolls : Z;
  duplicateSkips : Z;
  errorCount : Z;
  lastPollTime : Time
}.

Definition NewGeneratorClient (s : telemetryService.t) : t :=
  mk s "" 0 0 0 0 0 0.

(** What one successful fetch delivers, as the client observes it: the
    [X-Generation-ID] header (empty when absent), [parseTimestamp] of the
    [X-Data-Timestamp] header (zero when absent or unparsable), whether
    the body is empty, what [extractFirstTimestampFromCSV] reads off the
    first data row (zero when there is none), and what [parseCSVData]
    makes of the body. *)
Record Snapshot := mkSnapshot {
  generationID : string;
  headerTimestamp : Time;
  bodyEmpty : bool;
  firstRowTimestamp : Time;
  parsed : result (list TelemetryData)
}.

Definition isDuplicateData (generationID : string) (dataTimestamp : Time)
    (gc : t) : bool :=
  if negb (String.eqb generationID "")
     && String.eqb generationID (lastGenerationID gc) then true
  else if negb (IsZero dataTimestamp)
          && negb (After dataTimestamp (lastDataTimestamp gc)) then true
  else false.

(** The data timestamp [fetchAndProcessData] extracts. *)
Definition dataTimestampOf (r : Snapshot) : Time :=
  if IsZero (headerTimestamp r) && negb (bodyEmpty r)
  then firstRowTimestamp r else headerTimestamp r.

Definition bumpErrors (gc : t) : t :=
  mk (service gc) (lastGenerationID gc) (lastDataTimestamp gc) (totalPolls gc)
     (successfulPolls gc) (duplicateSkips gc) (errorCount gc + 1)
     (lastPollTime gc).

(** How a poll ended. *)
Inductive Outcome :=
| FetchFailed
| Duplicate
| ParseFailed
| IngestFailed
| Ingested.

(** [fetchAndProcessData]. [fetched] is the result of [fetchCSVData];
    [env] and [now] are consumed by [IngestBatch]. Switch registration
    writes only the repository's switch table and its failures are
    ignored; it is left out. *)
Definition fetchAndProcessData (fetched : result Snapshot)
    (env : list HybridStore.Attempt) (now : Time) (gc : t) : Outcome * t :=
  match fetched with
  | Err _ => (FetchFailed, bumpErrors gc)
  | Ok r =>
      let dataTimestamp := dataTimestampOf r in
      if isDuplicateData (generationID r) dataTimestamp gc then
        (Duplicate,
         mk (service gc) (lastGenerationID gc) (lastDataTimestamp gc)
            (totalPolls gc) (successfulPolls gc) (duplicateSkips gc + 1)
            (errorCount gc) (lastPollTime gc))
      else
        match parsed r with
        | Err _ => (ParseFailed, bumpErrors gc)
        | Ok telemetryData =>
            let '(err, s', _) :=
              telemetryService.IngestBatch env now telemetryData (service gc) in
            match err with
            | Some _ =>
                (IngestFailed,
                 mk s' (lastGenerationID gc) (lastDataTimestamp gc)
                    (totalPolls gc) (successfulPolls gc) (duplicateSkips gc)
                    (errorCount gc + 1) (lastPollTime gc))
            | None =>
                (Ingested,
                 mk s' (generationID r) dataTimestamp (totalPolls gc)
                    (successfulPolls gc + 1) (duplicateSkips gc)
                    (errorCount gc) (lastPollTime gc))
            end
        end
  end.

Definition pollAndIngest (pollTime : Time) (fetched : result Snapshot)
    (env : list HybridStore.Attempt) (now : Time) (gc : t) : Outcome * t :=
  fetchAndProcessData fetched env now
    (mk (service gc) (lastGenerationID gc) (lastDataTimestamp gc)
        (totalPolls gc + 1) (successfulPolls gc) (duplicateSkips gc)
        (errorCount gc) pollTime).

(** *** Parsing *)

Section Parsing.

(** Functions of the standard library: [csv.Reader.ReadAll] on the body,
    [time.Parse(time.RFC3339Nano, _)], [strconv.ParseFloat(_, 64)] and
    [strconv.ParseInt(_, 10, 64)]. *)
Variable readAll : string -> result (list (list string)).
Variable parseTime : string -> result Time.
Variable ParseFloat : string -> result float.
Variable ParseInt : string -> result Z.





End Parsing.

(** *** Switch registration *)



End GeneratorClient.

(** * Vocabulary of the properties *)

Section CacheVocabulary.
Import InMemoryCache.

(** The invariant of the cache: every entry is filed under its own,
    non-empty switch id and carries a non-zero timestamp. *)
Definition wellFormed (c : t) : Prop :=
  forall k r, data c !! k = Some r ->
    k ≠ "" ∧ SwitchID r = k ∧ Timestamp r ≠ 0.

End CacheVocabulary.

(** A call of one of the two write operations of the cache, with the clock
    readings it takes. *)
Inductive CacheOp :=
| OpUpdateMetrics (now now' : Time) (switchID : string) (d : TelemetryData)
| OpUpdateBatch (now : Time) (batch : gmap string TelemetryData).

Definition applyOp (c : InMemoryCache.t) (op : CacheOp) : InMemoryCache.t :=
  match op with
  | OpUpdateMetrics now now' k d => snd (InMemoryCache.UpdateMetrics now now' k d c)
  | OpUpdateBatch now batch => snd (InMemoryCache.UpdateBatch now batch c)
  end.

(** The reading that becomes the timestamp of a record that has none. *)
Definition ingestInstant (op : CacheOp) : Time :=
  match op with
  | OpUpdateMetrics now _ _ _ => now
  | OpUpdateBatch now _ => now
  end.

Definition runOps (ops : list CacheOp) (c : InMemoryCache.t) : InMemoryCache.t :=
  foldl applyOp c ops.

(** ** Sample data *)

(** 2025-01-01T00:00:00Z, in nanoseconds since the zero instant. *)
Definition t2025 : Time := 739251 * 86400 * Second.

Definition record (id : string) (ts : Time) (bw lat : float) (errs : Z)
    (util temp : float) : TelemetryData :=
  mkTelemetryData 0 id ts bw lat errs util temp 0.

Definition sw01 : TelemetryData := record "sw-01" t2025 100 1 0 50 40.
Definition sw02 : TelemetryData := record "sw-02" 0 250 2 3 75 45.
Definition anonymous : TelemetryData := record "" t2025 10 1 0 5 30.

Definition sampleOps : list CacheOp :=
  [ OpUpdateMetrics (t2025 + 1) (t2025 + 2) "sw-02" sw02;
    OpUpdateMetrics (t2025 + 3) (t2025 + 3) "" anonymous;
    OpUpdateBatch (t2025 + 5) (<["sw-01" := sw01]> (<["" := anonymous]> (<["sw-02" := sw02]> ∅))) ].

(** The value [GetMetricValue] should report for each of the five metric
    types. *)
Definition fieldOf (R : TelemetryData) : list (MetricType * MetricValue) :=
  [ (MetricBandwidth, VFloat (BandwidthMbps R));
    (MetricLatency, VFloat (LatencyMs R));
    (MetricPacketErrors, VInt (PacketErrors R));
    (MetricUtilization, VFloat (UtilizationPct R));
    (MetricTemperature, VFloat (TemperatureC R)) ].

Section WriterVocabulary.
Import HybridStore.

(** What the writer never touches. *)
Definition sameFrame (hs hs' : t) : Prop :=
  cache hs' = cache hs ∧ flushQueue hs' = flushQueue hs
  ∧ config hs' = config hs ∧ started hs' = started hs
  ∧ cancelled hs' = cancelled hs ∧ wg hs' = wg hs
  ∧ totalRequests hs' = totalRequests hs
  ∧ totalCacheHits hs' = totalCacheHits hs
  ∧ startTime hs' = startTime hs.

(** The rounds that failed and were followed by a full backoff wait:
    after the failure of attempt [a] the writer waits [a] seconds. *)
Fixpoint failedRounds (metrics : list TelemetryData) (attempt : Z)
    (errs : list error) : list Event :=
  match errs with
  | [] => []
  | e :: errs' =>
      EvStore attempt metrics (Some e)
        :: EvBackoff attempt (attempt * Second) true
        :: failedRounds metrics (attempt + 1) errs'
  end.

(** A round of the script in which the repository refuses the write and
    the writer waits out the whole backoff: the context is done neither at
    the check before the write nor during the wait. *)
Definition refusedRound (ctx : Context) (a : Attempt) : Prop :=
  ctxDone ctx (doneBefore a) = None
  ∧ is_Some (storeErr a)
  ∧ ctxDone ctx (doneInBackoff a) = None.

(** The errors the repository answers with in the rounds of a script. *)
Definition refusals (rounds : list Attempt) : list error := omap storeErr rounds.

(** The ways a run of the retry loop can end. The run starts at attempt
    [a] with the variable [err] holding [err]; [errs] are the errors of the
    rounds that failed and were waited out, so that [a + length errs] is
    the number of the attempt at which the run ends. *)
Inductive Ending (ctx : Context) (metrics : list TelemetryData) (hs : t)
    (a : Z) (err : option error) (errs : list error)
  : option error -> t -> list Event -> Prop :=
| EndWritten now :
    let k := a + Z.of_nat (length errs) in
    k <= MaxRetries (config hs) ->
    Ending ctx metrics hs a err errs None (recordWrite metrics now hs)
           (failedRounds metrics a errs ++ [EvStore k metrics None])
| EndExhausted e :
    let k := a + Z.of_nat (length errs) in
    k = MaxRetries (config hs) ->
    Ending ctx metrics hs a err errs
           (Some (wrap ("failed to write metrics after "
                          ++ pretty (MaxRetries (config hs)) ++ " attempts") e))
           (recordWriteError hs)
           (failedRounds metrics a errs ++ [EvStore k metrics (Some e)])
| EndNoAttempt :
    errs = [] -> MaxRetries (config hs) < a ->
    Ending ctx metrics hs a err errs
           (Some (wrap ("failed to write metrics after "
                          ++ pretty (MaxRetries (config hs)) ++ " attempts")
                       (default "%!w(<nil>)" err)))
           (recordWriteError hs) []
| EndDoneBeforeAttempt ce :
    ctx = Cancellable ce ->
    a + Z.of_nat (length errs) <= MaxRetries (config hs) ->
    Ending ctx metrics hs a err errs (Some ce) hs (failedRounds metrics a errs)
| EndDoneInBackoff ce e :
    let k := a + Z.of_nat (length errs) in
    ctx = Cancellable ce ->
    k < MaxRetries (config hs) ->
    Ending ctx metrics hs a err errs (Some ce) hs
           (failedRounds metrics a errs
              ++ [EvStore k metrics (Some e); EvBackoff k (k * Second) false]).

End WriterVocabulary.

(** The number of times the writer called the repository. *)
Definition isStore (ev : HybridStore.Event) : bool :=
  match ev with
  | HybridStore.EvStore _ _ _ => true
  | HybridStore.EvBackoff _ _ _ => false
  end.

Definition storeAttempts (tr : list HybridStore.Event) : nat :=
  length (List.filter isStore tr).

(** A store with an empty cache, an empty repository and the default
    configuration ([MaxRetries = 3]). *)
Definition store0 : HybridStore.t :=
  HybridStore.NewHybridStore InMemoryCache.NewInMemoryCache []
    HybridStore.DefaultHybridStoreConfig t2025.

(** A repository that answers every write with a constraint violation,
    the kind of error the specification calls fatal. *)
Definition constraintViolation : error :=
  "pq: new row for relation telemetry_metrics violates check constraint".

Definition alwaysViolates : list HybridStore.Attempt :=
  replicate 5 (HybridStore.mkAttempt false (Some constraintViolation) 0 false).

(** The latest record of a batch for a switch id: the last one, in slice
    order, that carries the id. *)
Definition latestFor (k : string) (metrics : list TelemetryData)
  : option TelemetryData :=
  last (filter (fun d => SwitchID d = k) metrics).

Definition carries (metrics : list TelemetryData) (ev : HybridStore.Event) : Prop :=
  match ev with
  | HybridStore.EvStore _ rows _ => rows = metrics
  | HybridStore.EvBackoff _ _ _ => True
  end.

Definition queueFull (hs : HybridStore.t) : Prop :=
  (HybridStore.flushQueueCap <= length (HybridStore.flushQueue hs))%nat.

(** Every integer counter the store keeps. *)
Definition counters (hs : HybridStore.t) : list Z :=
  [ HybridStore.totalRequests hs; HybridStore.totalCacheHits hs;
    HybridStore.totalDBWrites hs; HybridStore.totalDBWriteErrors hs;
    HybridStore.pendingFlushItems hs ].

(** A store whose flush queue holds its hundred batches. *)
Definition fullStore : HybridStore.t :=
  HybridStore.set_queue (replicate 100 [sw02]) 100 store0.

Definition rank (p : HybridStore.Phase) : nat :=
  match p with
  | HybridStore.Created => 0
  | HybridStore.Started => 1
  | HybridStore.Stopping => 2
  | HybridStore.Stopped => 3
  end.

Inductive LifecycleOp :=
| DoStart (now : Time)
| DoStop (env : HybridStore.StopEnv).

Definition applyLifecycle (hs : HybridStore.t) (op : LifecycleOp) : HybridStore.t :=
  match op with
  | DoStart now => (HybridStore.Start now hs).2
  | DoStop env => (HybridStore.Stop env hs).1.2
  end.

(** The store after [Start]. *)
Definition startedStore : HybridStore.t := (HybridStore.Start (t2025 + 1) store0).2.

Definition gracefulStop : HybridStore.StopEnv :=
  HybridStore.mkStopEnv true "context deadline exceeded" 0 [].

(** A stop in which the flush worker takes one batch off the queue before
    it notices the cancellation. *)
Definition hastyStop : HybridStore.StopEnv :=
  HybridStore.mkStopEnv true "context deadline exceeded" 1 [].

(** The average age the store reports for the cached records. *)
Definition averageAge (since : string -> Time) (s : telemetryService.t) : float :=
  DataAgeSeconds (HybridStore.GetPerformanceMetrics since (telemetryService.store s)).1.

Definition switchCount (s : telemetryService.t) : Z :=
  HybridStore.GetSwitchCount (telemetryService.store s).

(** A new service that has ingested the one record [d]. *)
Definition serviceWith (d : TelemetryData) : telemetryService.t :=
  (telemetryService.IngestMetrics (t2025 + 1) (t2025 + 2) d
     (telemetryService.NewTelemetryService store0 t2025)).2.

Definition service0 : telemetryService.t :=
  telemetryService.NewTelemetryService store0 t2025.

(** Records the validation rules reject: utilisation of 150 percent,
    negative bandwidth, and a temperature of 500 degrees. *)
Definition overUtilised : TelemetryData := record "sw-01" t2025 100 1 0 150 40.
Definition negativeBandwidth : TelemetryData := record "sw-01" t2025 (-5) 1 0 50 40.
Definition overheated : TelemetryData := record "sw-01" t2025 100 1 0 50 500.

(** The client after a first poll that ingested generation [gen_1]. *)
Definition firstSnapshot : GeneratorClient.Snapshot :=
  GeneratorClient.mkSnapshot "gen_1" t2025 false t2025 (Ok [sw01]).

Definition clientAfterFirstPoll : GeneratorClient.t :=
  (GeneratorClient.pollAndIngest (t2025 + 1) (Ok firstSnapshot) [] (t2025 + 2)
     (GeneratorClient.NewGeneratorClient service0)).2.

(** A second snapshot: a new generation id, new data, the same data
    timestamp. *)
Definition secondSnapshot : GeneratorClient.Snapshot :=
  GeneratorClient.mkSnapshot "gen_2" t2025 false t2025
    (Ok [record "sw-01" t2025 999 1 0 50 40]).

(** ** Vocabulary of the health report *)

(** The cached records of the service, one per switch. *)
Definition cachedRecords (s : telemetryService.t) : list (string * TelemetryData) :=
  map_to_list (InMemoryCache.data (HybridStore.cache (telemetryService.store s))).

(** The age of a cached record, in nanoseconds, at the clock reading taken
    for its switch. *)
Definition ageOf (since : string -> Time) (kd : string * TelemetryData) : Z :=
  since kd.1 - Timestamp kd.2.

(** The ages of the cached records added up exactly, in nanoseconds. *)
Definition totalAge (since : string -> Time) (s : telemetryService.t) : Z :=
  foldr Z.add 0 (ageOf since <$> cachedRecords s).

(** The mean age of the cached records in seconds: the exact total,
    converted to seconds and divided by the number of records, both in
    [float64]. *)
Definition meanAgeSeconds (since : string -> Time) (s : telemetryService.t) : float :=
  (HybridStore.Seconds (totalAge since s)
   / HybridStore.float64_of_Z (Z.of_nat (length (cachedRecords s))))%float.

(** A hundred years, and a service that has ingested, for three switches,
    records dated a hundred years before [t2025]. *)
Definition century : Z := 100 * 365 * 86400 * Second.

Definition centuryOld (id : string) : TelemetryData :=
  record id (t2025 - century) 100 1 0 50 40.

Definition staleService : telemetryService.t :=
  foldl (fun s d => (telemetryService.IngestMetrics (t2025 + 1) (t2025 + 2) d s).2)
        service0 [centuryOld "sw-01"; centuryOld "sw-02"; centuryOld "sw-03"].

(** ** Vocabulary of the further properties of the cache *)

(** Whether the entry of switch [k] was last updated before [cutoff]. *)
Definition staleAt (cutoff : Time) (c : InMemoryCache.t) (k : string) : bool :=
  match InMemoryCache.lastUpdated c !! k with
  | Some t => t <? cutoff
  | None => false
  end.

(** The two maps of the cache have the same keys. *)
Definition aligned (c : InMemoryCache.t) : Prop :=
  forall k, is_Some (InMemoryCache.data c !! k)
            <-> is_Some (InMemoryCache.lastUpdated c !! k).

(** The read counters of the cache are consistent. *)
Definition countersOk (c : InMemoryCache.t) : Prop :=
  0 <= InMemoryCache.hitCount c <= InMemoryCache.requestCount c.

(** A call of any operation of the cache. *)
Inductive CacheCall :=
| CallUpdateMetrics (now now' : Time) (switchID : string) (d : TelemetryData)
| CallUpdateBatch (now : Time) (batch : gmap string TelemetryData)
| CallGetMetric (switchID : string) (metricType : MetricType)
| CallGetAllMetrics (switchID : string)
| CallListAllSwitches
| CallCleanupStale (now : Time) (maxAge : Z)
| CallClear.

Definition applyCall (c : InMemoryCache.t) (call : CacheCall) : InMemoryCache.t :=
  match call with
  | CallUpdateMetrics now now' k d => (InMemoryCache.UpdateMetrics now now' k d c).2
  | CallUpdateBatch now batch => (InMemoryCache.UpdateBatch now batch c).2
  | CallGetMetric k mt => (InMemoryCache.GetMetric k mt c).2
  | CallGetAllMetrics k => (InMemoryCache.GetAllMetrics k c).2
  | CallListAllSwitches => (InMemoryCache.ListAllSwitches c).2
  | CallCleanupStale now maxAge => (InMemoryCache.CleanupStale now maxAge c).2
  | CallClear => InMemoryCache.Clear c
  end.

Definition runCalls (calls : list CacheCall) (c : InMemoryCache.t) : InMemoryCache.t :=
  foldl applyCall c calls.

(** ** Vocabulary of the further properties of the hybrid store *)

(** A call of one of the two queued write operations of the store. *)
Inductive StoreWrite :=
| WriteOne (now now' : Time) (switchID : string) (d : TelemetryData)
| WriteBatch (now : Time) (batch : gmap string TelemetryData).

Definition applyWrite (hs : HybridStore.t) (w : StoreWrite) : HybridStore.t :=
  match w with
  | WriteOne now now' k d => (HybridStore.UpdateMetrics now now' k d hs).2
  | WriteBatch now batch => (HybridStore.UpdateBatch now batch hs).2
  end.

Definition runWrites (ws : list StoreWrite) (hs : HybridStore.t) : HybridStore.t :=
  foldl applyWrite hs ws.

(** The number of records waiting on the flush queue. *)
Definition queuedRows (hs : HybridStore.t) : Z :=
  Z.of_nat (length (concat (HybridStore.flushQueue hs))).

(** What the two queued writes keep true of the queue. *)
Definition queueInv (hs : HybridStore.t) : Prop :=
  (length (HybridStore.flushQueue hs) <= HybridStore.flushQueueCap)%nat
  ∧ HybridStore.pendingFlushItems hs = queuedRows hs
  ∧ Forall (fun b => b ≠ []) (HybridStore.flushQueue hs).

(** A round of the shutdown drain in which the deadline does not fire and
    the repository accepts the batch at the first attempt. *)
Definition cleanStep (s : HybridStore.DrainStep) : Prop :=
  HybridStore.deadline s = false
  ∧ HybridStore.doneBefore (hd HybridStore.defaultAttempt (HybridStore.attempts s)) = false
  ∧ HybridStore.storeErr (hd HybridStore.defaultAttempt (HybridStore.attempts s)) = None.

(** A started store with three batches queued. *)
Definition busyStore : HybridStore.t :=
  runWrites
    [ WriteOne (t2025 + 2) (t2025 + 2) "sw-01" sw01;
      WriteBatch (t2025 + 3) (<["sw-02" := sw02]> ∅);
      WriteOne (t2025 + 4) (t2025 + 4) "sw-01" overUtilised ]
    startedStore.

(** Whether [LoadFromDatabase] files a record under [k]: the id is not
    empty, it is among the listed switches and the repository has a latest
    record for it. *)
Definition loadedRecord (env : HybridStore.LoadEnv) (switches : list Switch)
    (k : string) : option TelemetryData :=
  if decide (k ≠ "" ∧ k ∈ sw_ID <$> switches)
  then match HybridStore.latestMetrics env k with
       | Ok m => Some (InMemoryCache.dataCopy (HybridStore.loadClock env k) k m)
       | Err _ => None
       end
  else None.

(** ** Vocabulary of the further properties of the service and handler *)

(** Whether the store of the service has a record for switch [k]. *)
Definition cachedRecord (s : telemetryService.t) (k : string) : option TelemetryData :=
  InMemoryCache.data (HybridStore.cache (telemetryService.store s)) !! k.

(** The status code the metric endpoint should answer with. *)
Definition expectedStatus (s : telemetryService.t) (switchID metricType : string) : Z :=
  if String.eqb switchID "" || negb (telemetryHandler.isValidMetricType metricType)
  then 400
  else match cachedRecord s switchID with
       | Some _ => 200
       | None => 404
       end.

(** A record as it comes back from the map of a response: the database id
    and the creation time are not part of the map. *)
Definition stripped (k : string) (d : TelemetryData) : TelemetryData :=
  mkTelemetryData 0 k (Timestamp d) (BandwidthMbps d) (LatencyMs d)
    (PacketErrors d) (UtilizationPct d) (TemperatureC d) 0.

(** The value of a metric as the map of a response holds it. *)
Definition valueOf (v : MetricValue) : Value :=
  match v with
  | VFloat f => JFloat f
  | VInt n => JInt n
  end.

(** ** Vocabulary of the further properties of the client *)

(** One poll of the client: the clock reading [pollAndIngest] takes, what
    the fetch delivers, and the script and clock reading of the ingestion. *)
Record Poll := mkPoll {
  pollClock : Time;
  pollFetched : result GeneratorClient.Snapshot;
  pollEnv : list HybridStore.Attempt;
  pollNow : Time
}.

(** A run of polls: how each ended, oldest first, and the client left. *)
Definition applyPoll (acc : list GeneratorClient.Outcome * GeneratorClient.t)
    (p : Poll) : list GeneratorClient.Outcome * GeneratorClient.t :=
  let '(o, gc') :=
    GeneratorClient.pollAndIngest (pollClock p) (pollFetched p) (pollEnv p)
      (pollNow p) acc.2 in
  ((acc.1 ++ [o])%list, gc').

Definition runPolls (polls : list Poll) (gc : GeneratorClient.t)
  : list GeneratorClient.Outcome * GeneratorClient.t :=
  foldl applyPoll ([], gc) polls.

Definition isIngested (o : GeneratorClient.Outcome) : bool :=
  match o with GeneratorClient.Ingested => true | _ => false end.

Definition isSkipped (o : GeneratorClient.Outcome) : bool :=
  match o with GeneratorClient.Duplicate => true | _ => false end.

Definition isFailure (o : GeneratorClient.Outcome) : bool :=
  match o with
  | GeneratorClient.FetchFailed | GeneratorClient.ParseFailed
  | GeneratorClient.IngestFailed => true
  | _ => false
  end.

(** How many outcomes of a run satisfy [p]. *)
Definition tally (p : GeneratorClient.Outcome -> bool)
    (os : list GeneratorClient.Outcome) : Z :=
  Z.of_nat (length (List.filter p os)).

(** The pair the client compares a snapshot with. *)
Definition lastSeen (gc : GeneratorClient.t) : string * Time :=
  (GeneratorClient.lastGenerationID gc, GeneratorClient.lastDataTimestamp gc).






(** * Properties *)

(** ** Strings *)

Lemma eqb_empty_false (s : string) : s ≠ "" -> String.eqb s "" = false.
Proof. intros H. by apply String.eqb_neq. Qed.

Ltac case_eqb a b :=
  let E := fresh "E" in
  destruct (String.eqb_spec a b) as [E | E]; try subst.

(** ** The cache *)
Section CacheFacts.
Import InMemoryCache.

(** A record as [UpdateMetrics] and [UpdateBatch] store it. *)
Lemma dataCopy_SwitchID now k d : SwitchID (dataCopy now k d) = k.
Proof. unfold dataCopy. by destruct (IsZero _). Qed.

Lemma dataCopy_Timestamp now k d :
  Timestamp (dataCopy now k d) = if IsZero (Timestamp d) then now else Timestamp d.
Proof. unfold dataCopy. simpl. by destruct (IsZero _). Qed.

Lemma dataCopy_Timestamp_nonzero now k d :
  now ≠ 0 -> Timestamp (dataCopy now k d) ≠ 0.
Proof.
  intros Hnow. rewrite dataCopy_Timestamp. unfold IsZero.
  destruct (Z.eqb_spec (Timestamp d) 0); done.
Qed.

Lemma dataCopy_values now k d :
  BandwidthMbps (dataCopy now k d) = BandwidthMbps d
  ∧ LatencyMs (dataCopy now k d) = LatencyMs d
  ∧ PacketErrors (dataCopy now k d) = PacketErrors d
  ∧ UtilizationPct (dataCopy now k d) = UtilizationPct d
  ∧ TemperatureC (dataCopy now k d) = TemperatureC d.
Proof. unfold dataCopy. by destruct (IsZero _). Qed.

(** What the loop of [UpdateBatch] leaves under each key. *)
Lemma updateEntry_fold_lookup now (batch : gmap string TelemetryData) c k :
  data (map_fold (updateEntry now) c batch) !! k =
    if decide (k = "") then data c !! k
    else match batch !! k with
         | Some d => Some (dataCopy now k d)
         | None => data c !! k
         end.
Proof.
  revert k.
  apply (map_fold_weak_ind
           (fun r (m : gmap string TelemetryData) => forall k,
              data r !! k =
                if decide (k = "") then data c !! k
                else match m !! k with
                     | Some d => Some (dataCopy now k d)
                     | None => data c !! k
                     end)).
  - intros k. rewrite lookup_empty. by destruct (decide _).
  - intros i x m r Hi IH k. unfold updateEntry.
    case_eqb i "".
    + rewrite IH. destruct (decide (k = "")) as [->|Hk]; [done|].
      by rewrite lookup_insert_ne.
    + simpl. destruct (decide (k = i)) as [->|Hki].
      * rewrite !lookup_insert_eq. by destruct (decide (i = "")).
      * rewrite !lookup_insert_ne by done. apply IH.
Qed.

Lemma UpdateBatch_lookup now (batch : gmap string TelemetryData) c k :
  data (snd (UpdateBatch now batch c)) !! k =
    if decide (k = "") then data c !! k
    else match batch !! k with
         | Some d => Some (dataCopy now k d)
         | None => data c !! k
         end.
Proof.
  unfold UpdateBatch. destruct (decide (batch = ∅)) as [->|Hne]; simpl.
  - rewrite lookup_empty. by destruct (decide _).
  - apply updateEntry_fold_lookup.
Qed.

Lemma UpdateBatch_ok now (batch : gmap string TelemetryData) c :
  fst (UpdateBatch now batch c) = None.
Proof. unfold UpdateBatch. by destruct (decide _). Qed.

Lemma wellFormed_new : wellFormed NewInMemoryCache.
Proof. intros k r. unfold NewInMemoryCache. simpl. by rewrite lookup_empty. Qed.

Lemma wellFormed_UpdateMetrics now now' k d c :
  now ≠ 0 -> wellFormed c -> wellFormed (snd (UpdateMetrics now now' k d c)).
Proof.
  intros Hnow Hc. unfold UpdateMetrics. case_eqb k ""; [exact Hc|].
  intros k' r. simpl. destruct (decide (k' = k)) as [->|Hk].
  - rewrite lookup_insert_eq. intros [= <-].
    split; [done|]. split; [apply dataCopy_SwitchID|].
    by apply dataCopy_Timestamp_nonzero.
  - rewrite lookup_insert_ne by done. apply Hc.
Qed.

Lemma wellFormed_UpdateBatch now (batch : gmap string TelemetryData) c :
  now ≠ 0 -> wellFormed c -> wellFormed (snd (UpdateBatch now batch c)).
Proof.
  intros Hnow Hc k r. rewrite UpdateBatch_lookup.
  destruct (decide (k = "")) as [->|Hk]; [apply Hc|].
  destruct (batch !! k) as [d|]; [|apply Hc].
  intros [= <-]. split; [done|]. split; [apply dataCopy_SwitchID|].
  by apply dataCopy_Timestamp_nonzero.
Qed.

End CacheFacts.

Lemma runOps_wellFormed ops c :
  Forall (fun op => ingestInstant op ≠ 0) ops ->
  wellFormed c -> wellFormed (runOps ops c).
Proof.
  intros Hops. revert c. induction Hops as [|op ops Hop _ IH]; intros c Hc.
  - exact Hc.
  - simpl. apply IH. destruct op as [now now' k d|now batch]; simpl in *.
    + by apply wellFormed_UpdateMetrics.
    + by apply wellFormed_UpdateBatch.
Qed.

(** C6. After any sequence of [UpdateMetrics] and [UpdateBatch] calls on a
    new cache, the clock never reading the zero instant, every stored
    record has a non-zero timestamp and is filed under its own non-empty
    switch id; a record that arrives with a zero timestamp is stored with
    the ingest instant, by either operation; and [UpdateMetrics] with an
    empty switch id returns an error and leaves the cache as it was. *)
Theorem C6_cache_timestamp_and_id_invariant (ops : list CacheOp) :
  Forall (fun op => ingestInstant op ≠ 0) ops ->
  (forall k r, InMemoryCache.data (runOps ops InMemoryCache.NewInMemoryCache) !! k = Some r ->
     k ≠ "" ∧ SwitchID r = k ∧ Timestamp r ≠ 0)
  ∧ (forall now now' k d c, k ≠ "" -> Timestamp d = 0 ->
       fst (InMemoryCache.UpdateMetrics now now' k d c) = None
       ∧ InMemoryCache.data (snd (InMemoryCache.UpdateMetrics now now' k d c)) !! k
         = Some (set_Timestamp now (set_SwitchID k d)))
  ∧ (forall now (batch : gmap string TelemetryData) k d c,
       k ≠ "" -> batch !! k = Some d -> Timestamp d = 0 ->
       InMemoryCache.data (snd (InMemoryCache.UpdateBatch now batch c)) !! k
         = Some (set_Timestamp now (set_SwitchID k d)))
  ∧ (forall now now' d c,
       InMemoryCache.UpdateMetrics now now' "" d c
         = (Some "switchID cannot be empty", c)).
Proof.
  intros Hops. split; [|split; [|split]].
  - apply (runOps_wellFormed ops _ Hops wellFormed_new).
  - intros now now' k d c Hk Hz. unfold InMemoryCache.UpdateMetrics.
    rewrite eqb_empty_false by done. simpl. split; [done|].
    rewrite lookup_insert_eq. unfold InMemoryCache.dataCopy. simpl.
    by rewrite Hz.
  - intros now batch k d c Hk Hb Hz. rewrite UpdateBatch_lookup.
    destruct (decide (k = "")); [done|].
    rewrite Hb. unfold InMemoryCache.dataCopy. simpl. by rewrite Hz.
  - intros now now' d c. reflexivity.
Qed.

Lemma C6_cache_timestamp_and_id_invariant_witness :
  Forall (fun op => ingestInstant op ≠ 0) sampleOps
  ∧ (forall k r,
       InMemoryCache.data (runOps sampleOps InMemoryCache.NewInMemoryCache) !! k = Some r ->
       k ≠ "" ∧ SwitchID r = k ∧ Timestamp r ≠ 0).
Proof.
  assert (H : Forall (fun op => ingestInstant op ≠ 0) sampleOps).
  { repeat constructor; vm_compute; discriminate. }
  split; [exact H|].
  exact (proj1 (C6_cache_timestamp_and_id_invariant sampleOps H)).
Defined.

(** ** The hybrid store: the cache behind the write path *)
Section HybridFacts.
Import HybridStore.

Lemma cache_enqueue batch hs : cache (enqueue batch hs) = cache hs.
Proof. unfold enqueue. by destruct (_ <? _)%nat. Qed.

(** [UpdateMetrics] with a non-empty switch id succeeds, whatever the
    state of the flush queue, and stores the normalised record. *)
Lemma UpdateMetrics_nonempty now now' k d hs :
  k ≠ "" ->
  fst (UpdateMetrics now now' k d hs) = None
  ∧ cache (snd (UpdateMetrics now now' k d hs))
    = snd (InMemoryCache.UpdateMetrics now now' k d (cache hs)).
Proof.
  intros Hk. unfold UpdateMetrics, InMemoryCache.UpdateMetrics.
  rewrite eqb_empty_false by done. simpl.
  by rewrite cache_enqueue.
Qed.

End HybridFacts.

(** ** Ingest, then read *)

Lemma GetMetricValue_fieldOf (R R' : TelemetryData) m v :
  BandwidthMbps R' = BandwidthMbps R ->
  LatencyMs R' = LatencyMs R ->
  PacketErrors R' = PacketErrors R ->
  UtilizationPct R' = UtilizationPct R ->
  TemperatureC R' = TemperatureC R ->
  In (m, v) (fieldOf R) -> GetMetricValue R' m = Ok v.
Proof.
  intros Hb Hl Hp Hu Ht Hin. unfold fieldOf in Hin. simpl in Hin.
  destruct Hin as [[= <- <-]|[[= <- <-]|[[= <- <-]|[[= <- <-]|[[= <- <-]|[]]]]]];
    unfold GetMetricValue; simpl; congruence.
Qed.

(** C7. A record with a non-empty switch id is accepted by
    [IngestMetrics], and a [GetMetric] for its switch id that follows
    with no write in between returns the record's own value for each of
    the five metric types (with the store's last-update time as the
    response's timestamp). *)
Theorem C7_ingest_get_round_trip (now now' t : Time) (R : TelemetryData)
    (s : telemetryService.t) :
  SwitchID R ≠ "" ->
  fst (telemetryService.IngestMetrics now now' R s) = None
  ∧ forall m v, In (m, v) (fieldOf R) ->
      fst (telemetryService.GetMetric t (SwitchID R) m
             (snd (telemetryService.IngestMetrics now now' R s)))
      = Ok (mkMetricResponse (SwitchID R) m v (if IsZero now' then t else now')).
Proof.
  intros Hid.
  destruct (UpdateMetrics_nonempty now now' (SwitchID R) R (telemetryService.store s) Hid)
    as [Hok Hcache].
  unfold telemetryService.IngestMetrics. rewrite eqb_empty_false by done.
  destruct (HybridStore.UpdateMetrics now now' (SwitchID R) R (telemetryService.store s))
    as [r st'] eqn:Hupd.
  simpl in Hok, Hcache. subst r. simpl. split; [done|].
  intros m v Hin. unfold telemetryService.GetMetric.
  rewrite eqb_empty_false by done.
  unfold HybridStore.GetMetric, InMemoryCache.GetMetric. simpl.
  rewrite Hcache. unfold InMemoryCache.UpdateMetrics.
  rewrite eqb_empty_false by done. simpl. rewrite lookup_insert_eq.
  destruct (dataCopy_values now (SwitchID R) R) as (Hb & Hl & Hp & Hu & Ht).
  rewrite (GetMetricValue_fieldOf R _ m v Hb Hl Hp Hu Ht Hin).
  unfold HybridStore.GetLastUpdate, InMemoryCache.GetLastUpdate. simpl.
  by rewrite lookup_insert_eq.
Qed.

Lemma C7_ingest_get_round_trip_witness :
  SwitchID sw01 ≠ ""
  ∧ fst (telemetryService.GetMetric (t2025 + 9) "sw-01" MetricBandwidth
           (snd (telemetryService.IngestMetrics (t2025 + 1) (t2025 + 2) sw01
                   (telemetryService.NewTelemetryService
                      (HybridStore.NewHybridStore InMemoryCache.NewInMemoryCache []
                         HybridStore.DefaultHybridStoreConfig t2025) t2025))))
    = Ok (mkMetricResponse "sw-01" MetricBandwidth (VFloat 100) (t2025 + 2)).
Proof.
  assert (H : SwitchID sw01 ≠ "") by (vm_compute; discriminate).
  split; [exact H|].
  apply (proj2 (C7_ingest_get_round_trip (t2025 + 1) (t2025 + 2) (t2025 + 9) sw01 _ H)
           MetricBandwidth (VFloat 100)).
  simpl. left. reflexivity.
Defined.

(** ** The writer: [writeToDatabase] *)
Section WriterFacts.
Import HybridStore.

Lemma sameFrame_refl hs : sameFrame hs hs.
Proof. by repeat split. Qed.

Lemma retryLoop_frame ctx metrics fuel : forall attempt err env hs,
  sameFrame hs (retryLoop ctx metrics fuel attempt err env hs).1.2.
Proof.
  induction fuel as [|fuel IH]; intros attempt err env hs; simpl.
  - by repeat split.
  - destruct (ctxDone ctx (doneBefore _)); [apply sameFrame_refl|].
    destruct (storeErr _) as [e|]; [|by repeat split].
    destruct (attempt <? _).
    + destruct (ctxDone ctx (doneInBackoff _)); [apply sameFrame_refl|].
      specialize (IH (attempt + 1) (Some e) (tl env) hs).
      by destruct (retryLoop _ _ _ _ _ _ _) as [[r hs'] tr].
    + specialize (IH (attempt + 1) (Some e) (tl env) hs).
      by destruct (retryLoop _ _ _ _ _ _ _) as [[r hs'] tr].
Qed.

Lemma writeToDatabase_frame ctx env metrics hs :
  sameFrame hs (writeToDatabase ctx env metrics hs).1.2.
Proof.
  unfold writeToDatabase. destruct metrics; [apply sameFrame_refl|].
  apply retryLoop_frame.
Qed.

Lemma ctxDone_Some ctx fired ce :
  ctxDone ctx fired = Some ce -> ctx = Cancellable ce.
Proof.
  destruct ctx as [|e]; simpl; [done|]. destruct fired; [|done].
  by intros [= ->].
Qed.

(** Prefixing one failed round to a run that starts at the next attempt. *)
Lemma Ending_step ctx metrics hs a e err errs r hs' tr :
  Ending ctx metrics hs (a + 1) (Some e) errs r hs' tr ->
  a < MaxRetries (config hs) ->
  Ending ctx metrics hs a err (e :: errs) r hs'
         (EvStore a metrics (Some e) :: EvBackoff a (a * Second) true :: tr).
Proof.
  intros H Ha.
  assert (Hk : a + 1 + Z.of_nat (length errs) = a + Z.of_nat (length (e :: errs))).
  { simpl length. lia. }
  inversion H; subst; clear H.
  - subst k. rewrite Hk in *.
    apply (EndWritten _ _ _ _ _ (e :: errs)). done.
  - subst k. rewrite Hk in *.
    apply (EndExhausted _ _ _ _ _ (e :: errs)). done.
  - lia.
  - rewrite Hk in *.
    by apply (EndDoneBeforeAttempt _ _ _ _ _ (e :: errs)).
  - subst k. rewrite Hk in *.
    by apply (EndDoneInBackoff _ _ _ _ _ (e :: errs)).
Qed.

(** The endings of a run with no failed round before them. *)
Lemma Ending_written_now ctx metrics hs a err now :
  a <= MaxRetries (config hs) ->
  Ending ctx metrics hs a err [] None (recordWrite metrics now hs)
         [EvStore a metrics None].
Proof.
  intros Ha. pose proof (EndWritten ctx metrics hs a err [] now) as H.
  simpl in H. rewrite Z.add_0_r in H. by apply H.
Qed.

Lemma Ending_exhausted_now ctx metrics hs a err e :
  a = MaxRetries (config hs) ->
  Ending ctx metrics hs a err []
         (Some (wrap ("failed to write metrics after "
                        ++ pretty (MaxRetries (config hs)) ++ " attempts") e))
         (recordWriteError hs) [EvStore a metrics (Some e)].
Proof.
  intros Ha. pose proof (EndExhausted ctx metrics hs a err [] e) as H.
  simpl in H. rewrite Z.add_0_r in H. by apply H.
Qed.

Lemma Ending_backoff_now metrics hs a err ce e :
  a < MaxRetries (config hs) ->
  Ending (Cancellable ce) metrics hs a err [] (Some ce) hs
         [EvStore a metrics (Some e); EvBackoff a (a * Second) false].
Proof.
  intros Ha.
  pose proof (EndDoneInBackoff (Cancellable ce) metrics hs a err [] ce e) as H.
  simpl in H. rewrite Z.add_0_r in H. by apply H.
Qed.

Lemma retryLoop_Ending ctx metrics fuel : forall attempt err env hs,
  Z.of_nat fuel = Z.max 0 (MaxRetries (config hs) + 1 - attempt) ->
  exists errs,
    Ending ctx metrics hs attempt err errs
           (retryLoop ctx metrics fuel attempt err env hs).1.1
           (retryLoop ctx metrics fuel attempt err env hs).1.2
           (retryLoop ctx metrics fuel attempt err env hs).2.
Proof.
  induction fuel as [|fuel IH]; intros attempt err env hs Hfuel.
  - exists []. simpl. apply EndNoAttempt; [done|lia].
  - simpl.
    destruct (ctxDone ctx (doneBefore _)) as [ce|] eqn:Hb.
    { exists []. simpl.
      apply (EndDoneBeforeAttempt ctx metrics hs attempt err [] ce).
      - by eapply ctxDone_Some.
      - simpl. lia. }
    destruct (storeErr _) as [e|] eqn:Hs.
    2:{ exists []. simpl. apply Ending_written_now. lia. }
    destruct (Z.ltb_spec attempt (MaxRetries (config hs))) as [Hlt|Hge].
    + destruct (ctxDone ctx (doneInBackoff _)) as [ce|] eqn:Hw.
      { exists []. simpl. apply ctxDone_Some in Hw as ->.
        by apply Ending_backoff_now. }
      destruct (IH (attempt + 1) (Some e) (tl env) hs) as [errs HE]; [lia|].
      destruct (retryLoop _ _ _ _ _ _ _) as [[r hs'] tr]. simpl in *.
      exists (e :: errs). by apply Ending_step.
    + assert (attempt = MaxRetries (config hs)) as Heq by lia.
      assert (fuel = O) as -> by lia. simpl.
      exists []. by apply Ending_exhausted_now.
Qed.

End WriterFacts.

(** C5, as stated, fails: a batch the repository rejects with a
    constraint violation is not skipped after the first attempt; it is
    written three times, with waits of one and two seconds in between. *)
Lemma C5_fatal_error_is_retried :
  (HybridStore.writeToDatabase (Cancellable "context canceled") alwaysViolates [sw01] store0).2
  = [ HybridStore.EvStore 1 [sw01] (Some constraintViolation);
      HybridStore.EvBackoff 1 (1 * Second) true;
      HybridStore.EvStore 2 [sw01] (Some constraintViolation);
      HybridStore.EvBackoff 2 (2 * Second) true;
      HybridStore.EvStore 3 [sw01] (Some constraintViolation) ]
  ∧ ¬ (storeAttempts
         (HybridStore.writeToDatabase (Cancellable "context canceled")
            alwaysViolates [sw01] store0).2 <= 1)%nat.
Proof. split; [reflexivity|]. vm_compute. lia. Qed.

Lemma storeAttempts_app tr tr' :
  storeAttempts (tr ++ tr') = (storeAttempts tr + storeAttempts tr')%nat.
Proof. unfold storeAttempts. by rewrite List.filter_app, length_app. Qed.

Lemma storeAttempts_failedRounds metrics errs : forall a,
  storeAttempts (failedRounds metrics a errs) = length errs.
Proof.
  induction errs as [|e errs IH]; intros a; [done|].
  simpl. unfold storeAttempts in *. simpl. by rewrite IH.
Qed.

(** The number of repository calls of a run that starts at attempt 1. *)
Lemma Ending_storeAttempts ctx metrics hs err errs r hs' tr :
  Ending ctx metrics hs 1 err errs r hs' tr ->
  (storeAttempts tr <= Z.to_nat (HybridStore.MaxRetries (HybridStore.config hs)))%nat
  ∧ (ctx = Background -> r ≠ None ->
     storeAttempts tr = Z.to_nat (HybridStore.MaxRetries (HybridStore.config hs))).
Proof.
  intros H. inversion H; subst; try subst k;
    rewrite ?storeAttempts_app, ?storeAttempts_failedRounds;
    unfold storeAttempts; simpl; split; try lia; try done.
Qed.

Lemma refusals_cons a pre e :
  HybridStore.storeErr a = Some e -> refusals (a :: pre) = e :: refusals pre.
Proof. intros H. unfold refusals. simpl. by rewrite H. Qed.

(** The rounds of the script that are refused and waited out: the loop
    goes through them one by one, each with its own backoff, and goes on
    with the rest of the script. *)
Lemma retryLoop_refused ctx metrics pre : forall fuel attempt err rest hs,
  Forall (refusedRound ctx) pre ->
  attempt + Z.of_nat (length pre) <= HybridStore.MaxRetries (HybridStore.config hs) ->
  (length pre <= fuel)%nat ->
  HybridStore.retryLoop ctx metrics fuel attempt err (pre ++ rest) hs
  = (let '(r, hs', tr) :=
       HybridStore.retryLoop ctx metrics (fuel - length pre)
         (attempt + Z.of_nat (length pre))
         (match last (refusals pre) with Some e => Some e | None => err end)
         rest hs in
     (r, hs', (failedRounds metrics attempt (refusals pre) ++ tr)%list)).
Proof.
  induction pre as [|a pre IH]; intros fuel attempt err rest hs Hpre Hmax Hfuel.
  { simpl. rewrite Z.add_0_r, Nat.sub_0_r.
    by destruct (HybridStore.retryLoop ctx metrics fuel attempt err rest hs) as [[? ?] ?]. }
  apply Forall_cons in Hpre as [(Hb & [e He] & Hw) Hpre].
  destruct fuel as [|fuel]; [simpl in Hfuel; lia|].
  cbn [length] in Hmax, Hfuel.
  cbn [HybridStore.retryLoop app hd tl]. rewrite Hb, He.
  assert ((attempt <? HybridStore.MaxRetries (HybridStore.config hs)) = true) as ->
    by (apply Z.ltb_lt; lia).
  rewrite Hw.
  rewrite (IH fuel (attempt + 1) (Some e) rest hs Hpre) by lia.
  rewrite (refusals_cons a pre e He), last_cons.
  cbn [length Nat.sub failedRounds].
  replace (attempt + 1 + Z.of_nat (length pre))
    with (attempt + Z.of_nat (S (length pre))) by lia.
  destruct (last (refusals pre));
    destruct (HybridStore.retryLoop _ _ _ _ _ _ _) as [[r hs'] tr]; reflexivity.
Qed.

(** C5, amended. For every non-empty batch handed to [writeToDatabase]
    there is a list [errs] of repository errors, of any kind, each followed
    by a completed wait of (attempt number) seconds, after which the run
    ends in one of these ways: the next attempt, numbered at most
    [MaxRetries], succeeds and the rows are recorded; the attempt numbered
    [MaxRetries] fails, one write error is counted and an error is
    returned; the context is found done before the next attempt, or during
    the wait after a failed attempt numbered below [MaxRetries], and its
    error is returned at once with the store unchanged; or [MaxRetries] is
    below one and no attempt is made. The repository is called at most
    [MaxRetries] times, and exactly [MaxRetries] times when the write fails
    under a context that cannot be cancelled: no error is treated as
    fatal.

    Which ending it is follows from what the repository and the context do.
    After fewer than [MaxRetries] rounds that were refused and waited out
    (attempt [i] followed by a wait of [i] seconds), the next round, [a],
    numbered [k], decides: if the context is done at the check before the
    write, its error is returned with the store unchanged and without a
    call of the repository; if the write succeeds, the rows are recorded;
    if it fails with [k] below [MaxRetries] and the context becomes done
    during the wait, the context's error is returned with the store
    unchanged; if it fails with [k] equal to [MaxRetries], one write error
    is counted and the last error is returned wrapped, with no wait. *)
Theorem C5_writer_retry_policy (ctx : Context) (env : list HybridStore.Attempt)
    (metrics : list TelemetryData) (hs : HybridStore.t) :
  metrics ≠ [] ->
  let out := HybridStore.writeToDatabase ctx env metrics hs in
  (exists errs, Ending ctx metrics hs 1 None errs out.1.1 out.1.2 out.2)
  ∧ (storeAttempts out.2
     <= Z.to_nat (HybridStore.MaxRetries (HybridStore.config hs)))%nat
  ∧ (ctx = Background -> out.1.1 ≠ None ->
     storeAttempts out.2
     = Z.to_nat (HybridStore.MaxRetries (HybridStore.config hs)))
  ∧ (forall pre a rest,
       env = (pre ++ a :: rest)%list ->
       Forall (refusedRound ctx) pre ->
       Z.of_nat (length pre) < HybridStore.MaxRetries (HybridStore.config hs) ->
       let k := Z.of_nat (length pre) + 1 in
       let rounds := failedRounds metrics 1 (refusals pre) in
       (forall ce, ctxDone ctx (HybridStore.doneBefore a) = Some ce ->
          out = (Some ce, hs, rounds))
       ∧ (ctxDone ctx (HybridStore.doneBefore a) = None ->
          HybridStore.storeErr a = None ->
          out = (None, HybridStore.recordWrite metrics (HybridStore.clock a) hs,
                 (rounds ++ [HybridStore.EvStore k metrics None])%list))
       ∧ (forall e ce,
            ctxDone ctx (HybridStore.doneBefore a) = None ->
            HybridStore.storeErr a = Some e ->
            k < HybridStore.MaxRetries (HybridStore.config hs) ->
            ctxDone ctx (HybridStore.doneInBackoff a) = Some ce ->
            out = (Some ce, hs,
                   (rounds ++ [HybridStore.EvStore k metrics (Some e);
                               HybridStore.EvBackoff k (k * Second) false])%list))
       ∧ (forall e,
            ctxDone ctx (HybridStore.doneBefore a) = None ->
            HybridStore.storeErr a = Some e ->
            k = HybridStore.MaxRetries (HybridStore.config hs) ->
            out = (Some (wrap ("failed to write metrics after "
                                 ++ pretty (HybridStore.MaxRetries (HybridStore.config hs))
                                 ++ " attempts") e),
                   HybridStore.recordWriteError hs,
                   (rounds ++ [HybridStore.EvStore k metrics (Some e)])%list))).
Proof.
  intros Hne out.
  assert (HE : exists errs, Ending ctx metrics hs 1 None errs out.1.1 out.1.2 out.2).
  { subst out. unfold HybridStore.writeToDatabase.
    destruct metrics as [|d metrics]; [done|].
    apply retryLoop_Ending. lia. }
  split; [exact HE|].
  split; [destruct HE as [errs HE]; by apply Ending_storeAttempts in HE as [? _]|].
  split; [destruct HE as [errs HE]; by apply Ending_storeAttempts in HE as [_ ?]|].
  clear HE. intros pre a rest -> Hpre Hlen k rounds.
  assert (Hout : out
    = (let '(r, hs', tr) :=
         HybridStore.retryLoop ctx metrics
           (Z.to_nat (HybridStore.MaxRetries (HybridStore.config hs)) - length pre)
           k (match last (refusals pre) with Some e => Some e | None => None end)
           (a :: rest) hs in
       (r, hs', (rounds ++ tr)%list))).
  { subst out k rounds. unfold HybridStore.writeToDatabase.
    destruct metrics as [|d metrics]; [done|].
    rewrite (retryLoop_refused ctx (d :: metrics) pre _ 1 None (a :: rest) hs Hpre)
      by lia.
    by replace (1 + Z.of_nat (length pre)) with (Z.of_nat (length pre) + 1) by lia. }
  destruct (Z.to_nat (HybridStore.MaxRetries (HybridStore.config hs)) - length pre)%nat
    as [|fuel] eqn:Hfuel; [lia|].
  rewrite Hout. clear Hout. cbn [HybridStore.retryLoop hd tl].
  split; [|split; [|split]].
  - intros ce ->. by rewrite app_nil_r.
  - intros -> ->. reflexivity.
  - intros e ce -> -> Hk ->.
    assert ((k <? HybridStore.MaxRetries (HybridStore.config hs)) = true) as ->
      by (apply Z.ltb_lt; lia).
    reflexivity.
  - intros e -> -> Hk.
    assert ((k <? HybridStore.MaxRetries (HybridStore.config hs)) = false) as ->
      by (apply Z.ltb_ge; lia).
    assert (fuel = O) as -> by (subst k; lia).
    reflexivity.
Qed.

Lemma C5_writer_retry_policy_witness :
  HybridStore.writeToDatabase (Cancellable "context canceled")
    [ HybridStore.mkAttempt false (Some constraintViolation) 0 false;
      HybridStore.mkAttempt true None 0 false ]
    [sw01] store0
  = (Some "context canceled", store0,
     [ HybridStore.EvStore 1 [sw01] (Some constraintViolation);
       HybridStore.EvBackoff 1 (1 * Second) true ]).
Proof.
  assert (H : [sw01] ≠ []) by discriminate.
  assert (Hpre : Forall (refusedRound (Cancellable "context canceled"))
                   [HybridStore.mkAttempt false (Some constraintViolation) 0 false])
    by (constructor; [by repeat split; try eexists|constructor]).
  assert (Hlen : Z.of_nat
                   (length [HybridStore.mkAttempt false (Some constraintViolation) 0 false])
                 < HybridStore.MaxRetries (HybridStore.config store0))
    by (vm_compute; reflexivity).
  exact (proj1 (proj2 (proj2 (proj2
           (C5_writer_retry_policy (Cancellable "context canceled")
              [ HybridStore.mkAttempt false (Some constraintViolation) 0 false;
                HybridStore.mkAttempt true None 0 false ]
              [sw01] store0 H)))
           [HybridStore.mkAttempt false (Some constraintViolation) 0 false]
           (HybridStore.mkAttempt true None 0 false) [] eq_refl Hpre Hlen)
         "context canceled" eq_refl).
Defined.

(** ** The bulk path: [StoreMetricsBulk] *)

Lemma foldl_insert_lookup (metrics : list TelemetryData) :
  forall (m : gmap string TelemetryData) k,
    foldl (fun m metric => <[SwitchID metric := metric]> m) m metrics !! k
    = match latestFor k metrics with
      | Some d => Some d
      | None => m !! k
      end.
Proof.
  induction metrics as [|x l IH]; intros m k; [done|].
  simpl. rewrite IH. unfold latestFor.
  destruct (decide (SwitchID x = k)) as [Hx|Hx].
  - rewrite filter_cons_True by done. rewrite last_cons.
    destruct (last _); [done|]. subst k. by rewrite lookup_insert_eq.
  - rewrite filter_cons_False by done.
    destruct (last _); [done|]. by rewrite lookup_insert_ne.
Qed.

Lemma cacheData_lookup metrics k :
  HybridStore.cacheData metrics !! k = latestFor k metrics.
Proof.
  unfold HybridStore.cacheData. rewrite foldl_insert_lookup.
  destruct (latestFor k metrics); [done|]. by rewrite lookup_empty.
Qed.

Lemma failedRounds_carries metrics errs : forall a,
  Forall (carries metrics) (failedRounds metrics a errs).
Proof.
  induction errs as [|e errs IH]; intros a; simpl; [constructor|].
  repeat constructor. apply IH.
Qed.

Lemma Ending_carries ctx metrics hs a err errs r hs' tr :
  Ending ctx metrics hs a err errs r hs' tr -> Forall (carries metrics) tr.
Proof.
  intros H. inversion H; subst;
    try (apply Forall_app; split);
    try apply failedRounds_carries; by repeat constructor.
Qed.

Lemma Ending_written ctx metrics hs a err errs hs' tr :
  Ending ctx metrics hs a err errs None hs' tr ->
  HybridStore.repository hs' = (HybridStore.repository hs ++ metrics)%list.
Proof. intros H. by inversion H. Qed.

(** What a call of [StoreMetricsBulk] on a non-empty batch does. *)
Lemma StoreMetricsBulk_effect (ctx : Context)
    (env : list HybridStore.Attempt) (now : Time)
    (metrics : list TelemetryData) (hs : HybridStore.t) :
  metrics ≠ [] ->
  let out := HybridStore.StoreMetricsBulk ctx env now metrics hs in
  (forall k, k ≠ "" ->
     InMemoryCache.data (HybridStore.cache out.1.2) !! k
     = match latestFor k metrics with
       | Some d => Some (InMemoryCache.dataCopy now k d)
       | None => InMemoryCache.data (HybridStore.cache hs) !! k
       end)
  ∧ HybridStore.flushQueue out.1.2 = HybridStore.flushQueue hs
  ∧ Forall (carries metrics) out.2
  ∧ (out.1.1 = None ->
     HybridStore.repository out.1.2 = (HybridStore.repository hs ++ metrics)%list).
Proof.
  intros Hne out. subst out. unfold HybridStore.StoreMetricsBulk.
  destruct metrics as [|d l] eqn:Hm; [done|]. rewrite <- Hm in *. clear Hm.
  pose proof (UpdateBatch_ok now (HybridStore.cacheData metrics) (HybridStore.cache hs)) as Hok.
  pose proof (UpdateBatch_lookup now (HybridStore.cacheData metrics) (HybridStore.cache hs)) as Hlk.
  destruct (InMemoryCache.UpdateBatch now (HybridStore.cacheData metrics) (HybridStore.cache hs))
    as [r c'] eqn:Hupd.
  simpl in Hok, Hlk. subst r.
  set (hs1 := HybridStore.set_cache c' hs).
  pose proof (writeToDatabase_frame ctx env metrics hs1) as (Hc & Hq & _).
  assert (HE : exists errs,
             Ending ctx metrics hs1 1 None errs
               (HybridStore.writeToDatabase ctx env metrics hs1).1.1
               (HybridStore.writeToDatabase ctx env metrics hs1).1.2
               (HybridStore.writeToDatabase ctx env metrics hs1).2).
  { unfold HybridStore.writeToDatabase. destruct metrics; [done|].
    apply retryLoop_Ending. lia. }
  destruct HE as [errs HE].
  split; [|split; [|split]].
  - intros k Hk. rewrite Hc. simpl. rewrite Hlk.
    destruct (decide (k = "")); [done|]. by rewrite cacheData_lookup.
  - by rewrite Hq.
  - by eapply Ending_carries.
  - intros Hnone. rewrite Hnone in HE. by apply Ending_written in HE.
Qed.

(** C2, as stated, fails: the bulk path puts nothing on the flush queue;
    the batch goes straight to the repository. *)
Lemma C2_bulk_store_bypasses_queue :
  HybridStore.flushQueue
    (HybridStore.StoreMetricsBulk Background [] (t2025 + 1) [sw01; sw02] store0).1.2 = []
  ∧ ¬ In [sw01; sw02]
        (HybridStore.flushQueue
           (HybridStore.StoreMetricsBulk Background [] (t2025 + 1) [sw01; sw02] store0).1.2)
  ∧ HybridStore.repository
      (HybridStore.StoreMetricsBulk Background [] (t2025 + 1) [sw01; sw02] store0).1.2
    = [sw01; sw02].
Proof.
  assert (H : HybridStore.flushQueue
    (HybridStore.StoreMetricsBulk Background [] (t2025 + 1) [sw01; sw02] store0).1.2 = [])
    by (vm_compute; reflexivity).
  split; [exact H|]. split; [rewrite H; intros []|vm_compute; reflexivity].
Qed.

(** C2, amended. For every non-empty batch, [StoreMetricsBulk] files in
    the cache, under each non-empty switch id of the batch, the last record
    of the batch with that id (normalised as the cache does: a zero
    timestamp becomes the ingest instant), leaves the other entries and the
    flush queue as they were, and hands the entire batch to
    [writeToDatabase] within the call: its result is that of
    [writeToDatabase] on the store with the updated cache, every repository
    write it issues carries the whole batch, and when it reports success
    the batch has been appended to the repository. *)
Theorem C2_bulk_store_caches_latest_and_writes_through (ctx : Context)
    (env : list HybridStore.Attempt) (now : Time)
    (metrics : list TelemetryData) (hs : HybridStore.t) :
  metrics ≠ [] ->
  let out := HybridStore.StoreMetricsBulk ctx env now metrics hs in
  (forall k, k ≠ "" ->
     InMemoryCache.data (HybridStore.cache out.1.2) !! k
     = match latestFor k metrics with
       | Some d => Some (InMemoryCache.dataCopy now k d)
       | None => InMemoryCache.data (HybridStore.cache hs) !! k
       end)
  ∧ HybridStore.flushQueue out.1.2 = HybridStore.flushQueue hs
  ∧ out = HybridStore.writeToDatabase ctx env metrics
            (HybridStore.set_cache
               (InMemoryCache.UpdateBatch now (HybridStore.cacheData metrics)
                  (HybridStore.cache hs)).2 hs)
  ∧ Forall (carries metrics) out.2
  ∧ (out.1.1 = None ->
     HybridStore.repository out.1.2 = (HybridStore.repository hs ++ metrics)%list).
Proof.
  intros Hne out.
  destruct (StoreMetricsBulk_effect ctx env now metrics hs Hne)
    as (Hcache & Hqueue & Hcarries & Hrepo).
  fold out in Hcache, Hqueue, Hcarries, Hrepo.
  split; [exact Hcache|]. split; [exact Hqueue|].
  split; [|split; [exact Hcarries|exact Hrepo]].
  subst out. unfold HybridStore.StoreMetricsBulk.
  destruct metrics as [|d l]; [done|].
  pose proof (UpdateBatch_ok now (HybridStore.cacheData (d :: l)) (HybridStore.cache hs)) as Hok.
  destruct (InMemoryCache.UpdateBatch now (HybridStore.cacheData (d :: l)) (HybridStore.cache hs))
    as [r c'].
  simpl in Hok. by subst r.
Qed.

Lemma C2_bulk_store_caches_latest_and_writes_through_witness :
  [sw02; sw01; sw02] ≠ []
  ∧ HybridStore.flushQueue
      (HybridStore.StoreMetricsBulk Background [] (t2025 + 1) [sw02; sw01; sw02] store0).1.2
    = HybridStore.flushQueue store0.
Proof.
  assert (H : [sw02; sw01; sw02] ≠ []) by discriminate.
  split; [exact H|].
  exact (proj1 (proj2 (C2_bulk_store_caches_latest_and_writes_through
                         Background [] (t2025 + 1) [sw02; sw01; sw02] store0 H))).
Defined.

(** ** The single-record and map paths with a full flush queue *)

Lemma enqueue_full batch hs : queueFull hs -> HybridStore.enqueue batch hs = hs.
Proof.
  unfold queueFull, HybridStore.enqueue. intros H.
  destruct (Nat.ltb_spec (length (HybridStore.flushQueue hs)) HybridStore.flushQueueCap);
    [lia|done].
Qed.

(** C4, as stated, fails: when a batch is dropped the only counter that
    moves is [totalRequests], which moves in the same way when the batch is
    queued; no counter of the store counts dropped batches. *)
Lemma C4_no_dropped_batches_counter :
  let dropped := (HybridStore.UpdateMetrics (t2025 + 1) (t2025 + 2) "sw-01" sw01 fullStore).2 in
  let queued := (HybridStore.UpdateMetrics (t2025 + 1) (t2025 + 2) "sw-01" sw01 store0).2 in
  HybridStore.flushQueue dropped = HybridStore.flushQueue fullStore
  ∧ HybridStore.flushQueue queued = [[sw01]]
  ∧ ¬ exists i c,
        counters fullStore !! i = Some c
        ∧ counters dropped !! i = Some (c + 1)
        ∧ counters queued !! i = counters store0 !! i.
Proof.
  split; [vm_compute; reflexivity|]. split; [vm_compute; reflexivity|].
  intros (i & c & Hc & Hd & Hq).
  assert (Hf : counters fullStore = [0; 0; 0; 0; 100]) by (vm_compute; reflexivity).
  assert (Hdr : counters (HybridStore.UpdateMetrics (t2025 + 1) (t2025 + 2) "sw-01" sw01 fullStore).2
                = [1; 0; 0; 0; 100]) by (vm_compute; reflexivity).
  assert (Hqu : counters (HybridStore.UpdateMetrics (t2025 + 1) (t2025 + 2) "sw-01" sw01 store0).2
                = [1; 0; 0; 0; 1]) by (vm_compute; reflexivity).
  assert (H0 : counters store0 = [0; 0; 0; 0; 0]) by (vm_compute; reflexivity).
  rewrite Hf in Hc. rewrite Hdr in Hd. rewrite Hqu, H0 in Hq.
  destruct i as [|[|[|[|[|i]]]]]; simpl in Hc, Hd, Hq;
    try discriminate; injection Hc as <-; injection Hd as Hd; lia.
Qed.

(** C4, amended. Whenever the flush queue is full: [UpdateMetrics] with a
    non-empty switch id and [UpdateBatch] return success without waiting,
    the cache has been updated as by the operation of the same name on the
    cache, the batch is not on the queue, and the store is otherwise
    unchanged but for [totalRequests], which is incremented as on every
    call; no counter records the drop. *)
Theorem C4_full_queue_drops_batch (hs : HybridStore.t) :
  queueFull hs ->
  (forall now now' k d, k ≠ "" ->
     HybridStore.UpdateMetrics now now' k d hs
     = (None,
        HybridStore.incrementRequestCount
          (HybridStore.set_cache
             (InMemoryCache.UpdateMetrics now now' k d (HybridStore.cache hs)).2 hs)))
  ∧ (forall now (batch : gmap string TelemetryData),
       HybridStore.UpdateBatch now batch hs
       = (None,
          HybridStore.incrementRequestCount
            (HybridStore.set_cache
               (InMemoryCache.UpdateBatch now batch (HybridStore.cache hs)).2 hs)))
  ∧ (forall now now' k d (batch : gmap string TelemetryData) hs',
       HybridStore.UpdateMetrics now now' k d hs = (None, hs')
       ∨ HybridStore.UpdateBatch now batch hs = (None, hs') ->
       HybridStore.flushQueue hs' = HybridStore.flushQueue hs
       ∧ counters hs'
         = [ HybridStore.totalRequests hs + 1; HybridStore.totalCacheHits hs;
             HybridStore.totalDBWrites hs; HybridStore.totalDBWriteErrors hs;
             HybridStore.pendingFlushItems hs ]).
Proof.
  intros Hfull.
  assert (HM : forall now now' k d, k ≠ "" ->
     HybridStore.UpdateMetrics now now' k d hs
     = (None,
        HybridStore.incrementRequestCount
          (HybridStore.set_cache
             (InMemoryCache.UpdateMetrics now now' k d (HybridStore.cache hs)).2 hs))).
  { intros now now' k d Hk.
    unfold HybridStore.UpdateMetrics, InMemoryCache.UpdateMetrics.
    rewrite eqb_empty_false by done. simpl.
    by rewrite enqueue_full. }
  assert (HB : forall now (batch : gmap string TelemetryData),
       HybridStore.UpdateBatch now batch hs
       = (None,
          HybridStore.incrementRequestCount
            (HybridStore.set_cache
               (InMemoryCache.UpdateBatch now batch (HybridStore.cache hs)).2 hs))).
  { intros now batch. unfold HybridStore.UpdateBatch.
    pose proof (UpdateBatch_ok now batch (HybridStore.cache hs)) as Hok.
    destruct (InMemoryCache.UpdateBatch now batch (HybridStore.cache hs)) as [r c'].
    simpl in Hok. subst r. simpl.
    destruct (HybridStore.batchSlice batch); [done|].
    by rewrite enqueue_full. }
  split; [exact HM|]. split; [exact HB|].
  intros now now' k d batch hs' [H|H].
  - destruct (String.eqb_spec k "") as [->|Hk].
    + unfold HybridStore.UpdateMetrics in H. simpl in H. discriminate.
    + rewrite HM in H by done. by injection H as <-.
  - rewrite HB in H. by injection H as <-.
Qed.

Lemma C4_full_queue_drops_batch_witness :
  queueFull fullStore
  ∧ HybridStore.UpdateMetrics (t2025 + 1) (t2025 + 2) "sw-01" sw01 fullStore
    = (None,
       HybridStore.incrementRequestCount
         (HybridStore.set_cache
            (InMemoryCache.UpdateMetrics (t2025 + 1) (t2025 + 2) "sw-01" sw01
               (HybridStore.cache fullStore)).2 fullStore)).
Proof.
  assert (H : queueFull fullStore) by (vm_compute; lia).
  split; [exact H|].
  apply (proj1 (C4_full_queue_drops_batch fullStore H)).
  vm_compute. discriminate.
Defined.

(** ** What a run of the writer leaves behind *)

Section WriterOutcomes.
Import HybridStore.

(** A successful run of the writer has recorded the write. *)
Lemma Ending_written_state ctx metrics hs a err errs hs' tr :
  Ending ctx metrics hs a err errs None hs' tr ->
  exists now, hs' = recordWrite metrics now hs.
Proof. intros H. inversion H; subst. by eexists. Qed.

Lemma writeToDatabase_success ctx env metrics hs :
  (writeToDatabase ctx env metrics hs).1.1 = None ->
  repository (writeToDatabase ctx env metrics hs).1.2 = (repository hs ++ metrics)%list
  ∧ pendingFlushItems (writeToDatabase ctx env metrics hs).1.2
    = pendingFlushItems hs - Z.of_nat (length metrics)
  ∧ totalDBWrites (writeToDatabase ctx env metrics hs).1.2
    = totalDBWrites hs + Z.of_nat (length metrics)
  ∧ flushQueue (writeToDatabase ctx env metrics hs).1.2 = flushQueue hs
  ∧ cache (writeToDatabase ctx env metrics hs).1.2 = cache hs.
Proof.
  intros Hok. destruct metrics as [|d l] eqn:Hm.
  - simpl. rewrite app_nil_r. repeat split; simpl; lia.
  - rewrite <- Hm in *.
    assert (HE : exists errs,
               Ending ctx metrics hs 1 None errs
                 (writeToDatabase ctx env metrics hs).1.1
                 (writeToDatabase ctx env metrics hs).1.2
                 (writeToDatabase ctx env metrics hs).2).
    { unfold writeToDatabase. rewrite Hm. rewrite <- Hm.
      apply retryLoop_Ending. lia. }
    destruct HE as [errs HE]. rewrite Hok in HE.
    apply Ending_written_state in HE as [now ->]. by repeat split.
Qed.

Lemma writeToDatabase_failure ctx env metrics hs e :
  (HybridStore.writeToDatabase ctx env metrics hs).1.1 = Some e ->
  metrics ≠ []
  ∧ HybridStore.repository (HybridStore.writeToDatabase ctx env metrics hs).1.2
    = HybridStore.repository hs
  ∧ HybridStore.pendingFlushItems (HybridStore.writeToDatabase ctx env metrics hs).1.2
    = HybridStore.pendingFlushItems hs
  ∧ HybridStore.totalDBWrites (HybridStore.writeToDatabase ctx env metrics hs).1.2
    = HybridStore.totalDBWrites hs.
Proof.
  intros Hfail. destruct metrics as [|d l] eqn:Hm; [done|]. split; [done|].
  rewrite <- Hm in *.
  assert (HE : exists errs,
             Ending ctx metrics hs 1 None errs
               (HybridStore.writeToDatabase ctx env metrics hs).1.1
               (HybridStore.writeToDatabase ctx env metrics hs).1.2
               (HybridStore.writeToDatabase ctx env metrics hs).2).
  { unfold HybridStore.writeToDatabase. rewrite Hm. rewrite <- Hm.
    apply retryLoop_Ending. lia. }
  destruct HE as [errs HE].
  destruct (HybridStore.writeToDatabase ctx env metrics hs) as [[r hs'] tr].
  simpl in *. subst r. inversion HE; subst; done.
Qed.

Lemma writeToDatabase_clean ctx env metrics hs :
  1 <= MaxRetries (config hs) ->
  doneBefore (hd defaultAttempt env) = false ->
  storeErr (hd defaultAttempt env) = None ->
  (writeToDatabase ctx env metrics hs).1.1 = None.
Proof.
  intros Hn Hb Hs. unfold writeToDatabase. destruct metrics as [|d l]; [done|].
  destruct (Z.to_nat (MaxRetries (config hs))) as [|fuel] eqn:Hf; [lia|].
  simpl. rewrite Hb. destruct ctx; simpl; by rewrite Hs.
Qed.

Lemma drainQueue_clean q : forall steps hs,
  1 <= MaxRetries (config hs) ->
  Forall cleanStep steps ->
  flushQueue (drainQueue steps q hs).1 = []
  ∧ repository (drainQueue steps q hs).1 = (repository hs ++ concat q)%list
  ∧ pendingFlushItems (drainQueue steps q hs).1
    = pendingFlushItems hs - Z.of_nat (length (concat q))
  ∧ totalDBWrites (drainQueue steps q hs).1
    = totalDBWrites hs + Z.of_nat (length (concat q))
  ∧ cache (drainQueue steps q hs).1 = cache hs
  ∧ config (drainQueue steps q hs).1 = config hs.
Proof.
  induction q as [|b q IH]; intros steps hs Hn Hsteps; simpl.
  - rewrite app_nil_r. repeat split; lia.
  - assert (Hs : cleanStep (hd defaultStep steps)).
    { destruct Hsteps; [by repeat split|done]. }
    destruct Hs as (Hd & Hb & Herr). rewrite Hd.
    set (hs1 := set_queue q (pendingFlushItems hs) hs).
    set (ctx := Cancellable "context deadline exceeded").
    pose proof (writeToDatabase_clean ctx (attempts (hd defaultStep steps)) b hs1
                  Hn Hb Herr) as Hok.
    pose proof (writeToDatabase_success ctx _ b hs1 Hok)
      as (Hr & Hp & Hw & Hq & Hc).
    pose proof (writeToDatabase_frame ctx (attempts (hd defaultStep steps)) b hs1)
      as (_ & _ & Hcfg & _).
    destruct (writeToDatabase ctx (attempts (hd defaultStep steps)) b hs1)
      as [[r hs'] tr].
    simpl in *.
    assert (Hsteps' : Forall cleanStep (tl steps)).
    { destruct Hsteps; [constructor|done]. }
    assert (Hn' : 1 <= MaxRetries (config hs')) by (by rewrite Hcfg).
    specialize (IH (tl steps) hs' Hn' Hsteps').
    destruct (drainQueue (tl steps) q hs') as [hs'' tr']. simpl in *.
    destruct IH as (H1 & H2 & H3 & H4 & H5 & H6).
    rewrite length_app.
    split; [done|]. split; [by rewrite H2, Hr, app_assoc|].
    split; [rewrite H3, Hp; lia|]. split; [rewrite H4, Hw; lia|].
    split; [by rewrite H5, Hc|by rewrite H6, Hcfg].
Qed.

End WriterOutcomes.

(** ** The lifecycle of the hybrid store *)

Section LifecycleFacts.
Import HybridStore.

Lemma phase_Created hs : phase hs = Created <-> started hs = false.
Proof.
  unfold phase. destruct (started hs), (cancelled hs), (wg hs); simpl; split; done.
Qed.

Lemma drainQueue_lifecycle steps q : forall hs,
  started (drainQueue steps q hs).1 = started hs
  ∧ cancelled (drainQueue steps q hs).1 = cancelled hs
  ∧ startTime (drainQueue steps q hs).1 = startTime hs.
Proof.
  revert steps. induction q as [|b q IH]; intros steps hs; simpl; [done|].
  destruct (deadline _); [done|].
  pose proof (writeToDatabase_frame (Cancellable "context deadline exceeded")
                (attempts (hd defaultStep steps)) b
                (set_queue q (pendingFlushItems hs) hs)) as HF.
  destruct (writeToDatabase _ _ _ _) as [[r hs'] tr]. simpl in HF.
  destruct HF as (_ & _ & _ & Hs & Hc & _ & _ & _ & Ht).
  specialize (IH (tl steps) hs').
  destruct (drainQueue (tl steps) q hs') as [hs'' tr']. simpl in *.
  destruct IH as (-> & -> & ->). by rewrite Hs, Hc, Ht.
Qed.

Lemma Stop_started env hs :
  started hs = true ->
  started (Stop env hs).1.2 = true ∧ cancelled (Stop env hs).1.2 = true
  ∧ (workersDone env = true ->
     (Stop env hs).1.1 = None ∧ wg (Stop env hs).1.2 = O)
  ∧ (workersDone env = false ->
     (Stop env hs).1.1 = Some (stopErr env) ∧ wg (Stop env hs).1.2 = wg hs).
Proof.
  intros Hs. unfold Stop. rewrite Hs. simpl.
  destruct (workersDone env); simpl.
  - destruct (wg hs) as [|w] eqn:Hw; simpl.
    + repeat split; try done; by rewrite ?Hw.
    + destruct (flushWorker _ _ _ _) as [hs2 tr]. simpl. repeat split; done.
  - repeat split; done.
Qed.

(** A store that has stopped is a fixed point of [Stop]. *)
Lemma Stop_stopped env hs :
  phase hs = Stopped -> workersDone env = true -> Stop env hs = (None, hs, []).
Proof.
  unfold phase, Stop. destruct hs as [c r cf st ca w q a1 a2 a3 a4 lf stt p].
  simpl. destruct st, ca, w; simpl; try done.
  intros _ ->. done.
Qed.

Lemma rank_monotone hs op : (rank (phase hs) <= rank (phase (applyLifecycle hs op)))%nat.
Proof.
  destruct op as [now|env]; simpl.
  - unfold Start. destruct (started hs) eqn:Hs; simpl; [done|].
    unfold phase at 1. rewrite Hs. simpl. lia.
  - destruct hs as [c r cf st ca w q a1 a2 a3 a4 lf stt p].
    unfold Stop, phase. simpl.
    destruct st; simpl; [|done].
    destruct (workersDone env); simpl.
    + destruct w as [|w]; simpl.
      * destruct ca; simpl; lia.
      * destruct (flushWorker _ _ _ _) as [hs2 tr]. simpl.
        destruct ca; simpl; lia.
    + destruct ca, w; simpl; lia.
Qed.

(** *** The shutdown protocol *)

(** Under a context that is already cancelled the writer returns at its
    first check: the repository is not called and nothing is recorded. *)
Lemma writeToDatabase_cancelled ce metrics hs :
  let out := writeToDatabase (Cancellable ce) [cancelledAttempt] metrics hs in
  out.2 = [] ∧ repository out.1.2 = repository hs
  ∧ pendingFlushItems out.1.2 = pendingFlushItems hs
  ∧ totalDBWrites out.1.2 = totalDBWrites hs
  ∧ config out.1.2 = config hs.
Proof.
  unfold writeToDatabase. destruct metrics as [|d l]; [done|].
  destruct (Z.to_nat (MaxRetries (config hs))) as [|fuel]; simpl; done.
Qed.

Lemma writeToDatabase_carries ctx env metrics hs :
  Forall (carries metrics) (writeToDatabase ctx env metrics hs).2.
Proof.
  destruct metrics as [|d l] eqn:Hm; [constructor|]. rewrite <- Hm.
  assert (HE : exists errs,
             Ending ctx metrics hs 1 None errs
               (writeToDatabase ctx env metrics hs).1.1
               (writeToDatabase ctx env metrics hs).1.2
               (writeToDatabase ctx env metrics hs).2).
  { unfold writeToDatabase. rewrite Hm. rewrite <- Hm.
    apply retryLoop_Ending. lia. }
  destruct HE as [errs HE]. by eapply Ending_carries.
Qed.

(** A write either appends the batch to the repository or leaves the
    repository alone. *)
Lemma writeToDatabase_repository ctx env metrics hs :
  exists w, sublist w [metrics]
    ∧ repository (writeToDatabase ctx env metrics hs).1.2
      = (repository hs ++ concat w)%list.
Proof.
  destruct ((writeToDatabase ctx env metrics hs).1.1) as [e|] eqn:Hr.
  - exists []. split; [apply sublist_nil_l|].
    destruct (writeToDatabase_failure ctx env metrics hs e Hr) as (_ & -> & _).
    simpl. by rewrite app_nil_r.
  - exists [metrics]. split; [done|].
    destruct (writeToDatabase_success ctx env metrics hs Hr) as (-> & _).
    simpl. by rewrite app_nil_r.
Qed.

Lemma nth_tl {A} (l : list A) (n : nat) (d : A) : nth (S n) l d = nth n (tl l) d.
Proof. destruct l; [by destruct n|done]. Qed.

(** The shutdown drain takes the batches off the queue in order, hands each
    to the writer once, and stops before a batch only when the deadline
    fires there. *)
Lemma drainQueue_protocol q : forall steps hs,
  let out := drainQueue steps q hs in
  exists handled written,
    q = (handled ++ flushQueue out.1)%list
    ∧ sublist written handled
    ∧ repository out.1 = (repository hs ++ concat written)%list
    ∧ Forall (fun ev => exists b, b ∈ handled ∧ carries b ev) out.2
    ∧ (flushQueue out.1 ≠ [] ->
       deadline (nth (length handled) steps defaultStep) = true).
Proof.
  induction q as [|b q IH]; intros steps hs; simpl.
  { exists [], []. simpl. rewrite app_nil_r.
    split; [done|]. split; [done|]. split; [done|]. split; [constructor|done]. }
  destruct (deadline (hd defaultStep steps)) eqn:Hd.
  { exists [], []. simpl. rewrite app_nil_r.
    split; [done|]. split; [done|]. split; [done|]. split; [constructor|].
    intros _. by destruct steps. }
  pose proof (writeToDatabase_carries (Cancellable "context deadline exceeded")
                (attempts (hd defaultStep steps)) b
                (set_queue q (pendingFlushItems hs) hs)) as Hcar.
  pose proof (writeToDatabase_repository (Cancellable "context deadline exceeded")
                (attempts (hd defaultStep steps)) b
                (set_queue q (pendingFlushItems hs) hs)) as (w & Hw & Hrw).
  destruct (writeToDatabase _ _ _ _) as [[r hs'] tr]. simpl in Hcar, Hrw.
  specialize (IH (tl steps) hs').
  destruct (drainQueue (tl steps) q hs') as [hs'' tr']. simpl in *.
  destruct IH as (handled & written & Hq & Hsub & Hrep & Hev & Hdl).
  exists (b :: handled), (w ++ written)%list.
  split; [simpl; by rewrite <- Hq|].
  split; [by apply (sublist_app w [b] written handled)|].
  split; [by rewrite Hrep, Hrw, concat_app, app_assoc|].
  split.
  - apply Forall_app. split.
    + eapply Forall_impl; [exact Hcar|]. intros ev Hc. exists b. split; [by left|done].
    + eapply Forall_impl; [exact Hev|]. intros ev (b' & Hin & Hc).
      exists b'. split; [by right|done].
  - intros Hne. simpl. rewrite nth_tl. by apply Hdl.
Qed.

(** The flush worker after the cancellation: the batches it takes before
    it notices the cancellation are dropped unwritten, the others go
    through the shutdown drain. *)
Lemma flushWorker_protocol n : forall steps q hs,
  let out := flushWorker n steps q hs in
  exists dropped handled written,
    q = (dropped ++ handled ++ flushQueue out.1)%list
    ∧ (length dropped <= n)%nat
    ∧ sublist written handled
    ∧ repository out.1 = (repository hs ++ concat written)%list
    ∧ Forall (fun ev => exists b, b ∈ handled ∧ carries b ev) out.2
    ∧ (flushQueue out.1 ≠ [] ->
       deadline (nth (length handled) steps defaultStep) = true).
Proof.
  assert (Hdrain : forall steps q hs,
    let out := drainQueue steps q hs in
    exists dropped handled written,
      q = (dropped ++ handled ++ flushQueue out.1)%list
      ∧ (length dropped <= 0)%nat
      ∧ sublist written handled
      ∧ repository out.1 = (repository hs ++ concat written)%list
      ∧ Forall (fun ev => exists b, b ∈ handled ∧ carries b ev) out.2
      ∧ (flushQueue out.1 ≠ [] ->
         deadline (nth (length handled) steps defaultStep) = true)).
  { intros steps q hs.
    destruct (drainQueue_protocol q steps hs) as (handled & written & H).
    exists [], handled, written. simpl. split; [tauto|]. split; [lia|tauto]. }
  induction n as [|n IH]; intros steps q hs.
  { destruct q; apply Hdrain. }
  destruct q as [|b q].
  { destruct (Hdrain steps [] hs) as (dr & ha & wr & H1 & H2 & H3).
    exists dr, ha, wr. split; [exact H1|]. split; [lia|exact H3]. }
  simpl.
  pose proof (writeToDatabase_cancelled "context canceled" b
                (set_queue q (pendingFlushItems hs) hs)) as (Htr & Hrepo & _).
  destruct (writeToDatabase _ _ _ _) as [[r hs'] tr]. simpl in Htr, Hrepo. subst tr.
  specialize (IH steps q hs').
  destruct (flushWorker n steps q hs') as [hs'' tr']. simpl in *.
  destruct IH as (dropped & handled & written & Hq & Hlen & Hsub & Hrep & Hev & Hdl).
  exists (b :: dropped), handled, written.
  split; [simpl; by rewrite <- Hq|]. split; [simpl; lia|].
  split; [done|]. split; [by rewrite Hrep, Hrepo|]. split; done.
Qed.

(** When the repository accepts every batch at once and the deadline does
    not fire, the batches the worker did not drop are all written. *)
Lemma flushWorker_clean n : forall steps q hs,
  1 <= MaxRetries (config hs) ->
  Forall cleanStep steps ->
  flushQueue (flushWorker n steps q hs).1 = []
  ∧ repository (flushWorker n steps q hs).1
    = (repository hs ++ concat (drop n q))%list
  ∧ pendingFlushItems (flushWorker n steps q hs).1
    = pendingFlushItems hs - Z.of_nat (length (concat (drop n q)))
  ∧ totalDBWrites (flushWorker n steps q hs).1
    = totalDBWrites hs + Z.of_nat (length (concat (drop n q))).
Proof.
  induction n as [|n IH]; intros steps q hs Hn Hsteps.
  { assert (flushWorker 0 steps q hs = drainQueue steps q hs) as ->
      by (by destruct q).
    rewrite drop_0.
    destruct (drainQueue_clean q steps hs Hn Hsteps) as (H1 & H2 & H3 & H4 & _).
    done. }
  destruct q as [|b q].
  { simpl. rewrite app_nil_r. repeat split; lia. }
  simpl.
  pose proof (writeToDatabase_cancelled "context canceled" b
                (set_queue q (pendingFlushItems hs) hs))
    as (_ & Hrepo & Hpend & Hwr & Hcfg).
  destruct (writeToDatabase _ _ _ _) as [[r hs'] tr]. simpl in *.
  assert (Hn' : 1 <= MaxRetries (config hs')) by (by rewrite Hcfg).
  specialize (IH steps q hs' Hn' Hsteps).
  destruct (flushWorker n steps q hs') as [hs'' tr']. simpl in *.
  destruct IH as (H1 & H2 & H3 & H4).
  rewrite H2, H3, H4, Hrepo, Hpend, Hwr. done.
Qed.

End LifecycleFacts.

(** C8. A new store is in state created. [Start] takes a created store to
    started and fails with an already-started error, changing nothing, in
    every later state. [Stop], in every state after created, cancels the
    store's context; when the workers return before the caller's context is
    done it succeeds and the store is stopped; otherwise it returns the
    caller's context error and the store is stopping or stopped. A [Stop]
    that follows a successful [Stop] succeeds too and changes nothing. No
    call of [Start] or [Stop] moves the store backwards along
    created, started, stopping, stopped.

    The shutdown protocol a successful [Stop] runs while workers are
    registered accounts for every queued batch, in queue order: the
    batches the flush worker takes before it notices the cancellation (at
    most [raced]) are dropped unwritten; each of the following batches is
    handed once to the writer under the drain deadline, and the repository
    grows by those among them whose write succeeds; the batches after them
    stay on the queue, and some stay only when the deadline has fired. When
    no batch is taken early, the deadline does not fire and the repository
    accepts every batch at the first attempt, the queue ends empty and the
    repository has received every queued record, in order. *)
Theorem C8_lifecycle_state_machine (hs : HybridStore.t) (now : Time)
    (env env' : HybridStore.StopEnv) (op : LifecycleOp) :
  (HybridStore.phase hs = HybridStore.Created ->
     (HybridStore.Start now hs).1 = None
     ∧ HybridStore.phase (HybridStore.Start now hs).2 = HybridStore.Started)
  ∧ (HybridStore.phase hs ≠ HybridStore.Created ->
     HybridStore.Start now hs = (Some "hybrid store already started", hs))
  ∧ (HybridStore.phase hs ≠ HybridStore.Created ->
     HybridStore.workersDone env = true ->
     (HybridStore.Stop env hs).1.1 = None
     ∧ HybridStore.phase (HybridStore.Stop env hs).1.2 = HybridStore.Stopped)
  ∧ (HybridStore.phase hs ≠ HybridStore.Created ->
     HybridStore.workersDone env = false ->
     (HybridStore.Stop env hs).1.1 = Some (HybridStore.stopErr env)
     ∧ (rank HybridStore.Stopping
        <= rank (HybridStore.phase (HybridStore.Stop env hs).1.2))%nat)
  ∧ (HybridStore.phase hs ≠ HybridStore.Created ->
     HybridStore.workersDone env = true ->
     HybridStore.workersDone env' = true ->
     HybridStore.Stop env' (HybridStore.Stop env hs).1.2
     = (None, (HybridStore.Stop env hs).1.2, []))
  ∧ (rank (HybridStore.phase hs) <= rank (HybridStore.phase (applyLifecycle hs op)))%nat
  ∧ (HybridStore.phase hs ≠ HybridStore.Created ->
     HybridStore.cancelled (HybridStore.Stop env hs).1.2 = true)
  ∧ (HybridStore.phase hs ≠ HybridStore.Created ->
     HybridStore.wg hs ≠ O ->
     HybridStore.workersDone env = true ->
     exists dropped handled written,
       HybridStore.flushQueue hs
       = (dropped ++ handled ++ HybridStore.flushQueue (HybridStore.Stop env hs).1.2)%list
       ∧ (length dropped <= HybridStore.raced env)%nat
       ∧ sublist written handled
       ∧ HybridStore.repository (HybridStore.Stop env hs).1.2
         = (HybridStore.repository hs ++ concat written)%list
       ∧ Forall (fun ev => exists b, b ∈ handled ∧ carries b ev)
                (HybridStore.Stop env hs).2
       ∧ (HybridStore.flushQueue (HybridStore.Stop env hs).1.2 ≠ [] ->
          HybridStore.deadline
            (nth (length handled) (HybridStore.drainSteps env)
                 HybridStore.defaultStep) = true))
  ∧ (HybridStore.phase hs ≠ HybridStore.Created ->
     HybridStore.wg hs ≠ O ->
     HybridStore.workersDone env = true ->
     HybridStore.raced env = O ->
     1 <= HybridStore.MaxRetries (HybridStore.config hs) ->
     Forall cleanStep (HybridStore.drainSteps env) ->
     HybridStore.flushQueue (HybridStore.Stop env hs).1.2 = []
     ∧ HybridStore.repository (HybridStore.Stop env hs).1.2
       = (HybridStore.repository hs ++ concat (HybridStore.flushQueue hs))%list).
Proof.
  assert (Hst : HybridStore.phase hs ≠ HybridStore.Created -> HybridStore.started hs = true).
  { intros H. destruct (HybridStore.started hs) eqn:Hs; [done|].
    by apply phase_Created in Hs. }
  assert (Hstop : HybridStore.phase hs ≠ HybridStore.Created ->
     HybridStore.workersDone env = true ->
     (HybridStore.Stop env hs).1.1 = None
     ∧ HybridStore.phase (HybridStore.Stop env hs).1.2 = HybridStore.Stopped).
  { intros H Hw.
    destruct (Stop_started env hs (Hst H)) as (Hs & Hc & Hd & _).
    destruct (Hd Hw) as [Hr Hwg]. split; [done|].
    unfold HybridStore.phase. by rewrite Hs, Hc, Hwg. }
  split; [|split; [|split; [exact Hstop|split; [|split; [|split; [|split; [|split]]]]]]].
  - intros H. apply phase_Created in H. unfold HybridStore.Start. rewrite H.
    simpl. done.
  - intros H. unfold HybridStore.Start. by rewrite (Hst H).
  - intros H Hw.
    destruct (Stop_started env hs (Hst H)) as (Hs & Hc & _ & Hd).
    destruct (Hd Hw) as [Hr Hwg]. split; [done|].
    unfold HybridStore.phase. rewrite Hs, Hc. simpl.
    destruct (HybridStore.wg _); simpl; lia.
  - intros H Hw Hw'. destruct (Hstop H Hw) as [_ Hp].
    by apply Stop_stopped.
  - apply rank_monotone.
  - intros H. by destruct (Stop_started env hs (Hst H)) as (_ & Hc & _).
  - intros H Hwg Hw. unfold HybridStore.Stop. rewrite (Hst H), Hw. simpl.
    destruct (HybridStore.wg hs) as [|w] eqn:Ew; [done|].
    set (hs1 := HybridStore.set_lifecycle true true (S w) (HybridStore.startTime hs) hs).
    change (HybridStore.flushQueue hs) with (HybridStore.flushQueue hs1).
    change (HybridStore.repository hs) with (HybridStore.repository hs1).
    pose proof (flushWorker_protocol (HybridStore.raced env)
                  (HybridStore.drainSteps env) (HybridStore.flushQueue hs1) hs1) as Hp.
    destruct (HybridStore.flushWorker _ _ _ _) as [hs2 tr]. exact Hp.
  - intros H Hwg Hw Hr Hn Hsteps. unfold HybridStore.Stop.
    rewrite (Hst H), Hw, Hr. simpl.
    destruct (HybridStore.wg hs) as [|w] eqn:Ew; [done|].
    set (hs1 := HybridStore.set_lifecycle true true (S w) (HybridStore.startTime hs) hs).
    pose proof (drainQueue_clean (HybridStore.flushQueue hs)
                  (HybridStore.drainSteps env) hs1 Hn Hsteps) as (H1 & H2 & _).
    change (HybridStore.flushQueue hs1) with (HybridStore.flushQueue hs).
    destruct (HybridStore.drainQueue _ _ _) as [hs2 tr]. simpl in *. done.
Qed.

Lemma C8_lifecycle_state_machine_witness :
  HybridStore.phase store0 = HybridStore.Created
  ∧ HybridStore.phase startedStore ≠ HybridStore.Created
  ∧ HybridStore.workersDone gracefulStop = true
  ∧ HybridStore.phase (HybridStore.Start (t2025 + 1) store0).2 = HybridStore.Started
  ∧ HybridStore.Start (t2025 + 7) startedStore
    = (Some "hybrid store already started", startedStore)
  ∧ HybridStore.Stop gracefulStop (HybridStore.Stop gracefulStop startedStore).1.2
    = (None, (HybridStore.Stop gracefulStop startedStore).1.2, [])
  ∧ HybridStore.flushQueue (HybridStore.Stop gracefulStop busyStore).1.2 = []
  ∧ HybridStore.repository (HybridStore.Stop gracefulStop busyStore).1.2
    = (HybridStore.repository busyStore
         ++ concat (HybridStore.flushQueue busyStore))%list.
Proof.
  assert (H0 : HybridStore.phase store0 = HybridStore.Created) by reflexivity.
  assert (H1 : HybridStore.phase startedStore ≠ HybridStore.Created)
    by (vm_compute; discriminate).
  assert (H2 : HybridStore.workersDone gracefulStop = true) by reflexivity.
  assert (H3 : HybridStore.phase busyStore ≠ HybridStore.Created)
    by (vm_compute; discriminate).
  assert (H4 : HybridStore.wg busyStore ≠ O) by (vm_compute; discriminate).
  assert (H5 : HybridStore.raced gracefulStop = O) by reflexivity.
  assert (H6 : 1 <= HybridStore.MaxRetries (HybridStore.config busyStore))
    by (vm_compute; discriminate).
  assert (H7 : Forall cleanStep (HybridStore.drainSteps gracefulStop)) by constructor.
  repeat (split; [assumption|]).
  split; [|split; [|split]].
  - exact (proj2 (proj1 (C8_lifecycle_state_machine store0 (t2025 + 1)
                           gracefulStop gracefulStop (DoStart 0)) H0)).
  - exact (proj1 (proj2 (C8_lifecycle_state_machine startedStore (t2025 + 7)
                           gracefulStop gracefulStop (DoStart 0))) H1).
  - exact (proj1 (proj2 (proj2 (proj2 (proj2
            (C8_lifecycle_state_machine startedStore (t2025 + 7)
               gracefulStop gracefulStop (DoStart 0)))))) H1 H2 H2).
  - exact (proj2 (proj2 (proj2 (proj2 (proj2 (proj2 (proj2 (proj2
            (C8_lifecycle_state_machine busyStore (t2025 + 7)
               gracefulStop gracefulStop (DoStart 0))))))))) H3 H4 H2 H5 H6 H7).
Defined.

(** ** Health *)

Lemma GetHealthStatus_status since s :
  telemetryService.h_status (telemetryService.GetHealthStatus since s).1
  = if (switchCount s =? 0) || PrimFloat.ltb 300 (averageAge since s)
    then "degraded" else "healthy".
Proof.
  unfold telemetryService.GetHealthStatus, averageAge, switchCount.
  destruct (HybridStore.GetPerformanceMetrics since (telemetryService.store s))
    as [perf st'].
  simpl.
  destruct (PrimFloat.ltb 300 (DataAgeSeconds perf));
    destruct (HybridStore.GetSwitchCount (telemetryService.store s) =? 0); done.
Qed.

(** C9, evaluated where it fails. Three switches are cached, each with a
    record dated a hundred years before the clock reading, so that every
    record, and their mean, is far older than 300 seconds. The ages add up
    to more than an [int64] of nanoseconds holds: the sum the store keeps
    wraps around, the average age it reports is negative, and
    [GetHealthStatus] reports "healthy" without a data_freshness warning;
    the health endpoint answers 200. *)
Theorem C9_stale_records_reported_healthy :
  let since := fun _ : string => t2025 in
  switchCount staleService = 3
  ∧ ageOf since <$> cachedRecords staleService = [century; century; century]
  ∧ 300 * Second < century
  ∧ 2 ^ 63 - 1 < totalAge since staleService
  ∧ PrimFloat.ltb 300 (meanAgeSeconds since staleService) = true
  ∧ PrimFloat.ltb (averageAge since staleService) 0 = true
  ∧ telemetryService.h_status
      (telemetryService.GetHealthStatus since staleService).1 = "healthy"
  ∧ telemetryService.h_checks
      (telemetryService.GetHealthStatus since staleService).1 !! "data_freshness"
    = None
  ∧ (telemetryHandler.GetHealthStatus since staleService).1.1 = 200.
Proof.
  split; [vm_compute; reflexivity|].
  repeat split; vm_compute; reflexivity.
Qed.

(** ** Batch ingestion *)

Lemma validData_elem batch d :
  d ∈ telemetryService.validData batch <-> d ∈ batch ∧ SwitchID d ≠ "".
Proof.
  unfold telemetryService.validData. rewrite list_elem_of_filter.
  destruct (String.eqb_spec (SwitchID d) ""); simpl; split; intros [? ?]; done.
Qed.

Lemma validData_nil_iff batch :
  telemetryService.validData batch = [] <-> Forall (fun d => SwitchID d = "") batch.
Proof.
  unfold telemetryService.validData. induction batch as [|d l IH]; [done|].
  destruct (String.eqb_spec (SwitchID d) "") as [He|He].
  - rewrite filter_cons_False by (rewrite He; simpl; tauto).
    rewrite IH. split; [by constructor|by inversion 1].
  - rewrite filter_cons_True
      by (destruct (String.eqb_spec (SwitchID d) ""); simpl; done).
    split; [done|]. by inversion 1.
Qed.

(** C10. [IngestBatch] with an empty slice succeeds and leaves the service
    as it was. With a non-empty batch whose records all have an empty
    switch id it returns an error, again changing nothing. Otherwise the
    records with an empty switch id are dropped and exactly the others are
    passed on to [StoreMetricsBulk]: the cache then holds, under each of
    their switch ids, the last of them with that id, and every repository
    write carries them all; [IngestBatch] succeeds exactly when that bulk
    store does. [IngestMetrics], the single-record path, answers an empty
    switch id with an error. *)
Theorem C10_ingest_batch_drops_empty_ids (env : list HybridStore.Attempt)
    (now now' : Time) (batch : list TelemetryData) (d0 : TelemetryData)
    (s : telemetryService.t) :
  telemetryService.IngestBatch env now [] s = (None, s, [])
  ∧ (batch ≠ [] -> Forall (fun d => SwitchID d = "") batch ->
     telemetryService.IngestBatch env now batch s
     = (Some "no valid telemetry data to ingest", s, []))
  ∧ (Exists (fun d => SwitchID d ≠ "") batch ->
     let valid := telemetryService.validData batch in
     let bulk := HybridStore.StoreMetricsBulk Background env now valid
                   (telemetryService.store s) in
     let out := telemetryService.IngestBatch env now batch s in
     (forall d, d ∈ valid <-> d ∈ batch ∧ SwitchID d ≠ "")
     ∧ telemetryService.store out.1.2 = bulk.1.2
     ∧ out.2 = bulk.2
     ∧ (out.1.1 = None <-> bulk.1.1 = None)
     ∧ (forall k, k ≠ "" ->
          InMemoryCache.data (HybridStore.cache (telemetryService.store out.1.2)) !! k
          = match latestFor k valid with
            | Some d => Some (InMemoryCache.dataCopy now k d)
            | None => InMemoryCache.data (HybridStore.cache (telemetryService.store s)) !! k
            end)
     ∧ Forall (carries valid) out.2)
  ∧ (SwitchID d0 = "" ->
     telemetryService.IngestMetrics now now' d0 s
     = (Some "switchID cannot be empty", s)).
Proof.
  split; [done|]. split; [|split].
  - intros Hne Hall. unfold telemetryService.IngestBatch.
    destruct batch as [|d l]; [done|].
    apply validData_nil_iff in Hall. by rewrite Hall.
  - intros Hex. cbv zeta.
    assert (Hv : telemetryService.validData batch ≠ []).
    { intros Hnil. apply validData_nil_iff in Hnil.
      apply Exists_exists in Hex as (d & Hd & Hid).
      rewrite Forall_forall in Hnil. by apply Hid, Hnil. }
    destruct (StoreMetricsBulk_effect Background env now
                (telemetryService.validData batch)
                (telemetryService.store s) Hv) as (Hcache & _ & Hcar & _).
    assert (Hout :
      telemetryService.IngestBatch env now batch s
      = (match (HybridStore.StoreMetricsBulk Background env now
                  (telemetryService.validData batch) (telemetryService.store s)).1.1 with
         | Some e => Some (wrap "failed to ingest batch metrics" e)
         | None => None
         end,
         telemetryService.mk
           (HybridStore.StoreMetricsBulk Background env now
              (telemetryService.validData batch) (telemetryService.store s)).1.2
           (telemetryService.startTime s),
         (HybridStore.StoreMetricsBulk Background env now
            (telemetryService.validData batch) (telemetryService.store s)).2)).
    { unfold telemetryService.IngestBatch.
      destruct batch as [|d l]; [by inversion Hex|].
      destruct (telemetryService.validData (d :: l)) as [|v vs]; [done|].
      destruct (HybridStore.StoreMetricsBulk Background env now (v :: vs)
                  (telemetryService.store s)) as [[r st'] tr].
      simpl. by destruct r. }
    rewrite Hout. simpl.
    split; [apply validData_elem|]. split; [done|]. split; [done|].
    split; [|split; [exact Hcache|exact Hcar]].
    destruct (HybridStore.StoreMetricsBulk Background env now
                (telemetryService.validData batch) (telemetryService.store s)).1.1;
      split; done.
  - intros Hid. unfold telemetryService.IngestMetrics. by rewrite Hid.
Qed.

Lemma C10_ingest_batch_drops_empty_ids_witness :
  [anonymous; anonymous] ≠ []
  ∧ Forall (fun d => SwitchID d = "") [anonymous; anonymous]
  ∧ telemetryService.IngestBatch [] (t2025 + 1) [anonymous; anonymous]
      (telemetryService.NewTelemetryService store0 t2025)
    = (Some "no valid telemetry data to ingest",
       telemetryService.NewTelemetryService store0 t2025, [])
  ∧ Exists (fun d => SwitchID d ≠ "") [anonymous; sw01]
  ∧ (telemetryService.IngestBatch [] (t2025 + 1) [anonymous; sw01]
       (telemetryService.NewTelemetryService store0 t2025)).2
    = (HybridStore.StoreMetricsBulk Background [] (t2025 + 1)
         (telemetryService.validData [anonymous; sw01]) store0).2.
Proof.
  assert (H1 : [anonymous; anonymous] ≠ []) by discriminate.
  assert (H2 : Forall (fun d => SwitchID d = "") [anonymous; anonymous])
    by (repeat constructor).
  assert (H3 : Exists (fun d => SwitchID d ≠ "") [anonymous; sw01])
    by (apply Exists_cons_tl, Exists_cons_hd; vm_compute; discriminate).
  split; [exact H1|]. split; [exact H2|]. split; [|split; [exact H3|]].
  - exact (proj1 (proj2 (C10_ingest_batch_drops_empty_ids [] (t2025 + 1) 0
                           [anonymous; anonymous] anonymous
                           (telemetryService.NewTelemetryService store0 t2025))) H1 H2).
  - exact (proj1 (proj2 (proj2 (proj1 (proj2 (proj2
             (C10_ingest_batch_drops_empty_ids [] (t2025 + 1) 0
                [anonymous; sw01] anonymous
                (telemetryService.NewTelemetryService store0 t2025)))) H3)))).
Defined.

(** ** Validation on the single-record path *)

(** [IngestMetrics] looks at the switch id only: whatever the measured
    values, a record with a non-empty switch id reaches the cache. *)
Lemma IngestMetrics_ignores_values now now' (d : TelemetryData) s :
  SwitchID d ≠ "" ->
  (telemetryService.IngestMetrics now now' d s).1 = None
  ∧ InMemoryCache.data
      (HybridStore.cache
         (telemetryService.store (telemetryService.IngestMetrics now now' d s).2))
      !! SwitchID d
    = Some (InMemoryCache.dataCopy now (SwitchID d) d).
Proof.
  intros Hid.
  destruct (UpdateMetrics_nonempty now now' (SwitchID d) d (telemetryService.store s) Hid)
    as [Hok Hcache].
  unfold telemetryService.IngestMetrics. rewrite eqb_empty_false by done.
  destruct (HybridStore.UpdateMetrics now now' (SwitchID d) d (telemetryService.store s))
    as [r st'].
  simpl in *. subst r. simpl. split; [done|].
  rewrite Hcache. unfold InMemoryCache.UpdateMetrics.
  rewrite eqb_empty_false by done. simpl. by rewrite lookup_insert_eq.
Qed.

(** C1, evaluated where it fails. [ValidateMetricData] rejects a record
    with 150 percent utilisation and one with negative bandwidth, but
    [IngestMetrics] does not consult it: both records are accepted and
    stored in the cache, from which [GetMetric] serves the bad value.
    A temperature of 500 degrees passes even [ValidateMetricData]. *)
Theorem C1_invalid_record_reaches_cache :
  telemetryService.ValidateMetricData overUtilised
  = Some "utilization must be between 0 and 100"
  ∧ (telemetryService.IngestMetrics (t2025 + 1) (t2025 + 2) overUtilised service0).1 = None
  ∧ InMemoryCache.data
      (HybridStore.cache
         (telemetryService.store
            (telemetryService.IngestMetrics (t2025 + 1) (t2025 + 2) overUtilised service0).2))
      !! "sw-01" = Some overUtilised
  ∧ (telemetryService.GetMetric (t2025 + 3) "sw-01" MetricUtilization
       (telemetryService.IngestMetrics (t2025 + 1) (t2025 + 2) overUtilised service0).2).1
    = Ok (mkMetricResponse "sw-01" MetricUtilization (VFloat 150) (t2025 + 2))
  ∧ telemetryService.ValidateMetricData negativeBandwidth
    = Some "bandwidth cannot be negative"
  ∧ (telemetryService.IngestMetrics (t2025 + 1) (t2025 + 2) negativeBandwidth service0).1 = None
  ∧ InMemoryCache.data
      (HybridStore.cache
         (telemetryService.store
            (telemetryService.IngestMetrics (t2025 + 1) (t2025 + 2) negativeBandwidth service0).2))
      !! "sw-01" = Some negativeBandwidth
  ∧ telemetryService.ValidateMetricData overheated = None
  ∧ (telemetryService.IngestMetrics (t2025 + 1) (t2025 + 2) overheated service0).1 = None.
Proof. repeat split; vm_compute; reflexivity. Qed.

(** ** Deduplication in the generator client *)

Lemma isDuplicateData_spec (g : string) (ts : Time) (gc : GeneratorClient.t) :
  GeneratorClient.isDuplicateData g ts gc = true
  <-> (g ≠ "" ∧ g = GeneratorClient.lastGenerationID gc)
      ∨ (ts ≠ 0 ∧ ts <= GeneratorClient.lastDataTimestamp gc).
Proof.
  unfold GeneratorClient.isDuplicateData, IsZero, After.
  destruct (String.eqb_spec g "") as [Hg|Hg];
    destruct (String.eqb_spec g (GeneratorClient.lastGenerationID gc)) as [Hl|Hl];
    destruct (Z.eqb_spec ts 0) as [Hz|Hz];
    destruct (Z.ltb_spec (GeneratorClient.lastDataTimestamp gc) ts) as [Ht|Ht];
    simpl; split; try done; try tauto; try (intros _; right; split; [done|lia]);
    try (intros [[? ?]|[? ?]]; try done; lia).
Qed.

(** The last-seen pair changes only when a poll ends with a successful
    ingest, and then it becomes the pair of the snapshot just ingested. *)
Lemma fetchAndProcessData_last_seen fetched env now gc :
  let out := GeneratorClient.fetchAndProcessData fetched env now gc in
  (out.1 ≠ GeneratorClient.Ingested ->
     GeneratorClient.lastGenerationID out.2 = GeneratorClient.lastGenerationID gc
     ∧ GeneratorClient.lastDataTimestamp out.2 = GeneratorClient.lastDataTimestamp gc)
  ∧ (out.1 = GeneratorClient.Ingested ->
     exists r, fetched = Ok r
       ∧ GeneratorClient.lastGenerationID out.2 = GeneratorClient.generationID r
       ∧ GeneratorClient.lastDataTimestamp out.2 = GeneratorClient.dataTimestampOf r).
Proof.
  unfold GeneratorClient.fetchAndProcessData.
  destruct fetched as [r|e]; simpl; [|by split].
  destruct (GeneratorClient.isDuplicateData _ _ gc); simpl; [by split|].
  destruct (GeneratorClient.parsed r) as [tds|e]; simpl; [|by split].
  destruct (telemetryService.IngestBatch env now tds (GeneratorClient.service gc))
    as [[err s'] tr].
  destruct err; simpl; [by split|]. split; [done|]. intros _. by exists r.
Qed.

(** C3, evaluated where it fails. After generation [gen_1] has been
    ingested, a snapshot with the different generation id [gen_2] whose
    data timestamp is not after the last seen one is treated as a
    duplicate: the poll ends without ingesting, the skip counter goes up
    and the cache keeps the record of [gen_1]. *)
Theorem C3_new_generation_dropped_by_timestamp :
  GeneratorClient.lastGenerationID clientAfterFirstPoll = "gen_1"
  ∧ GeneratorClient.lastDataTimestamp clientAfterFirstPoll = t2025
  ∧ GeneratorClient.isDuplicateData "gen_2" t2025 clientAfterFirstPoll = true
  ∧ (GeneratorClient.pollAndIngest (t2025 + 3) (Ok secondSnapshot) [] (t2025 + 4)
       clientAfterFirstPoll).1 = GeneratorClient.Duplicate
  ∧ GeneratorClient.duplicateSkips
      (GeneratorClient.pollAndIngest (t2025 + 3) (Ok secondSnapshot) [] (t2025 + 4)
         clientAfterFirstPoll).2 = 1
  ∧ InMemoryCache.data
      (HybridStore.cache
         (telemetryService.store
            (GeneratorClient.service
               (GeneratorClient.pollAndIngest (t2025 + 3) (Ok secondSnapshot) []
                  (t2025 + 4) clientAfterFirstPoll).2)))
      !! "sw-01" = Some sw01.
Proof. repeat split; vm_compute; reflexivity. Qed.

(** * Further properties *)

(** ** The cache: eviction, alignment of its maps, counters *)

Section CacheMoreFacts.
Import InMemoryCache.

Lemma cleanup_fold cutoff c : forall m,
  m ⊆ lastUpdated c ->
  let r := map_fold (cleanupEntry cutoff) (c, 0) m in
  (forall k, lastUpdated r.1 !! k
             = match m !! k with
               | Some t => if t <? cutoff then None else lastUpdated c !! k
               | None => lastUpdated c !! k
               end)
  ∧ (forall k, data r.1 !! k
               = match m !! k with
                 | Some t => if t <? cutoff then None else data c !! k
                 | None => data c !! k
                 end)
  ∧ r.2 = Z.of_nat (size (filter (fun kv : string * Time => kv.2 < cutoff) m))
  ∧ requestCount r.1 = requestCount c ∧ hitCount r.1 = hitCount c
  ∧ Z.of_nat (size (lastUpdated r.1)) = Z.of_nat (size (lastUpdated c)) - r.2
  ∧ (aligned c -> Z.of_nat (size (data r.1)) = Z.of_nat (size (data c)) - r.2).
Proof.
  apply (map_fold_weak_ind
           (fun r (m : gmap string Time) =>
              m ⊆ lastUpdated c ->
              (forall k, lastUpdated r.1 !! k
                         = match m !! k with
                           | Some t => if t <? cutoff then None else lastUpdated c !! k
                           | None => lastUpdated c !! k
                           end)
              ∧ (forall k, data r.1 !! k
                           = match m !! k with
                             | Some t => if t <? cutoff then None else data c !! k
                             | None => data c !! k
                             end)
              ∧ r.2 = Z.of_nat (size (filter (fun kv : string * Time => kv.2 < cutoff) m))
              ∧ requestCount r.1 = requestCount c ∧ hitCount r.1 = hitCount c
              ∧ Z.of_nat (size (lastUpdated r.1)) = Z.of_nat (size (lastUpdated c)) - r.2
              ∧ (aligned c -> Z.of_nat (size (data r.1)) = Z.of_nat (size (data c)) - r.2))).
  - intros _. simpl. rewrite map_filter_empty, map_size_empty.
    repeat split; try done; try lia.
  - intros i x m r Hi IH Hsub. unfold Time in *.
    assert (Hm : m ⊆ lastUpdated c).
    { etrans; [apply (insert_subseteq m i x Hi)|exact Hsub]. }
    assert (Hix : lastUpdated c !! i = Some x).
    { eapply lookup_weaken; [|exact Hsub]. by rewrite lookup_insert_eq. }
    destruct (IH Hm) as (Hl & Hd & Hn & Hr & Hh & Hsl & Hsd).
    unfold cleanupEntry, Before.
    destruct (Z.ltb_spec x cutoff) as [Hstale|Hfresh]; simpl.
    + split; [|split; [|split; [|split; [|split; [|split]]]]]; try done.
      * intros k. destruct (decide (k = i)) as [->|Hk].
        -- rewrite lookup_delete_eq, lookup_insert_eq.
           by destruct (Z.ltb_spec x cutoff); [|lia].
        -- rewrite lookup_delete_ne, lookup_insert_ne by done. apply Hl.
      * intros k. destruct (decide (k = i)) as [->|Hk].
        -- rewrite lookup_delete_eq, lookup_insert_eq.
           by destruct (Z.ltb_spec x cutoff); [|lia].
        -- rewrite lookup_delete_ne, lookup_insert_ne by done. apply Hd.
      * rewrite map_filter_insert_True by done.
        rewrite map_size_insert_None.
        -- rewrite Hn. lia.
        -- apply map_lookup_filter_None. by left.
      * assert (is_Some (lastUpdated r.1 !! i)) as Hsome.
        { rewrite Hl, Hi. exists x. exact Hix. }
        rewrite map_size_delete_Some by done.
        assert (size (lastUpdated r.1) ≠ O).
        { intros Hz. apply map_size_empty_inv in Hz. rewrite Hz in Hsome.
          rewrite lookup_empty in Hsome. by destruct Hsome. }
        unfold Time in *. lia.
      * intros Hal. specialize (Hsd Hal).
        assert (is_Some (data r.1 !! i)) as Hsome.
        { rewrite Hd, Hi. apply Hal. exists x. exact Hix. }
        rewrite map_size_delete_Some by done.
        assert (size (data r.1) ≠ O).
        { intros Hz. apply map_size_empty_inv in Hz. rewrite Hz in Hsome.
          rewrite lookup_empty in Hsome. by destruct Hsome. }
        unfold Time in *. lia.
    + split; [|split; [|split; [|split; [|split; [|split]]]]]; try done.
      * intros k. destruct (decide (k = i)) as [->|Hk].
        -- rewrite lookup_insert_eq, Hl, Hi.
           by destruct (Z.ltb_spec x cutoff); [lia|].
        -- rewrite lookup_insert_ne by done. apply Hl.
      * intros k. destruct (decide (k = i)) as [->|Hk].
        -- rewrite lookup_insert_eq, Hd, Hi.
           by destruct (Z.ltb_spec x cutoff); [lia|].
        -- rewrite lookup_insert_ne by done. apply Hd.
      * rewrite map_filter_insert_not'; [done|simpl; lia|].
        intros y Hy. by rewrite Hi in Hy.
Qed.

Lemma CleanupStale_spec now maxAge c :
  let cutoff := now - maxAge in
  let out := CleanupStale now maxAge c in
  (forall k, lastUpdated out.2 !! k
             = if staleAt cutoff c k then None else lastUpdated c !! k)
  ∧ (forall k, data out.2 !! k = if staleAt cutoff c k then None else data c !! k)
  ∧ out.1 = Z.of_nat (size (filter (fun kv : string * Time => kv.2 < cutoff)
                                   (lastUpdated c)))
  ∧ requestCount out.2 = requestCount c ∧ hitCount out.2 = hitCount c
  ∧ (aligned c -> GetSwitchCount out.2 = GetSwitchCount c - out.1).
Proof.
  intros cutoff out. subst out. unfold CleanupStale, Add.
  replace (now + - maxAge) with cutoff by (subst cutoff; lia).
  pose proof (cleanup_fold cutoff c (lastUpdated c) (reflexivity _)) as H.
  simpl in H.
  destruct (map_fold (cleanupEntry cutoff) (c, 0) (lastUpdated c)) as [c' n].
  simpl in *. destruct H as (Hl & Hd & Hn & Hr & Hh & _ & Hsd).
  split; [|split; [|split; [exact Hn|split; [exact Hr|split; [exact Hh|]]]]].
  - intros k. rewrite Hl. unfold staleAt.
    destruct (lastUpdated c !! k) as [t0|] eqn:E; [|done].
    by destruct (t0 <? cutoff).
  - intros k. rewrite Hd. unfold staleAt.
    destruct (lastUpdated c !! k) as [t0|] eqn:E; [|done].
    by destruct (t0 <? cutoff).
  - intros Hal. unfold GetSwitchCount. by apply Hsd.
Qed.

Lemma updateEntry_fold_rest now (batch : gmap string TelemetryData) c :
  (forall k, lastUpdated (map_fold (updateEntry now) c batch) !! k
             = if decide (k = "") then lastUpdated c !! k
               else match batch !! k with
                    | Some _ => Some now
                    | None => lastUpdated c !! k
                    end)
  ∧ requestCount (map_fold (updateEntry now) c batch) = requestCount c
  ∧ hitCount (map_fold (updateEntry now) c batch) = hitCount c.
Proof.
  apply (map_fold_weak_ind
           (fun r (m : gmap string TelemetryData) =>
              (forall k, lastUpdated r !! k
                         = if decide (k = "") then lastUpdated c !! k
                           else match m !! k with
                                | Some _ => Some now
                                | None => lastUpdated c !! k
                                end)
              ∧ requestCount r = requestCount c ∧ hitCount r = hitCount c)).
  - split; [|done]. intros k. rewrite lookup_empty. by destruct (decide _).
  - intros i x m r Hi (IH & Hr & Hh). unfold updateEntry.
    case_eqb i "".
    + split; [|done]. intros k. rewrite IH.
      destruct (decide (k = "")) as [->|Hk]; [done|].
      by rewrite lookup_insert_ne.
    + simpl. split; [|done]. intros k.
      destruct (decide (k = i)) as [->|Hki].
      * rewrite !lookup_insert_eq. by destruct (decide (i = "")).
      * rewrite !lookup_insert_ne by done. apply IH.
Qed.

Lemma UpdateBatch_rest now (batch : gmap string TelemetryData) c :
  (forall k, lastUpdated (UpdateBatch now batch c).2 !! k
             = if decide (k = "") then lastUpdated c !! k
               else match batch !! k with
                    | Some _ => Some now
                    | None => lastUpdated c !! k
                    end)
  ∧ requestCount (UpdateBatch now batch c).2 = requestCount c
  ∧ hitCount (UpdateBatch now batch c).2 = hitCount c.
Proof.
  unfold UpdateBatch. destruct (decide (batch = ∅)) as [->|Hne]; simpl.
  - split; [|done]. intros k. rewrite lookup_empty. by destruct (decide _).
  - apply updateEntry_fold_rest.
Qed.

Lemma aligned_applyCall c call : aligned c -> aligned (applyCall c call).
Proof.
  intros Hal. destruct call as [now now' k d|now batch|k mt|k| |now maxAge|]; simpl.
  - unfold UpdateMetrics. case_eqb k ""; [done|]. intros k'. simpl.
    destruct (decide (k' = k)) as [->|Hk].
    + rewrite !lookup_insert_eq. split; by eexists.
    + rewrite !lookup_insert_ne by done. apply Hal.
  - intros k. rewrite UpdateBatch_lookup.
    rewrite (proj1 (UpdateBatch_rest now batch c) k).
    destruct (decide (k = "")); [apply Hal|].
    destruct (batch !! k); [split; by eexists|apply Hal].
  - unfold GetMetric. by destruct (data c !! k).
  - unfold GetAllMetrics. by destruct (data c !! k).
  - done.
  - destruct (CleanupStale_spec now maxAge c) as (Hl & Hd & _).
    intros k. rewrite Hl, Hd. destruct (staleAt _ c k); [|apply Hal].
    split; intros [? ?]; done.
  - intros k. simpl. rewrite !lookup_empty. split; intros [? ?]; done.
Qed.

Lemma countersOk_applyCall c call : countersOk c -> countersOk (applyCall c call).
Proof.
  unfold countersOk. intros Hc.
  destruct call as [now now' k d|now batch|k mt|k| |now maxAge|]; simpl.
  - unfold UpdateMetrics. by case_eqb k "".
  - destruct (UpdateBatch_rest now batch c) as (_ & -> & ->). done.
  - unfold GetMetric. destruct (data c !! k); simpl; lia.
  - unfold GetAllMetrics. destruct (data c !! k); simpl; lia.
  - destruct (decide (data c = ∅)); lia.
  - destruct (CleanupStale_spec now maxAge c) as (_ & _ & _ & -> & -> & _). done.
  - lia.
Qed.

Lemma runCalls_invariants calls : forall c,
  aligned c -> countersOk c ->
  aligned (runCalls calls c) ∧ countersOk (runCalls calls c).
Proof.
  induction calls as [|call calls IH]; intros c Hal Hc; [done|].
  simpl. apply IH; [by apply aligned_applyCall|by apply countersOk_applyCall].
Qed.

Lemma new_invariants : aligned NewInMemoryCache ∧ countersOk NewInMemoryCache.
Proof.
  split.
  - intros k. simpl. rewrite !lookup_empty. split; intros [? ?]; done.
  - unfold countersOk. simpl. lia.
Qed.

End CacheMoreFacts.

(** X1. [CleanupStale] removes, from both maps of the cache, exactly the
    entries whose last update is before the clock reading minus [maxAge];
    it keeps every other entry as it is, returns the number of entries
    removed and leaves the read counters alone. *)
Theorem X1_cleanup_evicts_exactly_stale (now : Time) (maxAge : Z)
    (c : InMemoryCache.t) :
  let cutoff := now - maxAge in
  let out := InMemoryCache.CleanupStale now maxAge c in
  (forall k, InMemoryCache.lastUpdated out.2 !! k
             = if staleAt cutoff c k then None else InMemoryCache.lastUpdated c !! k)
  ∧ (forall k, InMemoryCache.data out.2 !! k
               = if staleAt cutoff c k then None else InMemoryCache.data c !! k)
  ∧ out.1 = Z.of_nat (size (filter (fun kv : string * Time => kv.2 < cutoff)
                                   (InMemoryCache.lastUpdated c)))
  ∧ InMemoryCache.requestCount out.2 = InMemoryCache.requestCount c
  ∧ InMemoryCache.hitCount out.2 = InMemoryCache.hitCount c.
Proof.
  intros cutoff out.
  destruct (CleanupStale_spec now maxAge c) as (Hl & Hd & Hn & Hr & Hh & _).
  by repeat split.
Qed.

(** X2. After any sequence of calls of the operations of a new cache
    (updates, reads, cleanup, clear) the record map and the last-update map
    have the same switch ids: every cached switch has a last-update time
    and the other way round. *)
Theorem X2_cache_maps_stay_aligned (calls : list CacheCall) (k : string) :
  is_Some (InMemoryCache.data (runCalls calls InMemoryCache.NewInMemoryCache) !! k)
  <-> is_Some (InMemoryCache.lastUpdated
                 (runCalls calls InMemoryCache.NewInMemoryCache) !! k).
Proof.
  destruct new_invariants as [Hal Hc].
  by apply (runCalls_invariants calls _ Hal Hc).
Qed.

(** X3. After any sequence of calls of the operations of a new cache the
    hit counter is between zero and the request counter. *)
Theorem X3_cache_hits_bounded_by_requests (calls : list CacheCall) :
  0 <= InMemoryCache.hitCount (runCalls calls InMemoryCache.NewInMemoryCache)
    <= InMemoryCache.requestCount (runCalls calls InMemoryCache.NewInMemoryCache).
Proof.
  destruct new_invariants as [Hal Hc].
  by apply (runCalls_invariants calls _ Hal Hc).
Qed.

(** X4. On a cache reached from a new one by any sequence of calls, the
    number [CleanupStale] returns is exactly the drop of [GetSwitchCount]. *)
Theorem X4_cleanup_count_is_drop_in_switch_count (calls : list CacheCall)
    (now : Time) (maxAge : Z) :
  let c := runCalls calls InMemoryCache.NewInMemoryCache in
  InMemoryCache.GetSwitchCount (InMemoryCache.CleanupStale now maxAge c).2
  = InMemoryCache.GetSwitchCount c - (InMemoryCache.CleanupStale now maxAge c).1.
Proof.
  intros c. destruct new_invariants as [Hal Hc].
  destruct (runCalls_invariants calls _ Hal Hc) as [Hal' _].
  by apply (CleanupStale_spec now maxAge c).
Qed.

(** X5. Reading back after [UpdateBatch]: for every non-empty switch id of
    the batch [GetAllMetrics] returns the batch's record, with the id
    filled in and a zero timestamp replaced by the batch's instant, and
    [GetLastUpdate] returns that instant; for the empty id and for ids
    outside the batch both reads answer as before the batch. *)
Theorem X5_update_batch_read_back (now : Time)
    (batch : gmap string TelemetryData) (c : InMemoryCache.t) (k : string) :
  let c' := (InMemoryCache.UpdateBatch now batch c).2 in
  (InMemoryCache.GetAllMetrics k c').1
  = (if decide (k = "") then (InMemoryCache.GetAllMetrics k c).1
     else match batch !! k with
          | Some d => Ok (InMemoryCache.dataCopy now k d)
          | None => (InMemoryCache.GetAllMetrics k c).1
          end)
  ∧ InMemoryCache.GetLastUpdate k c'
    = (if decide (k = "") then InMemoryCache.GetLastUpdate k c
       else match batch !! k with
            | Some _ => now
            | None => InMemoryCache.GetLastUpdate k c
            end).
Proof.
  intros c'. subst c'. split.
  - unfold InMemoryCache.GetAllMetrics. rewrite UpdateBatch_lookup.
    destruct (decide (k = "")); [by destruct (InMemoryCache.data c !! k)|].
    destruct (batch !! k); [done|]. by destruct (InMemoryCache.data c !! k).
  - unfold InMemoryCache.GetLastUpdate.
    rewrite (proj1 (UpdateBatch_rest now batch c) k).
    destruct (decide (k = "")); [done|]. by destruct (batch !! k).
Qed.

(** X6. [UpdateMetrics] is last-writer-wins per switch id: a second update
    of the same id leaves the cache exactly as if the first had not
    happened. An update of a non-empty id never changes what is read for
    another id, and it raises [GetSwitchCount] by one when the id was not
    cached and leaves it alone otherwise. *)
Theorem X6_update_metrics_overwrites (n1 n1' n2 n2' : Time) (k k' : string)
    (d1 d2 : TelemetryData) (c : InMemoryCache.t) :
  InMemoryCache.UpdateMetrics n2 n2' k d2 (InMemoryCache.UpdateMetrics n1 n1' k d1 c).2
  = InMemoryCache.UpdateMetrics n2 n2' k d2 c
  ∧ (k' ≠ k ->
     (InMemoryCache.GetAllMetrics k' (InMemoryCache.UpdateMetrics n1 n1' k d1 c).2).1
     = (InMemoryCache.GetAllMetrics k' c).1)
  ∧ (k ≠ "" ->
     InMemoryCache.GetSwitchCount (InMemoryCache.UpdateMetrics n1 n1' k d1 c).2
     = InMemoryCache.GetSwitchCount c
       + (match InMemoryCache.data c !! k with Some _ => 0 | None => 1 end)).
Proof.
  split; [|split].
  - unfold InMemoryCache.UpdateMetrics.
    destruct (String.eqb k ""); [reflexivity|]. simpl.
    by rewrite !insert_insert_eq.
  - intros Hk. unfold InMemoryCache.UpdateMetrics, InMemoryCache.GetAllMetrics.
    destruct (String.eqb k ""); [reflexivity|]. simpl.
    rewrite lookup_insert_ne by congruence.
    by destruct (InMemoryCache.data c !! k').
  - intros Hk. unfold InMemoryCache.UpdateMetrics, InMemoryCache.GetSwitchCount.
    rewrite eqb_empty_false by done. simpl.
    destruct (InMemoryCache.data c !! k) eqn:E.
    + rewrite map_size_insert_Some by (by eexists). lia.
    + rewrite map_size_insert_None by done. lia.
Qed.

Lemma X6_update_metrics_overwrites_witness :
  "sw-02" ≠ "sw-01" ∧ "sw-01" ≠ ""
  ∧ InMemoryCache.GetSwitchCount
      (InMemoryCache.UpdateMetrics (t2025 + 1) (t2025 + 2) "sw-01" sw01
         InMemoryCache.NewInMemoryCache).2
    = InMemoryCache.GetSwitchCount InMemoryCache.NewInMemoryCache
      + (match InMemoryCache.data InMemoryCache.NewInMemoryCache !! "sw-01" with
         | Some _ => 0 | None => 1 end)
  ∧ (InMemoryCache.GetAllMetrics "sw-02"
       (InMemoryCache.UpdateMetrics (t2025 + 1) (t2025 + 2) "sw-01" sw01
          InMemoryCache.NewInMemoryCache).2).1
    = (InMemoryCache.GetAllMetrics "sw-02" InMemoryCache.NewInMemoryCache).1.
Proof.
  assert (H1 : "sw-02" ≠ "sw-01") by discriminate.
  assert (H2 : "sw-01" ≠ "") by discriminate.
  split; [exact H1|]. split; [exact H2|]. split.
  - exact (proj2 (proj2 (X6_update_metrics_overwrites (t2025 + 1) (t2025 + 2)
                           (t2025 + 1) (t2025 + 2) "sw-01" "sw-02" sw01 sw01
                           InMemoryCache.NewInMemoryCache)) H2).
  - exact (proj1 (proj2 (X6_update_metrics_overwrites (t2025 + 1) (t2025 + 2)
                           (t2025 + 1) (t2025 + 2) "sw-01" "sw-02" sw01 sw01
                           InMemoryCache.NewInMemoryCache)) H1).
Defined.

(** ** The hybrid store: queue, flush, drain, load *)

Section HybridMoreFacts.
Import HybridStore.

Lemma queueInv_enqueue b hs : b ≠ [] -> queueInv hs -> queueInv (enqueue b hs).
Proof.
  intros Hb (Hlen & Hp & Hne). unfold enqueue.
  destruct (Nat.ltb_spec (length (flushQueue hs)) flushQueueCap) as [Hlt|Hge];
    [|done].
  unfold queueInv, queuedRows. simpl.
  rewrite length_app, concat_app, length_app. simpl. rewrite app_nil_r.
  split; [lia|]. split.
  - rewrite Hp. unfold queuedRows. lia.
  - apply Forall_app. split; [done|]. by constructor.
Qed.

Lemma queueInv_frame hs hs' :
  flushQueue hs' = flushQueue hs -> pendingFlushItems hs' = pendingFlushItems hs ->
  queueInv hs -> queueInv hs'.
Proof.
  unfold queueInv, queuedRows. intros -> ->. done.
Qed.

Lemma queueInv_applyWrite hs w : queueInv hs -> queueInv (applyWrite hs w).
Proof.
  intros Hinv. destruct w as [now now' k d|now batch]; simpl.
  - unfold UpdateMetrics.
    destruct (InMemoryCache.UpdateMetrics now now' k d (cache hs)) as [[e|] c'];
      [done|]. simpl.
    eapply (queueInv_frame (enqueue [d] (set_cache c' hs))); [done|done|].
    apply queueInv_enqueue; [done|].
    by apply (queueInv_frame hs).
  - unfold UpdateBatch.
    destruct (InMemoryCache.UpdateBatch now batch (cache hs)) as [[e|] c'];
      [done|]. simpl.
    destruct (batchSlice batch) as [|x l] eqn:Hb.
    + by apply (queueInv_frame hs).
    + eapply (queueInv_frame (enqueue (x :: l) (set_cache c' hs))); [done|done|].
      apply queueInv_enqueue; [done|].
      by apply (queueInv_frame hs).
Qed.

Lemma applyWrite_untouched hs w :
  repository (applyWrite hs w) = repository hs
  ∧ totalDBWrites (applyWrite hs w) = totalDBWrites hs
  ∧ totalDBWriteErrors (applyWrite hs w) = totalDBWriteErrors hs.
Proof.
  destruct w as [now now' k d|now batch]; simpl.
  - unfold UpdateMetrics.
    destruct (InMemoryCache.UpdateMetrics now now' k d (cache hs)) as [[e|] c'];
      [done|]. simpl. unfold enqueue. by destruct (_ <? _)%nat.
  - unfold UpdateBatch.
    destruct (InMemoryCache.UpdateBatch now batch (cache hs)) as [[e|] c'];
      [done|]. simpl.
    destruct (batchSlice batch); [done|]. unfold enqueue. by destruct (_ <? _)%nat.
Qed.

Lemma runWrites_inv ws : forall hs,
  queueInv hs ->
  queueInv (runWrites ws hs)
  ∧ repository (runWrites ws hs) = repository hs
  ∧ totalDBWrites (runWrites ws hs) = totalDBWrites hs.
Proof.
  induction ws as [|w ws IH]; intros hs Hinv; [done|].
  simpl. destruct (IH (applyWrite hs w) (queueInv_applyWrite hs w Hinv))
    as (H1 & H2 & H3).
  destruct (applyWrite_untouched hs w) as (Hr & Hw & _).
  split; [done|]. by rewrite H2, H3, Hr, Hw.
Qed.

End HybridMoreFacts.

(** X7. The flush queue is bounded and accounted for: after any sequence
    of [UpdateMetrics] and [UpdateBatch] calls on a new store the queue
    holds at most one hundred batches, none of them empty,
    [pendingFlushItems] is the number of records waiting on it, and the
    repository has not been written. While the queue has room a
    single-record update appends its one-record batch at the tail. *)
Theorem X7_flush_queue_bounded_and_counted (ws : list StoreWrite)
    (c : InMemoryCache.t) (repo : list TelemetryData)
    (cfg : HybridStore.HybridStoreConfig) (t0 now now' : Time) (k : string)
    (d : TelemetryData) (hs : HybridStore.t) :
  (let hs' := runWrites ws (HybridStore.NewHybridStore c repo cfg t0) in
   (length (HybridStore.flushQueue hs') <= 100)%nat
   ∧ Forall (fun b => b ≠ []) (HybridStore.flushQueue hs')
   ∧ HybridStore.pendingFlushItems hs' = queuedRows hs'
   ∧ HybridStore.repository hs' = repo)
  ∧ (k ≠ "" -> (length (HybridStore.flushQueue hs) < 100)%nat ->
     HybridStore.flushQueue (HybridStore.UpdateMetrics now now' k d hs).2
     = (HybridStore.flushQueue hs ++ [[d]])%list
     ∧ HybridStore.pendingFlushItems (HybridStore.UpdateMetrics now now' k d hs).2
       = HybridStore.pendingFlushItems hs + 1).
Proof.
  split.
  - intros hs'.
    assert (Hnew : queueInv (HybridStore.NewHybridStore c repo cfg t0)).
    { unfold queueInv, queuedRows. simpl. split; [lia|]. split; [done|constructor]. }
    destruct (runWrites_inv ws _ Hnew) as ((Hlen & Hp & Hne) & Hr & _).
    by repeat split.
  - intros Hk Hroom.
    unfold HybridStore.UpdateMetrics, InMemoryCache.UpdateMetrics.
    rewrite eqb_empty_false by done. simpl. unfold HybridStore.enqueue. simpl.
    destruct (Nat.ltb_spec (length (HybridStore.flushQueue hs)) HybridStore.flushQueueCap)
      as [Hlt|Hge]; [done|].
    unfold HybridStore.flushQueueCap in Hge. lia.
Qed.

Lemma X7_flush_queue_bounded_and_counted_witness :
  "sw-01" ≠ ""
  ∧ (length (HybridStore.flushQueue store0) < 100)%nat
  ∧ HybridStore.flushQueue
      (HybridStore.UpdateMetrics (t2025 + 1) (t2025 + 2) "sw-01" sw01 store0).2
    = (HybridStore.flushQueue store0 ++ [[sw01]])%list.
Proof.
  assert (H1 : "sw-01" ≠ "") by discriminate.
  assert (H2 : (length (HybridStore.flushQueue store0) < 100)%nat)
    by (vm_compute; lia).
  split; [exact H1|]. split; [exact H2|].
  exact (proj1 (proj2 (X7_flush_queue_bounded_and_counted [] InMemoryCache.NewInMemoryCache
                         [] HybridStore.DefaultHybridStoreConfig t2025
                         (t2025 + 1) (t2025 + 2) "sw-01" sw01 store0) H1 H2)).
Defined.

Section FlushFacts.
Import HybridStore.

Lemma collectQueue_no_deadline q : forall deadlines acc,
  Forall (fun b => b = false) deadlines ->
  collectQueue deadlines q acc = ((acc ++ concat q)%list, []).
Proof.
  induction q as [|b q IH]; intros deadlines acc Hd; simpl.
  - by rewrite app_nil_r.
  - assert (hd false deadlines = false) as ->.
    { destruct Hd; [done|]. done. }
    rewrite IH.
    + by rewrite <- app_assoc.
    + destruct Hd; [constructor|done].
Qed.

End FlushFacts.

(** X8. [FlushToDatabase], when its drain deadline does not cut the loop
    short, empties the flush queue and hands all queued records, in the
    order they were queued, to a single [writeToDatabase] call; with
    nothing queued it returns success without calling the repository. When
    it returns success the repository has grown by exactly those records and
    [pendingFlushItems] has dropped by their number. *)
Theorem X8_flush_writes_queue_in_order (ctx : Context) (deadlines : list bool)
    (env : list HybridStore.Attempt) (hs : HybridStore.t) :
  Forall (fun b => b = false) deadlines ->
  let all := concat (HybridStore.flushQueue hs) in
  let emptied := HybridStore.set_queue [] (HybridStore.pendingFlushItems hs) hs in
  let out := HybridStore.FlushToDatabase ctx deadlines env hs in
  out = (match all with
         | [] => (None, emptied, [])
         | _ => HybridStore.writeToDatabase ctx env all emptied
         end)
  ∧ HybridStore.flushQueue out.1.2 = []
  ∧ Forall (carries all) out.2
  ∧ (out.1.1 = None ->
     HybridStore.repository out.1.2 = (HybridStore.repository hs ++ all)%list
     ∧ HybridStore.pendingFlushItems out.1.2
       = HybridStore.pendingFlushItems hs - queuedRows hs).
Proof.
  intros Hd all emptied out.
  assert (Hout : out = (match all with
                        | [] => (None, emptied, [])
                        | _ => HybridStore.writeToDatabase ctx env all emptied
                        end)).
  { subst out. unfold HybridStore.FlushToDatabase.
    rewrite (collectQueue_no_deadline _ deadlines [] Hd). simpl. done. }
  split; [exact Hout|]. rewrite Hout. clear Hout out.
  destruct all as [|d l] eqn:Hall.
  - simpl. split; [done|]. split; [constructor|]. intros _.
    rewrite app_nil_r. unfold queuedRows. fold all. rewrite Hall. simpl.
    split; [done|lia].
  - rewrite <- Hall.
    pose proof (writeToDatabase_frame ctx env all emptied) as (_ & Hq & _).
    assert (HE : exists errs,
               Ending ctx all emptied 1 None errs
                 (HybridStore.writeToDatabase ctx env all emptied).1.1
                 (HybridStore.writeToDatabase ctx env all emptied).1.2
                 (HybridStore.writeToDatabase ctx env all emptied).2).
    { unfold HybridStore.writeToDatabase. rewrite Hall. rewrite <- Hall.
      apply retryLoop_Ending. lia. }
    destruct HE as [errs HE].
    split; [by rewrite Hq|]. split; [by eapply Ending_carries|].
    intros Hok.
    destruct (writeToDatabase_success ctx env all emptied Hok) as (Hr & Hp & _).
    rewrite Hr, Hp. unfold queuedRows. by fold all.
Qed.

Lemma X8_flush_writes_queue_in_order_witness :
  Forall (fun b => b = false) []
  ∧ HybridStore.repository
      (HybridStore.FlushToDatabase Background [] [] busyStore).1.2
    = [sw01; sw02; overUtilised].
Proof.
  assert (H : Forall (fun b : bool => b = false) []) by constructor.
  split; [exact H|].
  pose proof (X8_flush_writes_queue_in_order Background [] [] busyStore H) as HX.
  cbv zeta in HX. destruct HX as (_ & _ & _ & HX).
  assert (Hok : (HybridStore.FlushToDatabase Background [] [] busyStore).1.1 = None)
    by (vm_compute; reflexivity).
  rewrite (proj1 (HX Hok)). vm_compute. reflexivity.
Defined.

(** X9. The drain at [Stop]. When [Stop] is called on a started store
    whose workers are registered, the workers return in time, the drain
    deadline does not fire and the repository accepts every batch at the
    first attempt (with [MaxRetries] at least one), then [Stop] succeeds,
    the store is stopped and the flush queue is empty. The batches the
    flush worker took off the queue before it noticed the cancellation,
    the first [raced] of the queue, are lost: they were handed to the
    writer under the cancelled context and never reach the repository. The
    repository receives the records of all other batches, in the order
    they were queued, and [totalDBWrites] and [pendingFlushItems] move by
    their number only. When no batch was taken early, all queued records
    reach the repository. *)
Theorem X9_stop_drains_queue_in_order (env : HybridStore.StopEnv)
    (hs : HybridStore.t) :
  HybridStore.started hs = true ->
  HybridStore.wg hs ≠ O ->
  HybridStore.workersDone env = true ->
  1 <= HybridStore.MaxRetries (HybridStore.config hs) ->
  Forall cleanStep (HybridStore.drainSteps env) ->
  let out := HybridStore.Stop env hs in
  let kept := drop (HybridStore.raced env) (HybridStore.flushQueue hs) in
  out.1.1 = None
  ∧ HybridStore.phase out.1.2 = HybridStore.Stopped
  ∧ HybridStore.flushQueue out.1.2 = []
  ∧ HybridStore.repository out.1.2
    = (HybridStore.repository hs ++ concat kept)%list
  ∧ HybridStore.totalDBWrites out.1.2
    = HybridStore.totalDBWrites hs + Z.of_nat (length (concat kept))
  ∧ HybridStore.pendingFlushItems out.1.2
    = HybridStore.pendingFlushItems hs - Z.of_nat (length (concat kept))
  ∧ (HybridStore.raced env = O ->
     HybridStore.repository out.1.2
     = (HybridStore.repository hs ++ concat (HybridStore.flushQueue hs))%list).
Proof.
  intros Hs Hwg Hw Hn Hsteps out kept. subst out kept. unfold HybridStore.Stop.
  rewrite Hs, Hw. simpl.
  destruct (HybridStore.wg hs) as [|w] eqn:Ew; [done|].
  set (hs1 := HybridStore.set_lifecycle true true (S w) (HybridStore.startTime hs) hs).
  pose proof (flushWorker_clean (HybridStore.raced env) (HybridStore.drainSteps env)
                (HybridStore.flushQueue hs) hs1 Hn Hsteps)
    as (H1 & H2 & H3 & H4).
  change (HybridStore.flushQueue hs1) with (HybridStore.flushQueue hs).
  destruct (HybridStore.flushWorker (HybridStore.raced env)
              (HybridStore.drainSteps env) (HybridStore.flushQueue hs) hs1)
    as [hs2 tr].
  simpl in *. repeat split; try done.
  intros Hr. by rewrite H2, Hr, drop_0.
Qed.

Lemma X9_stop_drains_queue_in_order_witness :
  HybridStore.started busyStore = true
  ∧ HybridStore.wg busyStore ≠ O
  ∧ HybridStore.workersDone hastyStop = true
  ∧ 1 <= HybridStore.MaxRetries (HybridStore.config busyStore)
  ∧ Forall cleanStep (HybridStore.drainSteps hastyStop)
  ∧ HybridStore.repository (HybridStore.Stop hastyStop busyStore).1.2
    = (HybridStore.repository busyStore
         ++ concat (drop 1 (HybridStore.flushQueue busyStore)))%list.
Proof.
  assert (H1 : HybridStore.started busyStore = true) by (vm_compute; reflexivity).
  assert (H2 : HybridStore.wg busyStore ≠ O) by (vm_compute; discriminate).
  assert (H3 : HybridStore.workersDone hastyStop = true) by reflexivity.
  assert (H4 : 1 <= HybridStore.MaxRetries (HybridStore.config busyStore))
    by (vm_compute; discriminate).
  assert (H5 : Forall cleanStep (HybridStore.drainSteps hastyStop)) by constructor.
  repeat (split; [assumption|]).
  exact (proj1 (proj2 (proj2 (proj2 (X9_stop_drains_queue_in_order hastyStop busyStore
                                       H1 H2 H3 H4 H5))))).
Defined.

(** X10. A successful [StoreMetricsBulk] of a non-empty batch adds the
    size of the batch to [totalDBWrites] and subtracts it from
    [pendingFlushItems], although it has queued nothing: after bulk stores
    [pendingFlushItems] no longer equals the number of records waiting on
    the flush queue. *)
Theorem X10_bulk_store_accounting (ctx : Context) (env : list HybridStore.Attempt)
    (now : Time) (metrics : list TelemetryData) (hs : HybridStore.t) :
  metrics ≠ [] ->
  (HybridStore.StoreMetricsBulk ctx env now metrics hs).1.1 = None ->
  let hs' := (HybridStore.StoreMetricsBulk ctx env now metrics hs).1.2 in
  HybridStore.totalDBWrites hs'
  = HybridStore.totalDBWrites hs + Z.of_nat (length metrics)
  ∧ HybridStore.pendingFlushItems hs'
    = HybridStore.pendingFlushItems hs - Z.of_nat (length metrics)
  ∧ queuedRows hs' = queuedRows hs
  ∧ (HybridStore.pendingFlushItems hs = queuedRows hs ->
     HybridStore.pendingFlushItems hs' < queuedRows hs').
Proof.
  intros Hne Hok hs'. subst hs'. revert Hok.
  unfold HybridStore.StoreMetricsBulk.
  destruct metrics as [|d l] eqn:Hm; [done|]. rewrite <- Hm in *.
  pose proof (UpdateBatch_ok now (HybridStore.cacheData metrics) (HybridStore.cache hs)) as Hb.
  destruct (InMemoryCache.UpdateBatch now (HybridStore.cacheData metrics) (HybridStore.cache hs))
    as [r c'].
  simpl in Hb. subst r. intros Hok.
  destruct (writeToDatabase_success ctx env metrics (HybridStore.set_cache c' hs) Hok)
    as (_ & Hp & Hw & Hq & _).
  rewrite Hw, Hp. unfold queuedRows. rewrite Hq. simpl.
  split; [done|]. split; [done|]. split; [done|].
  intros ->. unfold queuedRows.
  assert (0 < Z.of_nat (length metrics)); [|lia].
  rewrite Hm. simpl. lia.
Qed.

Lemma X10_bulk_store_accounting_witness :
  [sw01; sw02] ≠ []
  ∧ (HybridStore.StoreMetricsBulk Background [] (t2025 + 1) [sw01; sw02] store0).1.1 = None
  ∧ HybridStore.pendingFlushItems
      (HybridStore.StoreMetricsBulk Background [] (t2025 + 1) [sw01; sw02] store0).1.2
    = HybridStore.pendingFlushItems store0 - Z.of_nat (length [sw01; sw02]).
Proof.
  assert (H1 : [sw01; sw02] ≠ []) by discriminate.
  assert (H2 : (HybridStore.StoreMetricsBulk Background [] (t2025 + 1) [sw01; sw02]
                  store0).1.1 = None) by (vm_compute; reflexivity).
  split; [exact H1|]. split; [exact H2|].
  exact (proj1 (proj2 (X10_bulk_store_accounting Background [] (t2025 + 1)
                         [sw01; sw02] store0 H1 H2))).
Defined.

Section LoadFacts.
Import HybridStore.

Lemma loadSwitch_frame env hs sw :
  loadSwitch env hs sw = set_cache (cache (loadSwitch env hs sw)) hs.
Proof.
  unfold loadSwitch. destruct hs. simpl.
  destruct (latestMetrics env (sw_ID sw)); [|done].
  by destruct (InMemoryCache.UpdateMetrics _ _ _ _ _) as [[e|] c'].
Qed.

Lemma loadSwitch_lookup env hs sw k :
  InMemoryCache.data (cache (loadSwitch env hs sw)) !! k
  = match loadedRecord env [sw] k with
    | Some d => Some d
    | None => InMemoryCache.data (cache hs) !! k
    end.
Proof.
  unfold loadSwitch, loadedRecord. simpl.
  destruct (decide (k ≠ "" ∧ k ∈ [sw_ID sw])) as [[Hk Hin]|Hn].
  - apply list_elem_of_singleton in Hin as ->.
    destruct (latestMetrics env (sw_ID sw)) as [m|e]; [|done].
    unfold InMemoryCache.UpdateMetrics. rewrite eqb_empty_false by done.
    simpl. by rewrite lookup_insert_eq.
  - destruct (latestMetrics env (sw_ID sw)) as [m|e]; [|done].
    unfold InMemoryCache.UpdateMetrics.
    destruct (String.eqb_spec (sw_ID sw) "") as [He|He]; [done|].
    simpl. rewrite lookup_insert_ne; [done|].
    intros <-. apply Hn. split; [done|]. by apply list_elem_of_singleton.
Qed.

Lemma loadedRecord_cons env sw l k :
  loadedRecord env (sw :: l) k
  = match loadedRecord env l k with
    | Some d => Some d
    | None => loadedRecord env [sw] k
    end.
Proof.
  unfold loadedRecord. rewrite fmap_cons.
  assert (Hiff : k ∈ sw_ID sw :: (sw_ID <$> l)
                 <-> k ∈ [sw_ID sw] ∨ k ∈ sw_ID <$> l).
  { rewrite elem_of_cons, list_elem_of_singleton. tauto. }
  repeat case_decide; destruct (latestMetrics env k); try done; exfalso; tauto.
Qed.

Lemma loadSwitches_lookup env switches : forall hs k,
  InMemoryCache.data (cache (foldl (loadSwitch env) hs switches)) !! k
  = match loadedRecord env switches k with
    | Some d => Some d
    | None => InMemoryCache.data (cache hs) !! k
    end.
Proof.
  induction switches as [|sw l IH]; intros hs k.
  - simpl. unfold loadedRecord. simpl.
    destruct (decide _) as [[_ Hin]|_]; [|done]. by apply elem_of_nil in Hin.
  - simpl foldl. rewrite IH, loadSwitch_lookup, (loadedRecord_cons env sw l k).
    by destruct (loadedRecord env l k).
Qed.

Lemma loadSwitches_frame env switches : forall hs,
  foldl (loadSwitch env) hs switches
  = set_cache (cache (foldl (loadSwitch env) hs switches)) hs.
Proof.
  induction switches as [|sw l IH]; intros hs; simpl.
  - by destruct hs.
  - rewrite IH at 1.
    generalize (cache (foldl (loadSwitch env) (loadSwitch env hs sw) l)).
    intros c. unfold loadSwitch.
    destruct (latestMetrics env (sw_ID sw)); [|done].
    by destruct (InMemoryCache.UpdateMetrics _ _ _ _ _) as [[e|] c'].
Qed.

End LoadFacts.

(** X11. [LoadFromDatabase] fails only when the repository cannot list the
    switches, and then changes nothing. Otherwise it returns success and the
    cache holds, for every listed switch with a non-empty id for which the
    repository has a latest record, that record (normalised as by
    [UpdateMetrics]); switches whose lookup fails are skipped and every
    other cache entry is kept. Nothing but the cache changes: the loaded
    records are not put on the flush queue. *)
Theorem X11_load_from_database (switches : list Switch)
    (latest : string -> result TelemetryData) (clock clock' : string -> Time)
    (e : error) (hs : HybridStore.t) (k : string) :
  let env := HybridStore.mkLoadEnv (Ok switches) latest clock clock' in
  let out := HybridStore.LoadFromDatabase env hs in
  out.1 = None
  ∧ out.2 = HybridStore.set_cache (HybridStore.cache out.2) hs
  ∧ InMemoryCache.data (HybridStore.cache out.2) !! k
    = match loadedRecord env switches k with
      | Some d => Some d
      | None => InMemoryCache.data (HybridStore.cache hs) !! k
      end
  ∧ HybridStore.LoadFromDatabase
      (HybridStore.mkLoadEnv (Err e) latest clock clock') hs
    = (Some (wrap "failed to load switches" e), hs).
Proof.
  intros env out. subst out. unfold HybridStore.LoadFromDatabase. simpl.
  split; [done|]. split; [apply loadSwitches_frame|].
  split; [apply loadSwitches_lookup|done].
Qed.

(** ** The service and the handler: reads *)

Lemma isValidMetricType_GetMetricValue (d : TelemetryData) (mt : MetricType) :
  telemetryHandler.isValidMetricType mt = true
  <-> exists v, GetMetricValue d mt = Ok v.
Proof.
  unfold telemetryHandler.isValidMetricType, GetMetricValue. simpl.
  destruct (String.eqb mt MetricBandwidth); [split; [by eexists|done]|].
  destruct (String.eqb mt MetricLatency); [split; [by eexists|done]|].
  destruct (String.eqb mt MetricPacketErrors); [split; [by eexists|done]|].
  destruct (String.eqb mt MetricUtilization); [split; [by eexists|done]|].
  destruct (String.eqb mt MetricTemperature); [split; [by eexists|done]|].
  simpl. split; [done|]. by intros [v Hv].
Qed.

Lemma service_GetMetric_result (t : Time) (k : string) (mt : MetricType)
    (s : telemetryService.t) :
  (telemetryService.GetMetric t k mt s).1
  = if String.eqb k "" then Err "switchID cannot be empty"
    else match cachedRecord s k with
         | None =>
             Err (wrap ("failed to get metric " ++ mt ++ " for switch " ++ k)
                    ("switch " ++ k ++ " not found"))
         | Some d =>
             match GetMetricValue d mt with
             | Err e => Err (wrap ("failed to get metric " ++ mt ++ " for switch " ++ k) e)
             | Ok v =>
                 Ok (mkMetricResponse k mt v
                       (if IsZero (HybridStore.GetLastUpdate k (telemetryService.store s))
                        then t
                        else HybridStore.GetLastUpdate k (telemetryService.store s)))
             end
         end.
Proof.
  unfold telemetryService.GetMetric, cachedRecord.
  destruct (String.eqb k ""); [done|].
  unfold HybridStore.GetMetric, InMemoryCache.GetMetric. simpl.
  destruct (InMemoryCache.data (HybridStore.cache (telemetryService.store s)) !! k)
    as [d|]; simpl; [|done].
  by destruct (GetMetricValue d mt).
Qed.

(** X12. [GetMetric] of the service succeeds exactly when the switch id is
    not empty, the switch is cached and the metric type is one of the five
    the handler accepts; the value is then the cached record's field. With
    an empty switch id the call is refused before the store is touched;
    otherwise it is counted by the store even when it fails. *)
Theorem X12_service_get_metric_succeeds_iff (t : Time) (k : string)
    (mt : MetricType) (s : telemetryService.t) :
  ((exists r, (telemetryService.GetMetric t k mt s).1 = Ok r)
   <-> k ≠ "" ∧ is_Some (cachedRecord s k)
       ∧ telemetryHandler.isValidMetricType mt = true)
  ∧ (forall r d, (telemetryService.GetMetric t k mt s).1 = Ok r ->
       cachedRecord s k = Some d ->
       GetMetricValue d mt = Ok (mr_Value r) ∧ mr_SwitchID r = k
       ∧ mr_MetricType r = mt)
  ∧ (telemetryService.GetMetric t "" mt s).2 = s
  ∧ (k ≠ "" ->
     HybridStore.totalRequests
       (telemetryService.store (telemetryService.GetMetric t k mt s).2)
     = HybridStore.totalRequests (telemetryService.store s) + 1).
Proof.
  rewrite service_GetMetric_result.
  split; [|split; [|split]].
  - destruct (String.eqb_spec k "") as [->|Hk].
    + split; [by intros [r Hr]|]. by intros [? _].
    + destruct (cachedRecord s k) as [d|] eqn:Hc.
      * rewrite (isValidMetricType_GetMetricValue d mt).
        destruct (GetMetricValue d mt) as [v|e].
        -- split; [|by eexists]. intros _. split; [done|]. split; by eexists.
        -- split; [by intros [r Hr]|]. by intros (_ & _ & [v Hv]).
      * split; [by intros [r Hr]|]. by intros (_ & [d Hd] & _).
  - intros r d Hr Hd. destruct (String.eqb k ""); [done|].
    rewrite Hd in Hr. destruct (GetMetricValue d mt) as [v|e]; [|done].
    by injection Hr as <-.
  - done.
  - intros Hk. unfold telemetryService.GetMetric.
    rewrite eqb_empty_false by done.
    unfold HybridStore.GetMetric, InMemoryCache.GetMetric. simpl.
    destruct (InMemoryCache.data _ !! k) as [d|]; simpl; [|done].
    by destruct (GetMetricValue d mt).
Qed.

Lemma X12_service_get_metric_succeeds_iff_witness :
  "sw-01" ≠ ""
  ∧ HybridStore.totalRequests
      (telemetryService.store
         (telemetryService.GetMetric (t2025 + 9) "sw-01" "no_such_metric"
            (serviceWith sw01)).2)
    = HybridStore.totalRequests (telemetryService.store (serviceWith sw01)) + 1.
Proof.
  assert (H : "sw-01" ≠ "") by discriminate.
  split; [exact H|].
  exact (proj2 (proj2 (proj2 (X12_service_get_metric_succeeds_iff (t2025 + 9) "sw-01"
                                "no_such_metric" (serviceWith sw01)))) H).
Defined.

(** X13. The metric endpoint answers 400 when the switch id is empty or
    the metric type is not one of the five known names (the empty name
    included), 404 when both are acceptable but the switch is not cached,
    and 200 otherwise; the envelope has [success] set, and carries data and
    no error text, exactly when the status is 200. A request answered with
    400 never reaches the service. *)
Theorem X13_metric_endpoint_status (now t : Time) (k mt : string)
    (s : telemetryService.t) :
  let out := telemetryHandler.GetMetric now t k mt s in
  out.1.1 = expectedStatus s k mt
  ∧ Success out.1.2 = (out.1.1 =? 200)
  ∧ (is_Some (Data out.1.2) <-> out.1.1 = 200)
  ∧ (Error out.1.2 = "" <-> out.1.1 = 200)
  ∧ (out.1.1 = 400 -> out.2 = s).
Proof.
  intros out. subst out. unfold telemetryHandler.GetMetric, expectedStatus.
  destruct (String.eqb_spec k "") as [->|Hk]; simpl.
  { repeat split; try done; by intros [? ?]. }
  destruct (String.eqb_spec mt "") as [->|Hmt]; simpl.
  { repeat split; try done; by intros [? ?]. }
  destruct (telemetryHandler.isValidMetricType mt) eqn:Hv; simpl.
  2:{ repeat split; try done; by intros [? ?]. }
  pose proof (service_GetMetric_result t k mt s) as Hr.
  rewrite eqb_empty_false in Hr by done.
  destruct (telemetryService.GetMetric t k mt s) as [r s'].
  simpl in Hr. subst r.
  destruct (cachedRecord s k) as [d|]; simpl.
  - destruct (proj1 (isValidMetricType_GetMetricValue d mt) Hv) as [v ->].
    simpl. repeat split; try done; by eexists.
  - repeat split; try done; by intros [? ?].
Qed.

Lemma X13_metric_endpoint_status_witness :
  (telemetryHandler.GetMetric t2025 t2025 "" "latency_ms" (serviceWith sw01)).2
  = serviceWith sw01.
Proof.
  apply (proj2 (proj2 (proj2 (proj2
           (X13_metric_endpoint_status t2025 t2025 "" "latency_ms"
              (serviceWith sw01)))))).
  vm_compute. reflexivity.
Defined.

(** ** The health report *)

(** While the ages are not negative and add up within an [int64] of
    nanoseconds, the sum the store keeps is the exact sum. *)
Lemma totalAge_exact since (l : list (string * TelemetryData)) :
  Forall (fun kd => 0 <= ageOf since kd) l ->
  foldr Z.add 0 (ageOf since <$> l) <= 2 ^ 63 - 1 ->
  foldr (uncurry (fun (k : string) (d : TelemetryData) acc =>
                    HybridStore.wrap64
                      (acc + HybridStore.Sub (since k) (Timestamp d)))) 0 l
  = foldr Z.add 0 (ageOf since <$> l)
  ∧ 0 <= foldr Z.add 0 (ageOf since <$> l).
Proof.
  change (2 ^ 63) with 9223372036854775808.
  induction l as [|[k d] l IH]; intros Hage Hsum; [by split|].
  apply Forall_cons in Hage as [Hk Hage]. rewrite fmap_cons in Hsum |- *.
  cbn [foldr] in Hsum |- *. unfold ageOf in Hk, Hsum |- *. cbn [fst snd] in *.
  unfold ageOf in IH.
  assert (Hnn : 0 <= foldr Z.add 0 ((fun kd : string * TelemetryData =>
                                      since kd.1 - Timestamp kd.2) <$> l)).
  { clear -Hage. induction Hage as [|x l Hx Hl IHl]; [done|].
    rewrite fmap_cons. cbn [foldr]. unfold ageOf in Hx. lia. }
  destruct IH as [IH _]; [done|lia|].
  split; [|lia]. cbn [uncurry fst snd]. rewrite IH.
  unfold HybridStore.Sub, HybridStore.wrap64, Time in *.
  change (2 ^ 63) with 9223372036854775808.
  change (2 ^ 64) with 18446744073709551616.
  rewrite Z.max_r, Z.min_r by lia. rewrite Z.mod_small by lia. lia.
Qed.

Lemma averageAge_mean since s :
  Forall (fun kd => 0 <= ageOf since kd) (cachedRecords s) ->
  totalAge since s <= 2 ^ 63 - 1 ->
  averageAge since s
  = (if switchCount s =? 0 then 0%float else meanAgeSeconds since s)
  ∧ switchCount s = Z.of_nat (length (cachedRecords s)).
Proof.
  intros Hage Hsum.
  unfold averageAge, switchCount, meanAgeSeconds, totalAge, cachedRecords in *.
  unfold HybridStore.GetPerformanceMetrics, HybridStore.GetSwitchCount,
    InMemoryCache.GetSwitchCount, InMemoryCache.ListAllSwitches. simpl.
  set (m := InMemoryCache.data (HybridStore.cache (telemetryService.store s))) in *.
  rewrite length_map_to_list. split; [|done].
  rewrite map_fold_foldr.
  destruct (totalAge_exact since (map_to_list m) Hage Hsum) as [-> _].
  destruct (Z.eqb_spec (Z.of_nat (size m)) 0) as [H0|H0].
  - rewrite H0. reflexivity.
  - assert ((0 <? Z.of_nat (size m)) = true) as -> by (apply Z.ltb_lt; lia).
    reflexivity.
Qed.

(** What the report says whatever the ages are. *)
Lemma health_report_static (since : string -> Time) (s : telemetryService.t)
    (k : string) :
  let h := (telemetryService.GetHealthStatus since s).1 in
  let s' := (telemetryService.GetHealthStatus since s).2 in
  telemetryService.h_checks h !! "storage" = Some "ok"
  ∧ telemetryService.h_checks h !! "cache" = Some "ok"
  ∧ telemetryService.h_checks h !! "switches"
    = Some (if switchCount s =? 0 then "no_data" else "ok")
  ∧ DataAgeSeconds <$> telemetryService.h_performance h
    = Some (averageAge since s)
  ∧ telemetryService.h_checks h !! "data_freshness"
    = (if PrimFloat.ltb 300 (averageAge since s) then Some "warning" else None)
  ∧ ActiveSwitches <$> telemetryService.h_performance h
    = Some (telemetryService.h_switch_count h)
  ∧ telemetryService.h_switch_count h = switchCount s
  ∧ cachedRecord s' k = cachedRecord s k
  ∧ HybridStore.totalRequests (telemetryService.store s')
    = HybridStore.totalRequests (telemetryService.store s).
Proof.
  intros h s'. subst h s'.
  unfold telemetryService.GetHealthStatus, averageAge, switchCount, cachedRecord.
  simpl.
  destruct (PrimFloat.ltb 300 _); destruct (_ =? 0);
    repeat split; vm_compute; reflexivity.
Qed.

(** X14. Provided no cached record is dated after the clock reading taken
    for it and the ages of the cached records add up within an [int64] of
    nanoseconds, the average age in the health report is the mean age of
    the cached records (their exact total in seconds divided by their
    number, in [float64]), or zero when nothing is cached. A
    data_freshness warning is present exactly when switches are cached and
    that mean is above 300 seconds; the status is degraded exactly when
    nothing is cached or the mean is above 300 seconds, and the health
    endpoint answers 200 for healthy and 503 otherwise. The report always
    marks storage and cache as ok, its switches check is no_data exactly
    when no switch is cached, and its switch count is the number of cached
    records. Asking for the report changes no cached record and is not
    counted as a request of the store. *)
Theorem X14_health_report_checks (since : string -> Time) (s : telemetryService.t)
    (k : string) :
  Forall (fun kd => 0 <= ageOf since kd) (cachedRecords s) ->
  totalAge since s <= 2 ^ 63 - 1 ->
  let h := (telemetryService.GetHealthStatus since s).1 in
  let s' := (telemetryService.GetHealthStatus since s).2 in
  telemetryService.h_checks h !! "storage" = Some "ok"
  ∧ telemetryService.h_checks h !! "cache" = Some "ok"
  ∧ telemetryService.h_checks h !! "switches"
    = Some (if switchCount s =? 0 then "no_data" else "ok")
  ∧ DataAgeSeconds <$> telemetryService.h_performance h
    = Some (if switchCount s =? 0 then 0%float else meanAgeSeconds since s)
  ∧ telemetryService.h_checks h !! "data_freshness"
    = (if negb (switchCount s =? 0) && PrimFloat.ltb 300 (meanAgeSeconds since s)
       then Some "warning" else None)
  ∧ (telemetryService.h_status h = "degraded"
     <-> switchCount s = 0 ∨ PrimFloat.ltb 300 (meanAgeSeconds since s) = true)
  ∧ (telemetryService.h_status h = "healthy"
     <-> ¬ (switchCount s = 0 ∨ PrimFloat.ltb 300 (meanAgeSeconds since s) = true))
  ∧ (telemetryHandler.GetHealthStatus since s).1.1
    = (if String.eqb (telemetryService.h_status h) "healthy" then 200 else 503)
  ∧ ActiveSwitches <$> telemetryService.h_performance h
    = Some (telemetryService.h_switch_count h)
  ∧ telemetryService.h_switch_count h = Z.of_nat (length (cachedRecords s))
  ∧ cachedRecord s' k = cachedRecord s k
  ∧ HybridStore.totalRequests (telemetryService.store s')
    = HybridStore.totalRequests (telemetryService.store s).
Proof.
  intros Hage Hsum h s'.
  destruct (averageAge_mean since s Hage Hsum) as [Havg Hcount].
  destruct (health_report_static since s k)
    as (H1 & H2 & H3 & Hperf & Hfresh & H6 & H7 & H8 & H9).
  fold h in H1, H2, H3, Hperf, Hfresh, H6, H7. fold s' in H8, H9.
  assert (Hstatus : telemetryService.h_status h
            = if (switchCount s =? 0) || PrimFloat.ltb 300 (averageAge since s)
              then "degraded" else "healthy")
    by (subst h; apply GetHealthStatus_status).
  assert (Hzero : PrimFloat.ltb 300 0 = false) by (vm_compute; reflexivity).
  rewrite Havg in Hperf, Hfresh, Hstatus.
  split; [exact H1|]. split; [exact H2|]. split; [exact H3|].
  split; [exact Hperf|].
  split; [|split; [|split; [|split; [|split; [exact H6|split; [|split]]]]]].
  - rewrite Hfresh. destruct (switchCount s =? 0); simpl; rewrite ?Hzero; done.
  - rewrite Hstatus. destruct (Z.eqb_spec (switchCount s) 0) as [H0|H0]; simpl.
    + split; [by left|done].
    + destruct (PrimFloat.ltb 300 (meanAgeSeconds since s)); split; try done.
      * by right.
      * by intros [?|?].
  - rewrite Hstatus. destruct (Z.eqb_spec (switchCount s) 0) as [H0|H0]; simpl.
    + split; [done|]. intros Hn. exfalso. apply Hn. by left.
    + destruct (PrimFloat.ltb 300 (meanAgeSeconds since s)); split; try done.
      * intros Hn. exfalso. apply Hn. by right.
      * by intros _ [?|?].
  - unfold telemetryHandler.GetHealthStatus. subst h.
    destruct (telemetryService.GetHealthStatus since s) as [h0 s0]. reflexivity.
  - rewrite <- Hcount. exact H7.
  - exact H8.
  - exact H9.
Qed.

Lemma X14_health_report_checks_witness :
  Forall (fun kd => 0 <= ageOf (fun _ => t2025 + 600 * Second) kd)
         (cachedRecords (serviceWith sw01))
  ∧ totalAge (fun _ => t2025 + 600 * Second) (serviceWith sw01) <= 2 ^ 63 - 1
  ∧ PrimFloat.ltb 300 (meanAgeSeconds (fun _ => t2025 + 600 * Second)
                         (serviceWith sw01)) = true
  ∧ telemetryService.h_status
      (telemetryService.GetHealthStatus (fun _ => t2025 + 600 * Second)
         (serviceWith sw01)).1 = "degraded".
Proof.
  assert (H1 : Forall (fun kd => 0 <= ageOf (fun _ => t2025 + 600 * Second) kd)
                 (cachedRecords (serviceWith sw01)))
    by (refine (proj1 (Forall_fmap (ageOf (fun _ => t2025 + 600 * Second))
                         (fun z => 0 <= z) _) _);
        vm_compute; repeat constructor; discriminate).
  assert (H2 : totalAge (fun _ => t2025 + 600 * Second) (serviceWith sw01)
               <= 2 ^ 63 - 1) by (vm_compute; discriminate).
  assert (H3 : PrimFloat.ltb 300 (meanAgeSeconds (fun _ => t2025 + 600 * Second)
                                    (serviceWith sw01)) = true)
    by (vm_compute; reflexivity).
  repeat (split; [assumption|]).
  exact (proj2 (proj1 (proj2 (proj2 (proj2 (proj2 (proj2
           (X14_health_report_checks (fun _ => t2025 + 600 * Second)
              (serviceWith sw01) "sw-01" H1 H2))))))) (or_intror H3)).
Defined.

(** ** Reading a switch back through the response map *)

(** X15. [HandleGetAllMetrics] returns for a cached switch the cached
    record with nothing lost but the database id and the creation time,
    which the response map does not carry: the five metrics and the
    timestamp survive the conversion to the map of [GetSwitchMetrics] and
    back, whatever the time formatter does. It fails exactly for the empty
    id and for a switch that is not cached. The map of [GetSwitchMetrics]
    has seven entries. *)
Theorem X15_switch_metrics_round_trip (formatRFC3339 : Time -> string)
    (k : string) (s : telemetryService.t) :
  (QueuedTelemetryService.HandleGetAllMetrics formatRFC3339 k s).1
  = (if String.eqb k "" then Err "switchID cannot be empty"
     else match cachedRecord s k with
          | Some d => Ok (stripped k d)
          | None =>
              Err (wrap ("failed to get metrics for switch " ++ k)
                     ("switch " ++ k ++ " not found"))
          end)
  ∧ (forall r, (telemetryService.GetSwitchMetrics formatRFC3339 k s).1 = Ok r ->
       size (ml_Metrics r) = 7%nat ∧ ml_SwitchID r = k
       ∧ ml_Metrics r !! "switch_id"
         = JString <$> (SwitchID <$> cachedRecord s k)).
Proof.
  unfold QueuedTelemetryService.HandleGetAllMetrics,
    telemetryService.GetSwitchMetrics, HybridStore.GetAllMetrics,
    InMemoryCache.GetAllMetrics, cachedRecord.
  destruct (String.eqb k ""); simpl; [by split|].
  destruct (InMemoryCache.data (HybridStore.cache (telemetryService.store s)) !! k)
    as [d|]; simpl; [|by split].
  split.
  - unfold stripped, ToMap, QueuedTelemetryService.asFloat,
      QueuedTelemetryService.asInt.
    repeat (rewrite lookup_insert_eq || (rewrite lookup_insert_ne by done)).
    reflexivity.
  - intros r [= <-]. simpl. unfold ToMap. split; [|split; [done|]].
    + repeat (rewrite map_size_insert_None;
              [|by repeat (rewrite lookup_insert_ne by done)]).
      by rewrite map_size_empty.
    + by rewrite lookup_insert_eq.
Qed.

(** ** Listing all switches *)

(** X16. [GetAllMetrics] of the service never fails. Its count is the
    number of entries it lists and the number of cached switches; the
    entries carry distinct switch ids, one entry for each cached switch and
    no other, each with the timestamp and the map of the cached record. The
    call changes no cached record. *)
Theorem X16_all_metrics_lists_each_switch_once (formatRFC3339 : Time -> string)
    (now : Time) (s : telemetryService.t) (k : string) :
  let out := telemetryService.GetAllMetrics formatRFC3339 now s in
  exists r, out.1 = Ok r
    ∧ am_Count r = Z.of_nat (length (am_Switches r))
    ∧ am_Count r = switchCount s
    ∧ am_Timestamp r = now
    ∧ NoDup (ml_SwitchID <$> am_Switches r)
    ∧ (forall m, m ∈ am_Switches r
         <-> exists d, cachedRecord s (ml_SwitchID m) = Some d
               ∧ m = mkMetricsListResponse (ml_SwitchID m)
                       (ToMap formatRFC3339 d) (Timestamp d))
    ∧ cachedRecord out.2 k = cachedRecord s k.
Proof.
  intros out. subst out.
  unfold telemetryService.GetAllMetrics, HybridStore.ListAllSwitches,
    InMemoryCache.ListAllSwitches, switchCount, HybridStore.GetSwitchCount,
    InMemoryCache.GetSwitchCount, cachedRecord. simpl.
  set (m := InMemoryCache.data (HybridStore.cache (telemetryService.store s))).
  eexists. split; [reflexivity|]. simpl.
  split; [reflexivity|].
  split; [by rewrite length_fmap, length_map_to_list|].
  split; [reflexivity|].
  split; [|split; [|reflexivity]].
  - rewrite <- list_fmap_compose.
    apply (NoDup_fst_map_to_list m).
  - intros r. rewrite list_elem_of_fmap. split.
    + intros [[k' d] [-> Hin]]. apply elem_of_map_to_list in Hin. simpl.
      exists d. by split.
    + intros [d [Hd Hr]]. exists (ml_SwitchID r, d). split; [exact Hr|].
      by apply elem_of_map_to_list.
Qed.

(** ** The polling client: counters *)

Lemma pollAndIngest_counters pt fetched env now gc :
  let out := GeneratorClient.pollAndIngest pt fetched env now gc in
  GeneratorClient.totalPolls out.2 = GeneratorClient.totalPolls gc + 1
  ∧ GeneratorClient.successfulPolls out.2
    = GeneratorClient.successfulPolls gc + tally isIngested [out.1]
  ∧ GeneratorClient.duplicateSkips out.2
    = GeneratorClient.duplicateSkips gc + tally isSkipped [out.1]
  ∧ GeneratorClient.errorCount out.2
    = GeneratorClient.errorCount gc + tally isFailure [out.1]
  ∧ tally isIngested [out.1] + tally isSkipped [out.1] + tally isFailure [out.1] = 1
  ∧ GeneratorClient.lastPollTime out.2 = pt.
Proof.
  unfold GeneratorClient.pollAndIngest, GeneratorClient.fetchAndProcessData, tally.
  destruct fetched as [r|e]; simpl; [|repeat split; lia].
  destruct (GeneratorClient.isDuplicateData _ _ _); simpl; [repeat split; lia|].
  destruct (GeneratorClient.parsed r) as [tds|e]; simpl; [|repeat split; lia].
  destruct (telemetryService.IngestBatch env now tds _) as [[err s'] tr].
  destruct err; simpl; repeat split; lia.
Qed.

Lemma tally_app p os os' : tally p (os ++ os') = tally p os + tally p os'.
Proof. unfold tally. rewrite List.filter_app, length_app. lia. Qed.

Lemma runPolls_counters polls : forall acc,
  let out := foldl applyPoll acc polls in
  length out.1 = (length acc.1 + length polls)%nat
  ∧ GeneratorClient.totalPolls out.2
    = GeneratorClient.totalPolls acc.2 + Z.of_nat (length polls)
  ∧ GeneratorClient.successfulPolls out.2 - tally isIngested out.1
    = GeneratorClient.successfulPolls acc.2 - tally isIngested acc.1
  ∧ GeneratorClient.duplicateSkips out.2 - tally isSkipped out.1
    = GeneratorClient.duplicateSkips acc.2 - tally isSkipped acc.1
  ∧ GeneratorClient.errorCount out.2 - tally isFailure out.1
    = GeneratorClient.errorCount acc.2 - tally isFailure acc.1
  ∧ tally isIngested out.1 + tally isSkipped out.1 + tally isFailure out.1
    - Z.of_nat (length polls)
    = tally isIngested acc.1 + tally isSkipped acc.1 + tally isFailure acc.1.
Proof.
  induction polls as [|p polls IH]; intros acc; simpl.
  { repeat split; lia. }
  specialize (IH (applyPoll acc p)).
  pose proof (pollAndIngest_counters (pollClock p) (pollFetched p) (pollEnv p)
                (pollNow p) acc.2) as Hc.
  assert (E : applyPoll acc p
              = ((acc.1 ++ [(GeneratorClient.pollAndIngest (pollClock p)
                               (pollFetched p) (pollEnv p) (pollNow p) acc.2).1])%list,
                 (GeneratorClient.pollAndIngest (pollClock p)
                    (pollFetched p) (pollEnv p) (pollNow p) acc.2).2)).
  { unfold applyPoll. by destruct (GeneratorClient.pollAndIngest _ _ _ _ _). }
  rewrite E in IH |- *. clear E.
  generalize dependent (GeneratorClient.pollAndIngest (pollClock p)
                          (pollFetched p) (pollEnv p) (pollNow p) acc.2).
  intros [o gc']. cbn [fst snd].
  generalize (foldl applyPoll ((acc.1 ++ [o])%list, gc') polls).
  intros out (H1 & H2 & H3 & H4 & H5 & H6) (C1 & C2 & C3 & C4 & C5 & _).
  rewrite tally_app in H3, H4, H5. repeat rewrite tally_app in H6.
  rewrite length_app in H1. cbn [length] in H1.
  repeat split; lia.
Qed.

(** X17. After any run of polls on a new client every poll is counted
    under exactly one of the three result counters: [successfulPolls] is
    the number of polls that ingested, [duplicateSkips] the number skipped
    as duplicates, [errorCount] the number that failed to fetch, parse or
    ingest, and the three add up to [totalPolls], the number of polls. *)
Theorem X17_poll_counters_partition_polls (polls : list Poll)
    (s : telemetryService.t) :
  let out := runPolls polls (GeneratorClient.NewGeneratorClient s) in
  length out.1 = length polls
  ∧ GeneratorClient.totalPolls out.2 = Z.of_nat (length polls)
  ∧ GeneratorClient.successfulPolls out.2 = tally isIngested out.1
  ∧ GeneratorClient.duplicateSkips out.2 = tally isSkipped out.1
  ∧ GeneratorClient.errorCount out.2 = tally isFailure out.1
  ∧ GeneratorClient.totalPolls out.2
    = GeneratorClient.successfulPolls out.2 + GeneratorClient.duplicateSkips out.2
      + GeneratorClient.errorCount out.2.
Proof.
  intros out. subst out. unfold runPolls.
  pose proof (runPolls_counters polls ([], GeneratorClient.NewGeneratorClient s)) as H.
  generalize dependent (foldl applyPoll ([], GeneratorClient.NewGeneratorClient s) polls).
  intros out (H1 & H2 & H3 & H4 & H5 & H6).
  cbn [fst snd] in *.
  change (tally isIngested []) with 0 in *. change (tally isSkipped []) with 0 in *.
  change (tally isFailure []) with 0 in *.
  unfold GeneratorClient.NewGeneratorClient in *.
  cbn [GeneratorClient.totalPolls GeneratorClient.successfulPolls
       GeneratorClient.duplicateSkips GeneratorClient.errorCount length] in *.
  repeat split; lia.
Qed.

(** ** The polling client: duplicates *)

Lemma pollAndIngest_duplicate pt r env now gc :
  GeneratorClient.isDuplicateData (GeneratorClient.generationID r)
    (GeneratorClient.dataTimestampOf r) gc = true ->
  let out := GeneratorClient.pollAndIngest pt (Ok r) env now gc in
  out.1 = GeneratorClient.Duplicate
  ∧ GeneratorClient.service out.2 = GeneratorClient.service gc
  ∧ lastSeen out.2 = lastSeen gc
  ∧ GeneratorClient.duplicateSkips out.2 = GeneratorClient.duplicateSkips gc + 1
  ∧ GeneratorClient.successfulPolls out.2 = GeneratorClient.successfulPolls gc
  ∧ GeneratorClient.errorCount out.2 = GeneratorClient.errorCount gc.
Proof.
  intros Hd. unfold GeneratorClient.pollAndIngest,
    GeneratorClient.fetchAndProcessData.
  unfold GeneratorClient.isDuplicateData in *. simpl in *. rewrite Hd. done.
Qed.

Lemma pollAndIngest_last_seen pt fetched env now gc :
  let out := GeneratorClient.pollAndIngest pt fetched env now gc in
  out.1 = GeneratorClient.Ingested ->
  exists r, fetched = Ok r
    ∧ lastSeen out.2
      = (GeneratorClient.generationID r, GeneratorClient.dataTimestampOf r).
Proof.
  unfold GeneratorClient.pollAndIngest, GeneratorClient.fetchAndProcessData, lastSeen.
  destruct fetched as [r|e]; simpl; [|done].
  destruct (GeneratorClient.isDuplicateData _ _ _); simpl; [done|].
  destruct (GeneratorClient.parsed r) as [tds|e]; simpl; [|done].
  destruct (telemetryService.IngestBatch env now tds _) as [[err s'] tr].
  destruct err; simpl; [done|]. intros _. by exists r.
Qed.

(** X18. Polling is idempotent on a snapshot already ingested: when a poll
    has ingested a snapshot, the next poll skips as a duplicate every
    snapshot that has the same non-empty generation id, and every snapshot
    whose data timestamp is set and not after the ingested one. The skipped
    poll leaves the service and the last-seen pair as they were and is
    counted in [duplicateSkips] only. *)
Theorem X18_repeated_snapshot_is_skipped (pt pt' now now' : Time)
    (r r' : GeneratorClient.Snapshot) (env env' : list HybridStore.Attempt)
    (gc : GeneratorClient.t) :
  (GeneratorClient.pollAndIngest pt (Ok r) env now gc).1 = GeneratorClient.Ingested ->
  (GeneratorClient.generationID r' = GeneratorClient.generationID r
   ∧ GeneratorClient.generationID r ≠ "")
  ∨ (GeneratorClient.dataTimestampOf r' ≠ 0
     ∧ GeneratorClient.dataTimestampOf r' <= GeneratorClient.dataTimestampOf r) ->
  let gc1 := (GeneratorClient.pollAndIngest pt (Ok r) env now gc).2 in
  let out := GeneratorClient.pollAndIngest pt' (Ok r') env' now' gc1 in
  out.1 = GeneratorClient.Duplicate
  ∧ GeneratorClient.service out.2 = GeneratorClient.service gc1
  ∧ lastSeen out.2 = lastSeen gc1
  ∧ GeneratorClient.duplicateSkips out.2 = GeneratorClient.duplicateSkips gc1 + 1
  ∧ GeneratorClient.successfulPolls out.2 = GeneratorClient.successfulPolls gc1
  ∧ GeneratorClient.errorCount out.2 = GeneratorClient.errorCount gc1.
Proof.
  intros Hin Hsame gc1 out. subst out.
  apply pollAndIngest_duplicate.
  destruct (pollAndIngest_last_seen pt (Ok r) env now gc Hin) as [r0 [[= <-] Hl]].
  fold gc1 in Hl. unfold lastSeen in Hl. injection Hl as Hg Ht.
  apply isDuplicateData_spec. rewrite Hg, Ht.
  destruct Hsame as [[H1 H2]|[H1 H2]]; [left|right]; split; congruence || done.
Qed.

Lemma X18_repeated_snapshot_is_skipped_witness :
  (GeneratorClient.pollAndIngest (t2025 + 9) (Ok firstSnapshot) [] (t2025 + 10)
     clientAfterFirstPoll).1 = GeneratorClient.Duplicate
  ∧ GeneratorClient.service
      (GeneratorClient.pollAndIngest (t2025 + 9) (Ok firstSnapshot) []
         (t2025 + 10) clientAfterFirstPoll).2
    = GeneratorClient.service clientAfterFirstPoll.
Proof.
  assert (Hin : (GeneratorClient.pollAndIngest (t2025 + 1) (Ok firstSnapshot) []
                   (t2025 + 2) (GeneratorClient.NewGeneratorClient service0)).1
                = GeneratorClient.Ingested) by (vm_compute; reflexivity).
  assert (Hsame : (GeneratorClient.generationID firstSnapshot
                   = GeneratorClient.generationID firstSnapshot
                   ∧ GeneratorClient.generationID firstSnapshot ≠ "")
                  ∨ (GeneratorClient.dataTimestampOf firstSnapshot ≠ 0
                     ∧ GeneratorClient.dataTimestampOf firstSnapshot
                       <= GeneratorClient.dataTimestampOf firstSnapshot))
    by (left; split; [reflexivity|vm_compute; discriminate]).
  pose proof (X18_repeated_snapshot_is_skipped (t2025 + 1) (t2025 + 9) (t2025 + 2)
                (t2025 + 10) firstSnapshot firstSnapshot [] []
                (GeneratorClient.NewGeneratorClient service0) Hin Hsame) as H.
  exact (conj (proj1 H) (proj1 (proj2 H))).
Defined.

(** X19. A snapshot that carries no generation id and no data timestamp,
    neither in the header nor in its first row, is never skipped as a
    duplicate, whatever the client has seen before; when the poll ingests
    it the last-seen pair is reset to the empty id and the zero time. *)
Theorem X19_unmarked_snapshot_never_skipped (pt now : Time)
    (r : GeneratorClient.Snapshot) (env : list HybridStore.Attempt)
    (gc : GeneratorClient.t) :
  GeneratorClient.generationID r = "" ->
  GeneratorClient.dataTimestampOf r = 0 ->
  let out := GeneratorClient.pollAndIngest pt (Ok r) env now gc in
  out.1 ≠ GeneratorClient.Duplicate
  ∧ GeneratorClient.duplicateSkips out.2 = GeneratorClient.duplicateSkips gc
  ∧ (out.1 = GeneratorClient.Ingested -> lastSeen out.2 = ("", 0)).
Proof.
  intros Hg Ht out. subst out.
  pose proof (pollAndIngest_last_seen pt (Ok r) env now gc) as Hl.
  unfold GeneratorClient.pollAndIngest, GeneratorClient.fetchAndProcessData in *.
  unfold GeneratorClient.isDuplicateData in *. simpl in *.
  rewrite Hg, Ht in *. simpl in *.
  destruct (GeneratorClient.parsed r) as [tds|e]; simpl in *; [|done].
  destruct (telemetryService.IngestBatch env now tds _) as [[err s'] tr].
  destruct err; simpl in *; [done|].
  split; [done|]. split; [done|]. intros _.
  destruct (Hl eq_refl) as [r0 [[= <-] ->]]. by rewrite Hg, Ht.
Qed.

Lemma X19_unmarked_snapshot_never_skipped_witness :
  (GeneratorClient.pollAndIngest (t2025 + 9)
     (Ok (GeneratorClient.mkSnapshot "" 0 true 0 (Ok [sw01]))) [] (t2025 + 10)
     clientAfterFirstPoll).1 ≠ GeneratorClient.Duplicate.
Proof.
  apply (X19_unmarked_snapshot_never_skipped (t2025 + 9) (t2025 + 10)
           (GeneratorClient.mkSnapshot "" 0 true 0 (Ok [sw01])) []
           clientAfterFirstPoll);
    vm_compute; reflexivity.
Defined.

(** X20. A snapshot that yields no usable record is handled in two ways.
    When the parser kept no row at all the poll counts as successful and
    the last-seen pair moves on to the snapshot, so that the same
    generation will be skipped from then on. When the parser kept rows but
    all of them have an empty switch id the poll counts as an error and the
    last-seen pair stays, so that the snapshot is tried again. In both
    cases the service is left as it was. *)
Theorem X20_snapshot_without_usable_rows (pt now : Time)
    (r : GeneratorClient.Snapshot) (tds : list TelemetryData)
    (env : list HybridStore.Attempt) (gc : GeneratorClient.t) :
  GeneratorClient.isDuplicateData (GeneratorClient.generationID r)
    (GeneratorClient.dataTimestampOf r) gc = false ->
  GeneratorClient.parsed r = Ok tds ->
  Forall (fun d => SwitchID d = "") tds ->
  let out := GeneratorClient.pollAndIngest pt (Ok r) env now gc in
  GeneratorClient.service out.2 = GeneratorClient.service gc
  ∧ (tds = [] ->
     out.1 = GeneratorClient.Ingested
     ∧ lastSeen out.2
       = (GeneratorClient.generationID r, GeneratorClient.dataTimestampOf r)
     ∧ GeneratorClient.successfulPolls out.2 = GeneratorClient.successfulPolls gc + 1
     ∧ GeneratorClient.errorCount out.2 = GeneratorClient.errorCount gc)
  ∧ (tds ≠ [] ->
     out.1 = GeneratorClient.IngestFailed
     ∧ lastSeen out.2 = lastSeen gc
     ∧ GeneratorClient.successfulPolls out.2 = GeneratorClient.successfulPolls gc
     ∧ GeneratorClient.errorCount out.2 = GeneratorClient.errorCount gc + 1).
Proof.
  intros Hd Hp Hall out. subst out.
  unfold GeneratorClient.pollAndIngest, GeneratorClient.fetchAndProcessData.
  unfold GeneratorClient.isDuplicateData in *. simpl in *. rewrite Hd, Hp.
  apply validData_nil_iff in Hall.
  unfold telemetryService.IngestBatch. rewrite Hall.
  destruct tds as [|d tds]; simpl; by repeat split.
Qed.

Lemma X20_snapshot_without_usable_rows_witness :
  (GeneratorClient.pollAndIngest (t2025 + 9)
     (Ok (GeneratorClient.mkSnapshot "gen_2" (t2025 + 5) false (t2025 + 5) (Ok [])))
     [] (t2025 + 10) clientAfterFirstPoll).1 = GeneratorClient.Ingested
  ∧ (GeneratorClient.pollAndIngest (t2025 + 9)
       (Ok (GeneratorClient.mkSnapshot "gen_2" (t2025 + 5) false (t2025 + 5)
              (Ok [anonymous])))
       [] (t2025 + 10) clientAfterFirstPoll).1 = GeneratorClient.IngestFailed.
Proof.
  split.
  - apply (X20_snapshot_without_usable_rows (t2025 + 9) (t2025 + 10)
             (GeneratorClient.mkSnapshot "gen_2" (t2025 + 5) false (t2025 + 5) (Ok []))
             [] [] clientAfterFirstPoll);
      [vm_compute; reflexivity|reflexivity|constructor|reflexivity].
  - apply (X20_snapshot_without_usable_rows (t2025 + 9) (t2025 + 10)
             (GeneratorClient.mkSnapshot "gen_2" (t2025 + 5) false (t2025 + 5)
                (Ok [anonymous]))
             [anonymous] [] clientAfterFirstPoll);
      [vm_compute; reflexivity|reflexivity|by repeat constructor|discriminate].
Defined.

(** ** The polling client: parsing the CSV body *)





(** ** The polling client: switch registration *)



(** ** The store: what a read changes *)





(** ** A manual flush that fails *)

(** X24. When a manual flush fails (the writer gives up or the context is
    cancelled) the records it took off the flush queue are lost to the
    repository: the queue has been emptied, the repository holds what it
    held before, and [pendingFlushItems] still counts the records. They
    survive only as far as the cache holds them. *)
Theorem X24_failed_flush_drops_queued_records (ctx : Context)
    (deadlines : list bool) (env : list HybridStore.Attempt)
    (hs : HybridStore.t) (e : error) :
  Forall (fun b => b = false) deadlines ->
  (HybridStore.FlushToDatabase ctx deadlines env hs).1.1 = Some e ->
  let out := HybridStore.FlushToDatabase ctx deadlines env hs in
  concat (HybridStore.flushQueue hs) ≠ []
  ∧ HybridStore.flushQueue out.1.2 = []
  ∧ HybridStore.repository out.1.2 = HybridStore.repository hs
  ∧ HybridStore.pendingFlushItems out.1.2 = HybridStore.pendingFlushItems hs
  ∧ HybridStore.totalDBWrites out.1.2 = HybridStore.totalDBWrites hs
  ∧ HybridStore.cache out.1.2 = HybridStore.cache hs.
Proof.
  intros Hd Hfail out. subst out.
  unfold HybridStore.FlushToDatabase in *.
  rewrite (collectQueue_no_deadline _ deadlines [] Hd) in *. simpl in *.
  set (all := concat (HybridStore.flushQueue hs)) in *.
  set (emptied := HybridStore.set_queue [] (HybridStore.pendingFlushItems hs) hs) in *.
  assert (Hw : (HybridStore.writeToDatabase ctx env all emptied).1.1 = Some e).
  { destruct all; [done|exact Hfail]. }
  assert (Hsame : (match all with
                   | [] => (None, emptied, [])
                   | _ => HybridStore.writeToDatabase ctx env all emptied
                   end) = HybridStore.writeToDatabase ctx env all emptied).
  { destruct all; [done|reflexivity]. }
  rewrite Hsame.
  destruct (writeToDatabase_failure ctx env all emptied e Hw) as (Hne & Hr & Hp & Hwr).
  pose proof (writeToDatabase_frame ctx env all emptied) as (Hc & Hq & _).
  rewrite Hq, Hr, Hp, Hwr, Hc. done.
Qed.

Lemma X24_failed_flush_drops_queued_records_witness :
  HybridStore.flushQueue
    (HybridStore.FlushToDatabase Background [] alwaysViolates busyStore).1.2 = []
  ∧ HybridStore.repository
      (HybridStore.FlushToDatabase Background [] alwaysViolates busyStore).1.2
    = HybridStore.repository busyStore.
Proof.
  assert (Hfail : (HybridStore.FlushToDatabase Background [] alwaysViolates busyStore).1.1
                  = Some (wrap "failed to write metrics after 3 attempts"
                            constraintViolation))
    by (vm_compute; reflexivity).
  pose proof (X24_failed_flush_drops_queued_records Background [] alwaysViolates
                busyStore _ (Forall_nil_2 _) Hfail) as H.
  exact (conj (proj1 (proj2 H)) (proj1 (proj2 (proj2 H)))).
Defined.

(** ** The two ways of reading a metric agree *)

Lemma ToMap_GetMetricValue (formatRFC3339 : Time -> string) (d : TelemetryData)
    (mt : MetricType) (v : MetricValue) :
  GetMetricValue d mt = Ok v -> ToMap formatRFC3339 d !! mt = Some (valueOf v).
Proof.
  unfold GetMetricValue, ToMap.
  destruct (String.eqb_spec mt MetricBandwidth) as [->|_].
  { intros [= <-]. vm_compute. reflexivity. }
  destruct (String.eqb_spec mt MetricLatency) as [->|_].
  { intros [= <-]. vm_compute. reflexivity. }
  destruct (String.eqb_spec mt MetricPacketErrors) as [->|_].
  { intros [= <-]. vm_compute. reflexivity. }
  destruct (String.eqb_spec mt MetricUtilization) as [->|_].
  { intros [= <-]. vm_compute. reflexivity. }
  destruct (String.eqb_spec mt MetricTemperature) as [->|_].
  { intros [= <-]. vm_compute. reflexivity. }
  done.
Qed.

(** X25. The single-metric read and the per-switch read agree: whenever
    [GetMetric] of the service returns a value for a switch and a metric
    type, [GetSwitchMetrics] succeeds for that switch and its map holds the
    same value under the name of the metric type. Conversely the map has an
    entry under a name exactly when the name is one of the five metric
    types or one of [switch_id] and [timestamp]. *)
Theorem X25_metric_reads_agree (formatRFC3339 : Time -> string) (t : Time)
    (k : string) (mt : MetricType) (s : telemetryService.t) :
  (forall r, (telemetryService.GetMetric t k mt s).1 = Ok r ->
     exists l, (telemetryService.GetSwitchMetrics formatRFC3339 k s).1 = Ok l
       ∧ ml_Metrics l !! mt = Some (valueOf (mr_Value r)))
  ∧ (forall l, (telemetryService.GetSwitchMetrics formatRFC3339 k s).1 = Ok l ->
       (is_Some (ml_Metrics l !! mt)
        <-> telemetryHandler.isValidMetricType mt = true
            ∨ mt = "switch_id" ∨ mt = "timestamp")).
Proof.
  split.
  - intros r. rewrite service_GetMetric_result.
    unfold telemetryService.GetSwitchMetrics, HybridStore.GetAllMetrics,
      InMemoryCache.GetAllMetrics, cachedRecord.
    destruct (String.eqb k ""); [done|]. simpl.
    destruct (InMemoryCache.data (HybridStore.cache (telemetryService.store s)) !! k)
      as [d|]; simpl; [|done].
    destruct (GetMetricValue d mt) as [v|e] eqn:Hv; [|done].
    intros [= <-]. eexists. split; [reflexivity|]. simpl.
    by apply ToMap_GetMetricValue.
  - intros l.
    unfold telemetryService.GetSwitchMetrics, HybridStore.GetAllMetrics,
      InMemoryCache.GetAllMetrics.
    destruct (String.eqb k ""); [done|]. simpl.
    destruct (InMemoryCache.data (HybridStore.cache (telemetryService.store s)) !! k)
      as [d|]; simpl; [|done].
    intros [= <-]. simpl. unfold ToMap, telemetryHandler.isValidMetricType.
    destruct (String.eqb_spec mt "switch_id") as [->|H1].
    { rewrite lookup_insert_eq. split; [by right; left|by eexists]. }
    rewrite lookup_insert_ne by done.
    destruct (String.eqb_spec mt "timestamp") as [->|H2].
    { rewrite lookup_insert_eq. split; [by right; right|by eexists]. }
    rewrite lookup_insert_ne by done.
    simpl.
    destruct (String.eqb_spec mt MetricBandwidth) as [->|H3].
    { rewrite lookup_insert_eq. split; [by left|by eexists]. }
    rewrite lookup_insert_ne by done.
    destruct (String.eqb_spec mt MetricLatency) as [->|H4].
    { rewrite lookup_insert_eq. split; [by left|by eexists]. }
    rewrite lookup_insert_ne by done.
    destruct (String.eqb_spec mt MetricPacketErrors) as [->|H5].
    { rewrite lookup_insert_eq. split; [by left|by eexists]. }
    rewrite lookup_insert_ne by done.
    destruct (String.eqb_spec mt MetricUtilization) as [->|H6].
    { rewrite lookup_insert_eq. split; [by left|by eexists]. }
    rewrite lookup_insert_ne by done.
    destruct (String.eqb_spec mt MetricTemperature) as [->|H7].
    { rewrite lookup_insert_eq. split; [by left|by eexists]. }
    rewrite lookup_insert_ne by done.
    rewrite lookup_empty. simpl. split; [by intros [? ?]|].
    intros [?|[?|?]]; done.
Qed.

(** ** Listing all switches through the response maps *)

Lemma fileEntries_frame {A} (key : A -> string) (val : A -> TelemetryData)
    (l : list A) (k : string) : forall acc : gmap string TelemetryData,
  k ∉ (key <$> l) ->
  foldl (fun result x => <[key x := val x]> result) acc l !! k = acc !! k.
Proof.
  induction l as [|x l IH]; intros acc Hk; [done|]. simpl.
  rewrite fmap_cons in Hk. apply not_elem_of_cons in Hk as [Hx Hl].
  rewrite IH by done. by rewrite lookup_insert_ne.
Qed.

Lemma fileEntries_lookup {A} (key : A -> string) (val : A -> TelemetryData)
    (l : list A) (x : A) : forall acc : gmap string TelemetryData,
  NoDup (key <$> l) -> x ∈ l ->
  foldl (fun result x => <[key x := val x]> result) acc l !! key x = Some (val x).
Proof.
  induction l as [|y l IH]; intros acc Hnd Hin; [by apply elem_of_nil in Hin|].
  rewrite fmap_cons in Hnd. apply NoDup_cons in Hnd as [Hy Hnd]. simpl.
  apply elem_of_cons in Hin as [->|Hin].
  - rewrite fileEntries_frame by done. by rewrite lookup_insert_eq.
  - by apply IH.
Qed.

(** X26. [HandleListAllSwitches] returns, for every cached switch and for
    no other id, the cached record with nothing lost but the database id
    and the creation time: filing the entries of [GetAllMetrics] by switch
    id loses none of them and the metrics survive the conversion to the
    response maps and back. *)
Theorem X26_list_all_switches_round_trip (formatRFC3339 : Time -> string)
    (now : Time) (s : telemetryService.t) (k : string) :
  (QueuedTelemetryService.HandleListAllSwitches formatRFC3339 now s).1 !! k
  = stripped k <$> cachedRecord s k.
Proof.
  unfold QueuedTelemetryService.HandleListAllSwitches,
    telemetryService.GetAllMetrics, HybridStore.ListAllSwitches,
    InMemoryCache.ListAllSwitches, cachedRecord. simpl.
  set (m := InMemoryCache.data (HybridStore.cache (telemetryService.store s))).
  set (entry := fun kv : string * TelemetryData =>
                  mkMetricsListResponse kv.1 (ToMap formatRFC3339 kv.2)
                    (Timestamp kv.2)).
  set (val := fun sm : MetricsListResponse =>
                mkTelemetryData 0 (ml_SwitchID sm) (ml_Timestamp sm)
                  (QueuedTelemetryService.asFloat (ml_Metrics sm !! "bandwidth_mbps"))
                  (QueuedTelemetryService.asFloat (ml_Metrics sm !! "latency_ms"))
                  (QueuedTelemetryService.asInt (ml_Metrics sm !! "packet_errors"))
                  (QueuedTelemetryService.asFloat (ml_Metrics sm !! "utilization_pct"))
                  (QueuedTelemetryService.asFloat (ml_Metrics sm !! "temperature_c"))
                  0).
  assert (Hnd : NoDup (ml_SwitchID <$> (entry <$> map_to_list m))).
  { rewrite <- list_fmap_compose. apply (NoDup_fst_map_to_list m). }
  change (foldl (fun (result : gmap string TelemetryData) x =>
                   <[ml_SwitchID x := val x]> result) ∅ (entry <$> map_to_list m) !! k
          = stripped k <$> m !! k).
  destruct (m !! k) as [d|] eqn:Hk; simpl.
  - assert (Hin : entry (k, d) ∈ entry <$> map_to_list m).
    { apply list_elem_of_fmap. exists (k, d). split; [done|].
      by apply elem_of_map_to_list. }
    pose proof (fileEntries_lookup ml_SwitchID val _ (entry (k, d)) ∅ Hnd Hin) as H.
    simpl in H. rewrite H. reflexivity.
  - rewrite (fileEntries_frame ml_SwitchID val); [done|].
    rewrite <- list_fmap_compose. intros Hin.
    apply list_elem_of_fmap in Hin as [[k' d] [-> Hin]].
    apply elem_of_map_to_list in Hin. unfold compose in Hk. simpl in Hk. congruence.
Qed.
